(** * The todo-list REST API: route handlers over a relational store

    A shallow embedding of [backend/index.ts] (the Express route handlers and
    the [validateIdParam] middleware) and [backend/database.ts] (the three
    TypeORM entities with their class-validator decorators), together with
    the table definitions of [setup.sql].

    The handlers are written in a small state-and-exception monad over an
    in-memory model of the three tables.  The JavaScript built-ins and the
    library calls the handlers rely on ([Number], [isNaN], [new Date],
    [plainToInstance], [validate], [Repository.merge/save/delete/find])
    are modelled next to the code that uses them; each model says which part
    of the library behaviour it covers. *)

From Stdlib Require Import ZArith QArith Qround Qabs String Ascii List.
From stdpp Require Import gmap strings pretty.

Local Open Scope string_scope.
Local Open Scope Z_scope.

(** ** JavaScript numbers

    A Number is an IEEE-754 binary64 value.  A finite one is a dyadic
    rational, kept here as a reduced fraction; the sign of zero is not
    represented (nothing in the handlers can observe it). *)

Inductive jsnum : Type :=
  | NaN
  | PInf
  | NInf
  | Fin (q : Q).

Definition num_of_Z (k : Z) : jsnum := Fin (inject_Z k).

(** [floor_log2 n d] is the integer [e] with [2^e <= n/d < 2^(e+1)]. *)
Definition floor_log2 (n d : positive) : Z :=
  let e0 := Z.log2 (Zpos n) - Z.log2 (Zpos d) in
  let below :=
    if 0 <=? e0 then Zpos n <? Zpos d * 2 ^ e0
    else Zpos n * 2 ^ (- e0) <? Zpos d in
  if below then e0 - 1 else e0.

(** Nearest integer to [num / den] ([den > 0]), ties to even. *)
Definition round_half_even (num den : Z) : Z :=
  let q := num / den in
  let r := num mod den in
  match 2 * r ?= den with
  | Lt => q
  | Gt => q + 1
  | Eq => if Z.even q then q else q + 1
  end.

(** Round the positive rational [n/d] to the nearest binary64 value: 53
    significant bits, exponents down to the subnormal [2^-1074], overflow
    to [Infinity] from [2^1024] on. *)
Definition b64_pos (n d : positive) : jsnum :=
  let e := Z.max (floor_log2 n d - 52) (-1074) in
  if 0 <=? e then
    let m := round_half_even (Zpos n) (Zpos d * 2 ^ e) in
    if 2 ^ 1024 <=? m * 2 ^ e then PInf else Fin (inject_Z (m * 2 ^ e))
  else
    let m := round_half_even (Zpos n * 2 ^ (- e)) (Zpos d) in
    Fin (Qred (Qmake m (Z.to_pos (2 ^ (- e))))).

Definition num_neg (x : jsnum) : jsnum :=
  match x with
  | NaN => NaN
  | PInf => NInf
  | NInf => PInf
  | Fin q => Fin (Qred (- q))
  end.

Definition b64 (q : Q) : jsnum :=
  match Qnum q with
  | Z0 => Fin 0
  | Zpos n => b64_pos n (Qden q)
  | Zneg n => num_neg (b64_pos n (Qden q))
  end.

(** [isNaN(x)] and the comparison [x <= 0] of [validateIdParam].  Every
    comparison with [NaN] is false. *)
Definition isNaN (x : jsnum) : bool :=
  match x with NaN => true | _ => false end.

Definition num_le0 (x : jsnum) : bool :=
  match x with
  | NaN => false
  | PInf => false
  | NInf => true
  | Fin q => Qle_bool q 0
  end.

Definition num_eqb (x y : jsnum) : bool :=
  match x, y with
  | PInf, PInf => true
  | NInf, NInf => true
  | Fin p, Fin q => Qeq_bool p q
  | _, _ => false
  end.

(** [Number.isInteger]: the integer a finite integral Number denotes. *)
Definition num_to_int (x : jsnum) : option Z :=
  match x with
  | Fin q => if (Zpos (Qden q) * (Qnum q / Zpos (Qden q)) =? Qnum q)
             then Some (Qnum q / Zpos (Qden q)) else None
  | _ => None
  end.

Definition Number_isInteger (x : jsnum) : bool :=
  match num_to_int x with Some _ => true | None => false end.

Arguments num_to_int : simpl never.
Arguments Number_isInteger : simpl never.

(** ** [Number(string)]

    The StringToNumber conversion of ECMAScript: surrounding white space is
    dropped, the empty string is [0], and what remains must be a
    StrNumericLiteral (a signed decimal literal with optional fraction and
    exponent, [Infinity], or an unsigned [0x]/[0o]/[0b] integer); anything
    else is [NaN].  The mathematical value is rounded to binary64.  Strings
    are taken to be ASCII: the Unicode space characters are not treated as
    white space. *)

Definition code (c : ascii) : Z := Z.of_N (N_of_ascii c).

Definition is_ws (c : ascii) : bool :=
  let n := code c in ((9 <=? n) && (n <=? 13)) || (n =? 32).

Fixpoint drop_ws (l : list ascii) : list ascii :=
  match l with
  | c :: r => if is_ws c then drop_ws r else l
  | [] => []
  end.

Definition trim_ws (l : list ascii) : list ascii :=
  rev (drop_ws (rev (drop_ws l))).

Definition digit_val (base : Z) (c : ascii) : option Z :=
  let n := code c in
  let v :=
    if (48 <=? n) && (n <=? 57) then n - 48
    else if (97 <=? n) && (n <=? 102) then n - 87
    else if (65 <=? n) && (n <=? 70) then n - 55
    else 99 in
  if v <? base then Some v else None.

(** Reads the longest prefix of digits in [base]: the value read so far, the
    number of digits read, and the rest of the input. *)
Fixpoint read_digits (base : Z) (l : list ascii) (acc cnt : Z)
  : Z * Z * list ascii :=
  match l with
  | c :: r =>
      match digit_val base c with
      | Some v => read_digits base r (acc * base + v) (cnt + 1)
      | None => (acc, cnt, l)
      end
  | [] => (acc, cnt, [])
  end.

Definition is_e (c : ascii) : bool := (code c =? 101) || (code c =? 69).

(** ExponentPart (optional), which must end the literal. *)
Definition read_exponent (l : list ascii) : option Z :=
  match l with
  | [] => Some 0
  | c :: r =>
      if is_e c then
        let '(neg, r') :=
          match r with
          | s :: r' =>
              if code s =? 45 then (true, r')
              else if code s =? 43 then (false, r')
              else (false, r)
          | [] => (false, r)
          end in
        match read_digits 10 r' 0 0 with
        | (v, cnt, []) =>
            if 0 <? cnt then Some (if neg then - v else v) else None
        | _ => None
        end
      else None
  end.

Definition scale10 (m e : Z) : Q :=
  if 0 <=? e then inject_Z (m * 10 ^ e) else Qmake m (Z.to_pos (10 ^ (- e))).

(** StrUnsignedDecimalLiteral. *)
Definition read_unsigned_decimal (l : list ascii) : jsnum :=
  if String.eqb (string_of_list_ascii l) "Infinity" then PInf else
  let '(ip, n1, r1) := read_digits 10 l 0 0 in
  match r1 with
  | c :: r2 =>
      if code c =? 46 then
        let '(fp, n2, r3) := read_digits 10 r2 0 0 in
        if (n1 =? 0) && (n2 =? 0) then NaN else
        match read_exponent r3 with
        | Some e => b64 (scale10 (ip * 10 ^ n2 + fp) (e - n2))
        | None => NaN
        end
      else if n1 =? 0 then NaN else
        match read_exponent r1 with
        | Some e => b64 (scale10 ip e)
        | None => NaN
        end
  | [] => if n1 =? 0 then NaN else b64 (inject_Z ip)
  end.

Definition read_radix (base : Z) (l : list ascii) : jsnum :=
  match read_digits base l 0 0 with
  | (v, cnt, []) => if 0 <? cnt then b64 (inject_Z v) else NaN
  | _ => NaN
  end.

Definition StringToNumber (l : list ascii) : jsnum :=
  match trim_ws l with
  | [] => Fin 0
  | c :: r =>
      if code c =? 45 then num_neg (read_unsigned_decimal r)
      else if code c =? 43 then read_unsigned_decimal r
      else
        match c, r with
        | "0"%char, p :: r' =>
            if (code p =? 120) || (code p =? 88) then read_radix 16 r'
            else if (code p =? 111) || (code p =? 79) then read_radix 8 r'
            else if (code p =? 98) || (code p =? 66) then read_radix 2 r'
            else read_unsigned_decimal (c :: r)
        | _, _ => read_unsigned_decimal (c :: r)
        end
  end.

Definition Number (s : string) : jsnum :=
  StringToNumber (list_ascii_of_string s).

(** ** [Number::toString]

    The decimal form of a Number: the shortest digit string [s] (of [k]
    digits, scaled by [10^(n-k)]) that rounds back to the value, the one
    closest to it when there are two, laid out in positional notation for
    [-6 < n <= 21] and in exponent notation otherwise. *)

Definition pow10Q (e : Z) : Q :=
  if 0 <=? e then inject_Z (10 ^ e) else Qmake 1 (Z.to_pos (10 ^ (- e))).

(** For [q > 0], the [n] with [10^(n-1) <= q < 10^n]. *)
Definition dec_exponent (q : Q) : Z :=
  let est := floor_log2 (Z.to_pos (Qnum q)) (Qden q) * 30103 / 100000 in
  let le c := Qle_bool (pow10Q c) q in
  (if le (est + 1) then est + 1 else if le est then est else est - 1) + 1.

Definition digit_candidates (q : Q) (n0 k : Z) : list (Z * Z) :=
  let lo := Qfloor (q / pow10Q (n0 - k)) in
  let up := if lo + 1 =? 10 ^ k then (10 ^ (k - 1), n0 + 1) else (lo + 1, n0) in
  filter (fun c => num_eqb (b64 (inject_Z (fst c) * pow10Q (snd c - k))) (b64 q))
         [(lo, n0); up].

Definition closest (q : Q) (k : Z) (cs : list (Z * Z)) : option (Z * Z) :=
  let dist c := Qabs (inject_Z (fst c) * pow10Q (snd c - k) - q) in
  match cs with
  | [] => None
  | [c] => Some c
  | c1 :: c2 :: _ => Some (if Qle_bool (dist c1) (dist c2) then c1 else c2)
  end.

Fixpoint shortest_digits (fuel : nat) (q : Q) (n0 k : Z) : Z * Z * Z :=
  match fuel with
  | O => (Qfloor (q / pow10Q (n0 - k)), k, n0)
  | S fuel' =>
      match closest q k (digit_candidates q n0 k) with
      | Some (s, n) => (s, k, n)
      | None => shortest_digits fuel' q n0 (k + 1)
      end
  end.

Definition zeros (n : Z) : string :=
  string_of_list_ascii (repeat "0"%char (Z.to_nat n)).

Definition layout_digits (s k n : Z) : string :=
  let ds := pretty s in
  if (k <=? n) && (n <=? 21) then ds ++ zeros (n - k)
  else if (0 <? n) && (n <=? 21) then
    substring 0 (Z.to_nat n) ds ++ "." ++ substring (Z.to_nat n) (Z.to_nat (k - n)) ds
  else if (-6 <? n) && (n <=? 0) then "0." ++ zeros (- n) ++ ds
  else
    let e := n - 1 in
    let ex := (if e <? 0 then "e-" else "e+") ++ pretty (Z.abs e) in
    if k =? 1 then ds ++ ex
    else substring 0 1 ds ++ "." ++ substring 1 (Z.to_nat (k - 1)) ds ++ ex.

Definition pos_toString (q : Q) : string :=
  let '(s, k, n) := shortest_digits 17 q (dec_exponent q) 1 in
  layout_digits s k n.

Definition Number_toString (x : jsnum) : string :=
  match x with
  | NaN => "NaN"
  | PInf => "Infinity"
  | NInf => "-Infinity"
  | Fin q =>
      match Qnum q with
      | Z0 => "0"
      | Zpos _ => pos_toString q
      | Zneg _ => "-" ++ pos_toString (- q)
      end
  end.

(** ** JSON values and Date objects

    [express.json()] hands the handler a parsed JSON object.  A field of a
    request body is a [json] value; an entity field may also hold a [Date]
    object, whose time value is an integral number of milliseconds or
    absent (an Invalid Date). *)

#[warnings="-register-all"]
Inductive json : Type :=
  | JNull
  | JBool (b : bool)
  | JNum (n : jsnum)
  | JStr (s : string)
  | JArr (l : list json)
  | JObj (l : list (string * json)).

Inductive jsval : Type :=
  | J (j : json)
  | VDate (t : option Z).

Abbreviation obj := (gmap string jsval).

(** Truthiness, as tested by [if (req.body.dueDate)]. *)
Definition truthy (v : jsval) : bool :=
  match v with
  | J JNull => false
  | J (JBool b) => b
  | J (JNum n) => negb (isNaN n || num_eqb n (Fin 0))
  | J (JStr s) => negb (String.eqb s "")
  | J (JArr _) | J (JObj _) => true
  | VDate _ => true
  end.

(** [ToString] of a JSON value, as reached through [ToPrimitive]: arrays
    print by [Array.prototype.join], a plain object prints as
    ["[object Object]"] unless an own [toString] property (which, coming from
    JSON, is not callable) hides the inherited method, in which case the
    conversion throws a [TypeError] ([None]). *)
Fixpoint ToString (j : json) : option string :=
  match j with
  | JNull => Some "null"
  | JBool b => Some (if b then "true" else "false")
  | JNum n => Some (Number_toString n)
  | JStr s => Some s
  | JArr l =>
      (fix join (l : list json) : option string :=
         match l with
         | [] => Some ""
         | x :: r =>
             s ← match x with JNull => Some "" | _ => ToString x end;
             match r with
             | [] => Some s
             | _ => t ← join r; Some (s ++ "," ++ t)
             end
         end) l
  | JObj l =>
      if existsb (fun kv => String.eqb (fst kv) "toString") l then None
      else Some "[object Object]"
  end.

(** *** The date-time string format

    [Date.parse] must recognise the ECMAScript format
    [YYYY-MM-DDTHH:mm:ss.sssZ] and its shorter forms.  [iso_parse] covers
    the strings whose time value the standard fixes: date-only forms (UTC) and
    date-times with an explicit [Z] or [+HH:mm]/[-HH:mm] offset, with all
    fields in range.  Everything else (date-times in local time, other
    formats) is left to the host. *)

Fixpoint take_digits (n : nat) (l : list ascii) (acc : Z)
  : option (Z * list ascii) :=
  match n with
  | O => Some (acc, l)
  | S n' =>
      match l with
      | c :: r =>
          match digit_val 10 c with
          | Some v => take_digits n' r (acc * 10 + v)
          | None => None
          end
      | [] => None
      end
  end.

Definition expect (c : Z) (l : list ascii) : option (list ascii) :=
  match l with
  | x :: r => if code x =? c then Some r else None
  | [] => None
  end.

Definition is_leap (y : Z) : bool :=
  (y mod 4 =? 0) && (negb (y mod 100 =? 0) || (y mod 400 =? 0)).

Definition days_in_month (y m : Z) : Z :=
  if m =? 2 then (if is_leap y then 29 else 28)
  else if (m =? 4) || (m =? 6) || (m =? 9) || (m =? 11) then 30
  else 31.

(** Days from 1970-01-01 to the given day of the proleptic Gregorian
    calendar. *)
Definition days_from_civil (y m d : Z) : Z :=
  let y' := if m <=? 2 then y - 1 else y in
  let era := y' / 400 in
  let yoe := y' - era * 400 in
  let doy := (153 * (if 2 <? m then m - 3 else m + 9) + 2) / 5 + d - 1 in
  let doe := yoe * 365 + yoe / 4 - yoe / 100 + doy in
  era * 146097 + doe - 719468.

(** [TimeClip]: a time value is at most 8.64e15 ms from the epoch. *)
Definition TimeClip (t : Z) : option Z :=
  if Z.abs t <=? 8640000000000000 then Some t else None.

Definition read_year (l : list ascii) : option (Z * list ascii) :=
  match l with
  | c :: r =>
      if code c =? 43 then take_digits 6 r 0
      else if code c =? 45 then
        '(y, r') ← take_digits 6 r 0;
        if y =? 0 then None else Some (- y, r')
      else take_digits 4 l 0
  | [] => None
  end.

Definition read_date (l : list ascii) : option (Z * Z * Z * list ascii) :=
  '(y, r) ← read_year l;
  match expect 45 r with
  | None => Some (y, 1, 1, r)
  | Some r1 =>
      '(m, r2) ← take_digits 2 r1 0;
      match expect 45 r2 with
      | None => Some (y, m, 1, r2)
      | Some r3 => '(d, r4) ← take_digits 2 r3 0; Some (y, m, d, r4)
      end
  end.

(** Milliseconds into the day, and the rest of the input. *)
Definition read_time (l : list ascii) : option (Z * list ascii) :=
  '(h, r1) ← take_digits 2 l 0;
  r2 ← expect 58 r1;
  '(mi, r3) ← take_digits 2 r2 0;
  '(s, ms, r) ←
    match expect 58 r3 with
    | None => Some (0, 0, r3)
    | Some r4 =>
        '(s, r5) ← take_digits 2 r4 0;
        match expect 46 r5 with
        | None => Some (s, 0, r5)
        | Some r6 => '(ms, r7) ← take_digits 3 r6 0; Some (s, ms, r7)
        end
    end;
  if ((h <=? 23) && (mi <=? 59) && (s <=? 59))
     || ((h =? 24) && (mi =? 0) && (s =? 0) && (ms =? 0))
  then Some (((h * 60 + mi) * 60 + s) * 1000 + ms, r)
  else None.

(** The UTC offset in minutes; a missing offset means local time, which
    [iso_parse] does not decide. *)
Definition read_offset (l : list ascii) : option Z :=
  match l with
  | [] => None
  | c :: r =>
      if (code c =? 90) then (match r with [] => Some 0 | _ => None end)
      else
        sign ← (if code c =? 43 then Some 1
                else if code c =? 45 then Some (-1) else None);
        '(h, r1) ← take_digits 2 r 0;
        r2 ← expect 58 r1;
        '(m, r3) ← take_digits 2 r2 0;
        match r3 with
        | [] => if (h <=? 23) && (m <=? 59) then Some (sign * (h * 60 + m))
                else None
        | _ => None
        end
  end.

Definition iso_parse (s : string) : option Z :=
  '(y, m, d, r) ← read_date (list_ascii_of_string s);
  if (1 <=? m) && (m <=? 12) && (1 <=? d) && (d <=? days_in_month y m) then
    let day := days_from_civil y m d * 86400000 in
    match r with
    | [] => TimeClip day
    | c :: r1 =>
        if code c =? 84 then
          '(t, r2) ← read_time r1;
          off ← read_offset r2;
          TimeClip (day + t - off * 60000)
        else None
    end
  else None.

(** [TimeClip(ToNumber(v))] for a Number operand of [new Date]. *)
Definition time_of_num (n : jsnum) : option Z :=
  match n with
  | Fin q =>
      if Qle_bool (Qabs q) (inject_Z 8640000000000000)
      then Some (Z.quot (Qnum q) (Zpos (Qden q))) else None
  | _ => None
  end.

Section Dates.

(** What the host's [Date.parse] makes of the strings [iso_parse] leaves
    open: the time value, or nothing for an unrecognised string. *)
Variable host_parse : string -> option Z.

Definition Date_parse (s : string) : option Z :=
  match iso_parse s with
  | Some t => Some t
  | None => host_parse s ≫= TimeClip
  end.

(** [new Date(v)].  A [Date] operand is copied; any other operand goes
    through [ToPrimitive]: a string is parsed, anything else is converted
    to a Number.  [None] is the [TypeError] of [ToString]. *)
Definition new_Date (v : jsval) : option jsval :=
  match v with
  | VDate t => Some (VDate t)
  | J (JStr s) => Some (VDate (Date_parse s))
  | J (JNum n) => Some (VDate (time_of_num n))
  | J (JBool b) => Some (VDate (Some (if b then 1 else 0)))
  | J JNull => Some (VDate (Some 0))
  | J j => s ← ToString j; Some (VDate (Date_parse s))
  end.

End Dates.

Definition no_host_parse : string -> option Z := fun _ => None.

(** ** Entities ([database.ts])

    An entity instance is a JavaScript object: a finite map from property
    names to values, a missing key reading as [undefined]. *)

Inductive entity : Type := User | List | Task.

Definition jnum (k : Z) : jsval := J (JNum (num_of_Z k)).
Definition jstr (s : string) : jsval := J (JStr s).
Definition jbool (b : bool) : jsval := J (JBool b).

(** The [@PrimaryGeneratedColumn] and [@Column] properties of each class. *)
Definition columns (E : entity) : list string :=
  match E with
  | User => ["id"; "name"]
  | List => ["id"; "userId"; "name"]
  | Task => ["id"; "listId"; "text"; "description"; "dueDate"; "completed"]
  end.

(** [new E()]: the property initialisers of the class. *)
Definition new_instance (E : entity) : obj :=
  match E with
  | User => ∅
  | List => ∅
  | Task => {[ "description" := jstr "";
               "dueDate" := VDate (Some 0);
               "completed" := jbool false ]}
  end.

(** *** class-transformer

    [plainToInstance] walks the plain value key by key, at every depth.  A
    key is passed over when it is [__proto__] or [constructor], or when the
    object under construction already has a method of that name: for a
    fresh instance or a fresh [{}] these are the methods of
    [Object.prototype]. *)
Definition not_copied (k : string) : bool :=
  bool_decide
    (k ∈ [ "__proto__"; "constructor"; "toString"; "toLocaleString";
           "valueOf"; "hasOwnProperty"; "isPrototypeOf";
           "propertyIsEnumerable"; "__defineGetter__"; "__defineSetter__";
           "__lookupGetter__"; "__lookupSetter__" ]).

(** The own property [k] of a parsed JSON object: the last member of that
    name. *)
Definition own (k : string) (l : list (string * json)) : option json :=
  foldl (fun acc kv => if String.eqb kv.1 k then Some kv.2 else acc) None l.

(** The copy of a nested value.  An array is copied element by element.
    For an object without a declared type the transformer takes
    [value.constructor] as the class to instantiate when that is not
    [Object]: an own [constructor] entry that is truthy (no JSON value is a
    constructor) makes [new] throw a [TypeError] ([None]); with a falsy one,
    or none, the copy is a fresh [{}] with the entries that are copied. *)
Fixpoint transform (j : json) : option json :=
  match j with
  | JArr l =>
      JArr <$>
        (fix each (l : list json) : option (list json) :=
           match l with
           | [] => Some []
           | x :: r => x' ← transform x; r' ← each r; Some (x' :: r')
           end) l
  | JObj l =>
      if match own "constructor" l with
         | Some c => truthy (J c)
         | None => false
         end
      then None
      else
        JObj <$>
          (fix each (l : list (string * json))
             : option (list (string * json)) :=
             match l with
             | [] => Some []
             | (k, x) :: r =>
                 if not_copied k then each r
                 else x' ← transform x; r' ← each r; Some ((k, x') :: r')
             end) l
  | _ => Some j
  end.

(** A [Date] is copied as a [Date] of the same time value. *)
Definition transform_val (v : jsval) : option jsval :=
  match v with
  | J j => J <$> transform j
  | VDate t => Some (VDate t)
  end.

(** [plainToInstance(E, plain)] with its default options: a fresh [new E()]
    onto which the copy of every own property of [plain] is written, but
    for the keys that are passed over; it throws ([None]) when the copy of
    one of them does. *)
Definition plainToInstance (E : entity) (plain : obj) : option obj :=
  let kept := filter (fun kv => not_copied kv.1 = false) plain in
  if bool_decide (map_Forall (fun _ v => is_Some (transform_val v)) kept)
  then Some (omap transform_val kept ∪ new_instance E)
  else None.

(** *** class-validator *)

(** The decorators of a class, property by property in declaration order. *)

Inductive check : Type := IsString | IsInt | IsBoolean | IsDate.

Record rule : Type := {
  property : string;
  checks : list check;
  IsOptional : bool
}.

Definition rules (E : entity) : list rule :=
  match E with
  | User =>
      [ {| property := "name"; checks := [IsString]; IsOptional := false |} ]
  | List =>
      [ {| property := "userId"; checks := [IsInt]; IsOptional := false |};
        {| property := "name"; checks := [IsString]; IsOptional := false |} ]
  | Task =>
      [ {| property := "listId"; checks := [IsInt]; IsOptional := false |};
        {| property := "text"; checks := [IsString]; IsOptional := false |};
        {| property := "description"; checks := [IsString]; IsOptional := true |};
        {| property := "dueDate"; checks := [IsDate]; IsOptional := true |};
        {| property := "completed"; checks := [IsBoolean]; IsOptional := true |} ]
  end.

(** The four validators, on a property value ([None] is [undefined]):
    [typeof v === "string"], [typeof v === "number" && Number.isInteger(v)],
    [typeof v === "boolean"], and [v instanceof Date && !isNaN(v.getTime())]. *)
Definition passes (c : check) (v : option jsval) : bool :=
  match c, v with
  | IsString, Some (J (JStr _)) => true
  | IsInt, Some (J (JNum n)) => Number_isInteger n
  | IsBoolean, Some (J (JBool _)) => true
  | IsDate, Some (VDate (Some _)) => true
  | _, _ => false
  end.

Definition constraint_name (c : check) : string :=
  match c with
  | IsString => "isString"
  | IsInt => "isInt"
  | IsBoolean => "isBoolean"
  | IsDate => "isDate"
  end.

Definition default_message (c : check) (p : string) : string :=
  match c with
  | IsString => p ++ " must be a string"
  | IsInt => p ++ " must be an integer number"
  | IsBoolean => p ++ " must be a boolean value"
  | IsDate => p ++ " must be a Date instance"
  end.

Record ValidationError : Type := {
  err_property : string;
  constraints : list (string * string)
}.

(** [@IsOptional()] skips the other validators of a property whose value is
    [null] or [undefined]. *)
Definition skipped (r : rule) (v : option jsval) : bool :=
  IsOptional r &&
  match v with None | Some (J JNull) => true | _ => false end.

Definition failed_constraints (r : rule) (v : option jsval)
  : list (string * string) :=
  if skipped r v then []
  else map (fun c => (constraint_name c, default_message c (property r)))
           (List.filter (fun c => negb (passes c v)) (checks r)).

(** [validate(e)]: one error for each property with a failed constraint. *)
Definition validate (E : entity) (e : obj) : list ValidationError :=
  omap (fun r =>
          match failed_constraints r (e !! property r) with
          | [] => None
          | cs => Some {| err_property := property r; constraints := cs |}
          end)
       (rules E).

(** ** Responses *)

Inductive payload : Type :=
  | Message (m : string)
  | Entity (e : obj)
  | Entities (l : list obj)
  | Constraints (l : list (list (string * string)))
  | NoBody.

Record response : Type := { status : Z; body : payload }.

(** [res.status(c).json(x)], and [res.json(x)] with the default status. *)
Definition res_status (c : Z) (x : payload) : response :=
  {| status := c; body := x |}.
Definition res_json (x : payload) : response := res_status 200 x.

(** ** The store ([setup.sql])

    Three tables with auto-increment integer keys.  A row holds the data
    columns of its entity, SQL [NULL] being [null]; the row read back as an
    entity carries its key as [id].  The store keeps the values it is given
    and accepts a key or a string of any size: the width of a column, the
    range of [INT], the conversion the server applies to a value of another
    type than its column's, and what a refused [INSERT] does to the counter
    are not modelled.  The statements below that speak of a stored value or
    of a successful write keep to values of the column's type and size; a
    string is taken to be written in the character set of its column. *)

Record table : Type := {
  rows : gmap Z obj;
  AUTO_INCREMENT : Z
}.

Record store : Type := {
  users : table;
  lists : table;
  tasks : table
}.

Definition table_of (E : entity) (s : store) : table :=
  match E with
  | User => users s
  | List => lists s
  | Task => tasks s
  end.

Definition set_table (E : entity) (t : table) (s : store) : store :=
  match E with
  | User => {| users := t; lists := lists s; tasks := tasks s |}
  | List => {| users := users s; lists := t; tasks := tasks s |}
  | Task => {| users := users s; lists := lists s; tasks := t |}
  end.

Definition data_columns (E : entity) : list string :=
  match E with
  | User => ["name"]
  | List => ["userId"; "name"]
  | Task => ["listId"; "text"; "description"; "dueDate"; "completed"]
  end.

(** [NOT NULL] columns, the [DEFAULT] of a column, and the
    [FOREIGN KEY ... ON DELETE CASCADE] of a table. *)
Definition not_null (E : entity) : list string :=
  match E with
  | User => ["name"]
  | List => ["userId"; "name"]
  | Task => ["listId"; "text"]
  end.

Definition column_default (c : string) : jsval :=
  if String.eqb c "completed" then jbool false else J JNull.

Definition references (E : entity) : option (string * entity) :=
  match E with
  | User => None
  | List => Some ("userId", User)
  | Task => Some ("listId", List)
  end.

(** The key a column of a row refers to, when it holds an integral Number. *)
Definition ref_of (c : string) (row : obj) : option Z :=
  match row !! c with
  | Some (J (JNum n)) => num_to_int n
  | _ => None
  end.

Definition is_null (v : option jsval) : bool :=
  match v with None | Some (J JNull) => true | _ => false end.

(** The constraints a written row must meet. *)
Definition row_ok (E : entity) (row : obj) (s : store) : bool :=
  forallb (fun c => negb (is_null (row !! c))) (not_null E) &&
  match references E with
  | None => true
  | Some (c, P) =>
      match ref_of c row with
      | Some k => bool_decide (is_Some (rows (table_of P s) !! k))
      | None => false
      end
  end.

(** The row written for entity [e]: a column the entity leaves [undefined]
    keeps its value in [old], or takes the column default. *)
Definition write_row (E : entity) (e old : obj) : obj :=
  list_to_map
    ((fun c => (c, default (default (column_default c) (old !! c)) (e !! c)))
       <$> data_columns E).

Definition hydrate (k : Z) (row : obj) : obj := <["id" := jnum k]> row.

(** [SELECT ... WHERE id = n].  A finite operand that is no key matches
    nothing; a non-finite one is rendered by the driver as a bare word,
    which the server rejects ([None]: the query fails). *)
Definition select_by_id (E : entity) (n : jsnum) (s : store)
  : option (option obj) :=
  match n with
  | Fin _ =>
      Some (k ← num_to_int n; hydrate k <$> rows (table_of E s) !! k)
  | _ => None
  end.

(** [SELECT ... WHERE c = n], in no particular order. *)
Definition select_where (E : entity) (c : string) (n : jsnum) (s : store)
  : option (list obj) :=
  match n with
  | Fin _ =>
      Some match num_to_int n with
           | Some k =>
               (fun kr => hydrate kr.1 kr.2) <$>
               filter (fun kr => ref_of c kr.2 = Some k)
                      (map_to_list (rows (table_of E s)))
           | None => []
           end
  | _ => None
  end.

Definition select_all (E : entity) (s : store) : list obj :=
  (fun kr => hydrate kr.1 kr.2) <$> map_to_list (rows (table_of E s)).

Definition insert_row (E : entity) (k : Z) (e : obj) (s : store)
  : option store :=
  let t := table_of E s in
  let row := write_row E e ∅ in
  if row_ok E row s && bool_decide (rows t !! k = None) then
    Some (set_table E {| rows := <[k := row]> (rows t);
                         AUTO_INCREMENT := Z.max (AUTO_INCREMENT t) (k + 1) |} s)
  else None.

Definition update_row (E : entity) (k : Z) (e old : obj) (s : store)
  : option store :=
  let t := table_of E s in
  let row := write_row E e old in
  if row_ok E row s then
    Some (set_table E {| rows := <[k := row]> (rows t);
                         AUTO_INCREMENT := AUTO_INCREMENT t |} s)
  else None.

(** An [INSERT] that leaves the key to the table: the row goes under the
    counter, which becomes the [id] of the entity. *)
Definition insert_generated (E : entity) (e : obj) (s : store)
  : option (obj * store) :=
  let k := AUTO_INCREMENT (table_of E s) in
  s' ← insert_row E k e s; Some (hydrate k e, s').

(** [Repository.save(e)]: an entity without [id] is inserted under the next
    auto-increment key, which becomes its [id]; an entity whose [id] is the
    key of a row updates that row; an entity with any other integer as [id]
    is inserted under that [id], of either sign, but for [0], which an
    [AUTO_INCREMENT] column takes as a request for the next key.  The saved
    entity is returned.  Only an integral Number is modelled as a supplied
    [id]: what the store makes of another value is left out, and the save
    is taken to fail. *)
Definition persist (E : entity) (e : obj) (s : store) : option (obj * store) :=
  match e !! "id" with
  | None | Some (J JNull) => insert_generated E e s
  | Some (J (JNum n)) =>
      match num_to_int n with
      | Some k =>
          match rows (table_of E s) !! k with
          | Some old => s' ← update_row E k e old s; Some (e, s')
          | None =>
              if k =? 0 then insert_generated E e s
              else s' ← insert_row E k e s; Some (e, s')
          end
      | None => None
      end
  | Some _ => None
  end.

(** [ON DELETE CASCADE]: the rows of a table that refer to a deleted key of
    the parent table go with it. *)
Definition refers_to (c : string) (gone : gset Z) (row : obj) : bool :=
  match ref_of c row with
  | Some k => bool_decide (k ∈ gone)
  | None => false
  end.

Definition dependants (c : string) (gone : gset Z) (child : table) : gset Z :=
  dom (filter (fun kr => refers_to c gone kr.2 = true) (rows child)).

Definition cascade (c : string) (gone : gset Z) (child : table) : table :=
  {| rows := filter (fun kr => refers_to c gone kr.2 = false) (rows child);
     AUTO_INCREMENT := AUTO_INCREMENT child |}.

Definition delete_row (E : entity) (k : Z) (s : store) : store :=
  let t := table_of E s in
  let t' := {| rows := delete k (rows t);
               AUTO_INCREMENT := AUTO_INCREMENT t |} in
  match E with
  | User =>
      {| users := t';
         lists := cascade "userId" {[k]} (lists s);
         tasks := cascade "listId" (dependants "userId" {[k]} (lists s))
                          (tasks s) |}
  | List =>
      {| users := users s;
         lists := t';
         tasks := cascade "listId" {[k]} (tasks s) |}
  | Task =>
      {| users := users s; lists := lists s; tasks := t' |}
  end.

(** [DELETE ... WHERE id = n]: the number of rows of the table itself that
    went, and the store without them and their dependants. *)
Definition remove (E : entity) (n : jsnum) (s : store) : option (Z * store) :=
  match n with
  | Fin _ =>
      match num_to_int n with
      | Some k =>
          if bool_decide (is_Some (rows (table_of E s) !! k))
          then Some (1, delete_row E k s) else Some (0, s)
      | None => Some (0, s)
      end
  | _ => None
  end.

(** ** Handlers as store computations

    A handler runs against a [world]: the store and the log of the queries
    sent to it.  A computation returns a value or throws. *)

Inductive query : Type :=
  | QFind (E : entity)
  | QFindWhere (E : entity) (c : string) (n : jsnum)
  | QFindOneBy (E : entity) (n : jsnum)
  | QSave (E : entity) (e : obj)
  | QDelete (E : entity) (n : jsnum).

Record world : Type := {
  db : store;
  queries : list query
}.

Inductive outcome (A : Type) : Type :=
  | Ok (a : A)
  | Thrown.
Arguments Ok {A} a.
Arguments Thrown {A}.

Definition M (A : Type) : Type := world -> outcome A * world.

#[global] Instance M_ret : MRet M := fun A a w => (Ok a, w).

#[global] Instance M_bind : MBind M := fun A B f m w =>
  match m w with
  | (Ok a, w') => f a w'
  | (Thrown, w') => (Thrown, w')
  end.

Definition throw {A : Type} : M A := fun w => (Thrown, w).

(** [try { m } catch (error) { h }]. *)
Definition try_catch {A : Type} (m h : M A) : M A := fun w =>
  match m w with
  | (Ok a, w') => (Ok a, w')
  | (Thrown, w') => h w'
  end.

Definition or_throw {A : Type} (o : option A) : M A :=
  match o with
  | Some a => mret a
  | None => throw
  end.

(** Sends query [q]; [f] is its effect on the store. *)
Definition send {A : Type} (q : query) (f : store -> option (A * store))
  : M A := fun w =>
  let log := (queries w ++ [q])%list in
  match f (db w) with
  | Some (a, s') => (Ok a, {| db := s'; queries := log |})
  | None => (Thrown, {| db := db w; queries := log |})
  end.

(** The TypeORM repository of an entity, as the handlers use it. *)
Module Repository.

Definition find (E : entity) : M (list obj) :=
  send (QFind E) (fun s => Some (select_all E s, s)).

(** [find({ where: { c: n } })]. *)
Definition find_where (E : entity) (c : string) (n : jsnum) : M (list obj) :=
  send (QFindWhere E c n) (fun s => l ← select_where E c n s; Some (l, s)).

(** [findOneBy({ id: n })]. *)
Definition findOneBy (E : entity) (n : jsnum) : M (option obj) :=
  send (QFindOneBy E n) (fun s => o ← select_by_id E n s; Some (o, s)).

(** [merge(e, plain)] copies onto [e] the column properties of [plain] that
    are not [undefined]; it does not touch the store. *)
Definition merge (E : entity) (e plain : obj) : obj :=
  filter (fun kv => kv.1 ∈ columns E) plain ∪ e.

Definition save (E : entity) (e : obj) : M obj :=
  send (QSave E e) (persist E e).

(** [delete(n)], returning [result.affected]. *)
Definition delete (E : entity) (n : jsnum) : M Z :=
  send (QDelete E n) (remove E n).

End Repository.

(** Helper function to validate entities: answers 400 with the constraints
    of each error, or returns [null]. *)
Definition validateEntity (E : entity) (e : obj) : option response :=
  match validate E e with
  | [] => None
  | errors => Some (res_status 400 (Constraints (constraints <$> errors)))
  end.

(** Middleware to validate IDs in params. *)
Definition validateIdParam (id : string) (next : M response) : M response :=
  let id := Number id in
  if isNaN id || num_le0 id then
    mret (res_status 400 (Message "Invalid ID parameter"))
  else next.

(** ** The route handlers ([index.ts])

    Each definition is the [async (req, res) => ...] function of one route,
    applied to [req.params.id] and [req.body] as the route has them, and
    returns the response it sends.  [req.body] is a JSON object, as the
    routes document it. *)

Abbreviation json_body := (gmap string json).

(** The [catch] block of every handler: the error is logged and the answer
    is 500 with a fixed message. *)
Definition error_500 (m : string) : M response :=
  mret (res_status 500 (Message m)).

(** *** User routes *)

(** Retrieve all users. *)
Definition get_users : M response :=
  try_catch
    (users ← Repository.find User;
     mret (res_json (Entities users)))
    (error_500 "Error fetching users").

(** Retrieve a user by ID. *)
Definition get_users_id (id : string) : M response :=
  try_catch
    (user ← Repository.findOneBy User (Number id);
     match user with
     | None => mret (res_status 404 (Message "User not found"))
     | Some user => mret (res_json (Entity user))
     end)
    (error_500 "Error fetching user").

(** Create a new user. *)
Definition post_users (body : json_body) : M response :=
  try_catch
    (newUser ← or_throw (plainToInstance User (J <$> body));
     match validateEntity User newUser with
     | Some error => mret error
     | None =>
         savedUser ← Repository.save User newUser;
         mret (res_status 201 (Entity savedUser))
     end)
    (error_500 "Error creating user").

(** Update a user by ID. *)
Definition put_users_id (id : string) (body : json_body) : M response :=
  try_catch
    (user ← Repository.findOneBy User (Number id);
     match user with
     | None => mret (res_status 404 (Message "User not found"))
     | Some user =>
         let updatedUser := Repository.merge User user (J <$> body) in
         instance ← or_throw (plainToInstance User updatedUser);
         match validateEntity User instance with
         | Some error => mret error
         | None =>
             result ← Repository.save User updatedUser;
             mret (res_json (Entity result))
         end
     end)
    (error_500 "Error updating user").

(** Delete a user by ID. *)
Definition delete_users_id (id : string) : M response :=
  try_catch
    (affected ← Repository.delete User (Number id);
     if affected =? 0 then mret (res_status 404 (Message "User not found"))
     else mret (res_status 204 NoBody))
    (error_500 "Error deleting user").

(** *** List routes *)

(** Retrieve lists for a user by ID. *)
Definition get_lists_user_id (id : string) : M response :=
  try_catch
    (let userId := Number id in
     lists ← Repository.find_where List "userId" userId;
     match lists with
     | [] => mret (res_status 404 (Message "No lists found for this user"))
     | _ => mret (res_json (Entities lists))
     end)
    (error_500 "Error fetching lists").

(** Retrieve a list by ID. *)
Definition get_lists_id (id : string) : M response :=
  try_catch
    (list ← Repository.findOneBy List (Number id);
     match list with
     | None => mret (res_status 404 (Message "List not found"))
     | Some list => mret (res_json (Entity list))
     end)
    (error_500 "Error fetching list").

(** Create a new list. *)
Definition post_lists (body : json_body) : M response :=
  try_catch
    (newList ← or_throw (plainToInstance List (J <$> body));
     match validateEntity List newList with
     | Some error => mret error
     | None =>
         savedList ← Repository.save List newList;
         mret (res_status 201 (Entity savedList))
     end)
    (error_500 "Error creating list").

(** Update a list by ID. *)
Definition put_lists_id (id : string) (body : json_body) : M response :=
  try_catch
    (list ← Repository.findOneBy List (Number id);
     match list with
     | None => mret (res_status 404 (Message "List not found"))
     | Some list =>
         let updatedList := Repository.merge List list (J <$> body) in
         instance ← or_throw (plainToInstance List updatedList);
         match validateEntity List instance with
         | Some error => mret error
         | None =>
             result ← Repository.save List updatedList;
             mret (res_json (Entity result))
         end
     end)
    (error_500 "Error updating list").

(** Delete a list by ID. *)
Definition delete_lists_id (id : string) : M response :=
  try_catch
    (affected ← Repository.delete List (Number id);
     if affected =? 0 then mret (res_status 404 (Message "List not found"))
     else mret (res_status 204 NoBody))
    (error_500 "Error deleting list").

(** *** Task routes *)

(** Retrieve tasks for a list by ID. *)
Definition get_tasks_list_id (id : string) : M response :=
  try_catch
    (let listId := Number id in
     lists ← Repository.find_where Task "listId" listId;
     match lists with
     | [] => mret (res_status 404 (Message "No lists found for this user"))
     | _ => mret (res_json (Entities lists))
     end)
    (error_500 "Error fetching lists").

(** Retrieve a task by ID. *)
Definition get_tasks_id (id : string) : M response :=
  try_catch
    (task ← Repository.findOneBy Task (Number id);
     match task with
     | None => mret (res_status 404 (Message "Task not found"))
     | Some task => mret (res_json (Entity task))
     end)
    (error_500 "Error fetching task").

Section Host.

Variable host_parse : string -> option Z.

(** [if (req.body.dueDate) req.body.dueDate = new Date(req.body.dueDate)]:
    the body afterwards, or nothing when [new Date] throws. *)
Definition convert_dueDate (body : obj) : option obj :=
  match body !! "dueDate" with
  | Some v =>
      if truthy v then
        d ← new_Date host_parse v; Some (<["dueDate" := d]> body)
      else Some body
  | None => Some body
  end.

(** Create a new task. *)
Definition post_tasks (body : json_body) : M response :=
  try_catch
    (body ← or_throw (convert_dueDate (J <$> body));
     newTask ← or_throw (plainToInstance Task body);
     match validateEntity Task newTask with
     | Some error => mret error
     | None =>
         savedTask ← Repository.save Task newTask;
         mret (res_status 201 (Entity savedTask))
     end)
    (error_500 "Error creating task").

End Host.

(** Update a task by ID. *)
Definition put_tasks_id (id : string) (body : json_body) : M response :=
  try_catch
    (task ← Repository.findOneBy Task (Number id);
     match task with
     | None => mret (res_status 404 (Message "Task not found"))
     | Some task =>
         let updatedTask := Repository.merge Task task (J <$> body) in
         result ← Repository.save Task updatedTask;
         mret (res_json (Entity result))
     end)
    (error_500 "Error updating task").

(** Delete a task by ID. *)
Definition delete_tasks_id (id : string) : M response :=
  try_catch
    (affected ← Repository.delete Task (Number id);
     if affected =? 0 then mret (res_status 404 (Message "Task not found"))
     else mret (res_status 204 NoBody))
    (error_500 "Error deleting task").

(** ** The application: routes and their middleware *)

Inductive request : Type :=
  | GET_users
  | GET_users_id (id : string)
  | POST_users (body : json_body)
  | PUT_users_id (id : string) (body : json_body)
  | DELETE_users_id (id : string)
  | GET_lists_user_id (id : string)
  | GET_lists_id (id : string)
  | POST_lists (body : json_body)
  | PUT_lists_id (id : string) (body : json_body)
  | DELETE_lists_id (id : string)
  | GET_tasks_list_id (id : string)
  | GET_tasks_id (id : string)
  | POST_tasks (body : json_body)
  | PUT_tasks_id (id : string) (body : json_body)
  | DELETE_tasks_id (id : string).

(** [req.params.id], on the routes that have it. *)
Definition params_id (r : request) : option string :=
  match r with
  | GET_users | POST_users _ | POST_lists _ | POST_tasks _ => None
  | GET_users_id id | PUT_users_id id _ | DELETE_users_id id
  | GET_lists_user_id id | GET_lists_id id | PUT_lists_id id _
  | DELETE_lists_id id | GET_tasks_list_id id | GET_tasks_id id
  | PUT_tasks_id id _ | DELETE_tasks_id id => Some id
  end.

(** The handler of a route, after its middleware. *)
Definition handler (host_parse : string -> option Z) (r : request)
  : M response :=
  match r with
  | GET_users => get_users
  | GET_users_id id => get_users_id id
  | POST_users body => post_users body
  | PUT_users_id id body => put_users_id id body
  | DELETE_users_id id => delete_users_id id
  | GET_lists_user_id id => get_lists_user_id id
  | GET_lists_id id => get_lists_id id
  | POST_lists body => post_lists body
  | PUT_lists_id id body => put_lists_id id body
  | DELETE_lists_id id => delete_lists_id id
  | GET_tasks_list_id id => get_tasks_list_id id
  | GET_tasks_id id => get_tasks_id id
  | POST_tasks body => post_tasks host_parse body
  | PUT_tasks_id id body => put_tasks_id id body
  | DELETE_tasks_id id => delete_tasks_id id
  end.

(** [app.get(path, validateIdParam, handler)] and the like: the routes with
    an [:id] parameter run [validateIdParam] first. *)
Definition app (host_parse : string -> option Z) (r : request) : M response :=
  match r with
  | GET_users => get_users
  | GET_users_id id => validateIdParam id (get_users_id id)
  | POST_users body => post_users body
  | PUT_users_id id body => validateIdParam id (put_users_id id body)
  | DELETE_users_id id => validateIdParam id (delete_users_id id)
  | GET_lists_user_id id => validateIdParam id (get_lists_user_id id)
  | GET_lists_id id => validateIdParam id (get_lists_id id)
  | POST_lists body => post_lists body
  | PUT_lists_id id body => validateIdParam id (put_lists_id id body)
  | DELETE_lists_id id => validateIdParam id (delete_lists_id id)
  | GET_tasks_list_id id => validateIdParam id (get_tasks_list_id id)
  | GET_tasks_id id => validateIdParam id (get_tasks_id id)
  | POST_tasks body => post_tasks host_parse body
  | PUT_tasks_id id body => validateIdParam id (put_tasks_id id body)
  | DELETE_tasks_id id => validateIdParam id (delete_tasks_id id)
  end.

(** ** A populated store: the first rows of [exampledata.sql] *)

Definition mk_user (name : string) : obj := {[ "name" := jstr name ]}.
Definition mk_list (userId : Z) (name : string) : obj :=
  {[ "userId" := jnum userId; "name" := jstr name ]}.
Definition mk_task (listId : Z) (text description : string) (dueDate : Z)
  : obj :=
  {[ "listId" := jnum listId; "text" := jstr text;
     "description" := jstr description; "dueDate" := VDate (Some dueDate);
     "completed" := jbool false ]}.

Definition example_store : store :=
  {| users := {| rows := {[ 1 := mk_user "Alice"; 2 := mk_user "Bob";
                            3 := mk_user "Charlie" ]};
                 AUTO_INCREMENT := 4 |};
     lists := {| rows := {[ 1 := mk_list 1 "Groceries"; 2 := mk_list 1 "Work";
                            3 := mk_list 2 "Chores" ]};
                 AUTO_INCREMENT := 4 |};
     tasks := {| rows := {[ 1 := mk_task 1 "Buy milk" "" 0;
                            2 := mk_task 1 "Buy eggs" "Get free-range eggs"
                                         1729411200000;
                            3 := mk_task 2 "Complete report" "" 1729683900000;
                            4 := mk_task 3 "Clean kitchen" "Use disinfectant"
                                         1729436400000 ]};
                 AUTO_INCREMENT := 5 |} |}.

Definition example_world : world := {| db := example_store; queries := [] |}.

(** ** Vocabulary of the statements *)

(** [x > 0] on Numbers: what an id must satisfy to pass [validateIdParam]. *)
Definition num_gt0 (x : jsnum) : bool :=
  match x with
  | PInf => true
  | Fin q => 0 <? Qnum q
  | _ => false
  end.

(** The [GET], [PUT] and [DELETE] request for the record [id] of an entity,
    and the message of its 404. *)
Definition GET_id (E : entity) (id : string) : request :=
  match E with
  | User => GET_users_id id
  | List => GET_lists_id id
  | Task => GET_tasks_id id
  end.

Definition PUT_id (E : entity) (id : string) (body : json_body) : request :=
  match E with
  | User => PUT_users_id id body
  | List => PUT_lists_id id body
  | Task => PUT_tasks_id id body
  end.

Definition DELETE_id (E : entity) (id : string) : request :=
  match E with
  | User => DELETE_users_id id
  | List => DELETE_lists_id id
  | Task => DELETE_tasks_id id
  end.

Definition not_found (E : entity) : string :=
  match E with
  | User => "User not found"
  | List => "List not found"
  | Task => "Task not found"
  end.

(** The world after query [q] left the store as [s]. *)
Definition after (q : query) (s : store) (w : world) : world :=
  {| db := s; queries := (queries w ++ [q])%list |}.

(** The validation errors met below. *)
Definition name_must_be_a_string : list ValidationError :=
  [ {| err_property := "name";
       constraints := [("isString", "name must be a string")] |} ].

(** The request bodies of the examples. *)
Definition buy_milk : json_body :=
  {[ "listId" := JNum (num_of_Z 1); "text" := JStr "Buy milk" ]}.

Definition dueDate_must_be_a_Date : ValidationError :=
  {| err_property := "dueDate";
     constraints := [("isDate", "dueDate must be a Date instance")] |}.

Definition due (d : json) : json_body := <["dueDate" := d]> buy_milk.

(** The response of a request, whatever it is. *)
Definition answer (o : outcome response * world) : response :=
  match o.1 with
  | Ok r => r
  | Thrown => res_status 0 NoBody
  end.

(** [PUT] validates the merged user or list; the task handler has no such
    step. *)
Definition revalidated (E : entity) : bool :=
  match E with
  | User | List => true
  | Task => false
  end.

(** The validation step of an update: nothing when [plainToInstance] throws,
    else the answer of [validateEntity]; a task goes through unchecked. *)
Definition revalidation (E : entity) (updated : obj)
  : option (option response) :=
  if revalidated E
  then instance ← plainToInstance E updated; Some (validateEntity E instance)
  else Some None.

Definition put_error (E : entity) : string :=
  match E with
  | User => "Error updating user"
  | List => "Error updating list"
  | Task => "Error updating task"
  end.

(** The HTTP method of a request, the [POST] request of an entity and the
    message of its 500. *)
Inductive verb : Type := GET | POST | PUT | DELETE.

Definition method (r : request) : verb :=
  match r with
  | GET_users | GET_users_id _ | GET_lists_user_id _ | GET_lists_id _
  | GET_tasks_list_id _ | GET_tasks_id _ => GET
  | POST_users _ | POST_lists _ | POST_tasks _ => POST
  | PUT_users_id _ _ | PUT_lists_id _ _ | PUT_tasks_id _ _ => PUT
  | DELETE_users_id _ | DELETE_lists_id _ | DELETE_tasks_id _ => DELETE
  end.

Definition POST_to (E : entity) (body : json_body) : request :=
  match E with
  | User => POST_users body
  | List => POST_lists body
  | Task => POST_tasks body
  end.

Definition post_error (E : entity) : string :=
  match E with
  | User => "Error creating user"
  | List => "Error creating list"
  | Task => "Error creating task"
  end.

(** What a create handler does to the body before it builds the entity:
    the due date conversion for a task, nothing otherwise. *)
Definition converted (host_parse : string -> option Z) (E : entity)
    (body : obj) : option obj :=
  match E with
  | Task => convert_dueDate host_parse body
  | User | List => Some body
  end.

(** The status codes the handlers use. *)
Definition status_codes : list Z := [200; 201; 204; 400; 404; 500].

(** Shapes of a property value. *)
Definition is_string (v : option jsval) : Prop := exists s, v = Some (jstr s).
Definition is_int (v : option jsval) : Prop :=
  exists n k, v = Some (J (JNum n)) /\ num_to_int n = Some k.
Definition is_boolean (v : option jsval) : Prop :=
  exists b, v = Some (jbool b).
Definition is_date (v : option jsval) : Prop :=
  exists t, v = Some (VDate (Some t)).
Definition nullish (v : option jsval) : Prop :=
  v = None \/ v = Some (J JNull).






(** The parent row an entity names exists (a user has no parent). *)
Definition parent_exists (E : entity) (e : obj) (s : store) : Prop :=
  match references E with
  | None => True
  | Some (c, P) =>
      exists p, ref_of c e = Some p /\ is_Some (rows (table_of P s) !! p)
  end.

(** A consistent store: in every table the counter is positive and above
    every key, and every row meets the constraints of its table ([NOT NULL]
    columns, an existing parent). *)
Definition keys_ok (t : table) : Prop :=
  0 < AUTO_INCREMENT t
  /\ map_Forall (fun k _ => k < AUTO_INCREMENT t) (rows t).

Definition rows_ok (E : entity) (s : store) : Prop :=
  map_Forall (fun _ row => row_ok E row s = true) (rows (table_of E s)).

Definition consistent (s : store) : Prop :=
  forall E, keys_ok (table_of E s) /\ rows_ok E s.

(** The constraints alone. *)
Definition constrained (s : store) : Prop := forall E, rows_ok E s.

(** Every stored row of an entity, read back, passes the validators of its
    class. *)
Definition valid_rows (E : entity) (s : store) : Prop :=
  map_Forall (fun k row => validate E (hydrate k row) = [])
             (rows (table_of E s)).

(** The empty store. *)
Definition empty_table : table := {| rows := ∅; AUTO_INCREMENT := 1 |}.
Definition empty_store : store :=
  {| users := empty_table; lists := empty_table; tasks := empty_table |}.

(** What a request may do to the world [w]: it is answered; it sends at
    most two queries; and it leaves the store as it was, or one [save] or one
    [delete] went through. *)
Definition effect (r : request) (w : world) (o : outcome response * world)
  : Prop :=
  exists resp w' qs,
    o = (Ok resp, w')
    /\ queries w' = (queries w ++ qs)%list /\ (length qs <= 2)%nat
    /\ ((db w' = db w
         /\ (status resp = 400 \/ status resp = 404 \/ status resp = 500
             \/ (status resp = 200 /\ method r = GET)))
        \/ (exists E e e',
              persist E e (db w) = Some (e', db w')
              /\ (E <> Task -> validate E e = [])
              /\ ((method r = POST /\ status resp = 201)
                  \/ (method r = PUT /\ status resp = 200)))
        \/ (exists E x,
              remove E x (db w) = Some (1, db w')
              /\ method r = DELETE /\ status resp = 204)).

(** Serving requests one after the other, and the world before any. *)
Definition serve (host_parse : string -> option Z) (rs : list request)
    (w : world) : world :=
  foldl (fun w r => (app host_parse r w).2) w rs.

Definition empty_world : world := {| db := empty_store; queries := [] |}.

(** Ids written in decimal: the character of a digit, the string of a list
    of digits, most significant first, and the integer it spells. *)
Definition digit_char (d : Z) : ascii := ascii_of_N (Z.to_N (48 + d)).

Definition decimal (ds : list Z) : string :=
  string_of_list_ascii (digit_char <$> ds).

Definition value (ds : list Z) : Z := foldl (fun acc d => acc * 10 + d) 0 ds.

Definition is_digit (d : Z) : Prop := 0 <= d <= 9.

(** ** Properties of the id middleware *)

Lemma num_gt0_iff (x : jsnum) :
  num_gt0 x = negb (isNaN x || num_le0 x).
Proof.
  destruct x as [| | |[n d]]; try reflexivity.
  simpl. unfold Qle_bool. simpl.
  rewrite Z.mul_1_r. destruct n; reflexivity.
Qed.

Lemma validateIdParam_reject (id : string) (next : M response) (w : world) :
  num_gt0 (Number id) = false ->
  validateIdParam id next w
  = (Ok (res_status 400 (Message "Invalid ID parameter")), w).
Proof.
  intros H. unfold validateIdParam.
  rewrite num_gt0_iff in H. apply negb_false_iff in H. rewrite H.
  reflexivity.
Qed.

Lemma validateIdParam_pass (id : string) (next : M response) :
  num_gt0 (Number id) = true ->
  validateIdParam id next = next.
Proof.
  intros H. unfold validateIdParam.
  rewrite num_gt0_iff in H. apply negb_true_iff in H. rewrite H.
  reflexivity.
Qed.

Lemma isNaN_not_gt0 (x : jsnum) : isNaN x = true -> num_gt0 x = false.
Proof. destruct x; simpl; congruence. Qed.

(** C7.  On every route with an [:id] parameter: when [Number(id)] is [NaN]
    or is not strictly greater than zero, the response is 400 and the world
    (the store and the log of queries sent to it) is untouched; otherwise
    the request reaches the handler of the route. *)
Theorem id_validation_guards_every_id_route
    (host_parse : string -> option Z) (r : request) (id : string) :
  params_id r = Some id ->
  (isNaN (Number id) = true \/ num_gt0 (Number id) = false ->
   forall w, app host_parse r w
             = (Ok (res_status 400 (Message "Invalid ID parameter")), w))
  /\ (num_gt0 (Number id) = true ->
      app host_parse r = handler host_parse r).
Proof.
  intros Hid. split.
  - intros Hbad w.
    assert (Hle : num_gt0 (Number id) = false)
      by (destruct Hbad; auto using isNaN_not_gt0).
    destruct r; simpl in Hid; try discriminate; injection Hid as ->;
      simpl; apply validateIdParam_reject; exact Hle.
  - intros Hok.
    destruct r; simpl in Hid; try discriminate; injection Hid as ->;
      simpl; apply validateIdParam_pass; exact Hok.
Qed.

(** The ids of the specification's examples: [abc], [0] and [-1] are
    answered 400 without a query, [7] goes through. *)
Lemma id_validation_guards_every_id_route_witness :
  params_id (GET_users_id "abc") = Some "abc"
  /\ app no_host_parse (GET_users_id "abc") example_world
     = (Ok (res_status 400 (Message "Invalid ID parameter")), example_world)
  /\ app no_host_parse (GET_users_id "0") example_world
     = (Ok (res_status 400 (Message "Invalid ID parameter")), example_world)
  /\ app no_host_parse (DELETE_tasks_id "-1") example_world
     = (Ok (res_status 400 (Message "Invalid ID parameter")), example_world)
  /\ app no_host_parse (GET_users_id "7")
     = handler no_host_parse (GET_users_id "7").
Proof.
  split; [reflexivity|].
  split; [apply (id_validation_guards_every_id_route no_host_parse
                   (GET_users_id "abc") "abc" eq_refl); left; reflexivity|].
  split; [apply (id_validation_guards_every_id_route no_host_parse
                   (GET_users_id "0") "0" eq_refl); right; reflexivity|].
  split; [apply (id_validation_guards_every_id_route no_host_parse
                   (DELETE_tasks_id "-1") "-1" eq_refl); right; reflexivity|].
  apply (id_validation_guards_every_id_route no_host_parse
           (GET_users_id "7") "7" eq_refl); reflexivity.
Defined.

(** ** Queries *)

Lemma send_eq {A : Type} (q : query) (f : store -> option (A * store))
    (w : world) :
  send q f w = match f (db w) with
               | Some (a, s') => (Ok a, after q s' w)
               | None => (Thrown, after q (db w) w)
               end.
Proof. reflexivity. Qed.

(** ** Reading by id *)

Lemma get_id_eq (host_parse : string -> option Z) (E : entity) (id : string)
    (w : world) :
  handler host_parse (GET_id E id) w
  = (Ok match select_by_id E (Number id) (db w) with
        | Some (Some e) => res_json (Entity e)
        | Some None => res_status 404 (Message (not_found E))
        | None => res_status 500
                    (Message match E with
                             | User => "Error fetching user"
                             | List => "Error fetching list"
                             | Task => "Error fetching task"
                             end)
        end,
     after (QFindOneBy E (Number id)) (db w) w).
Proof.
  destruct E; simpl;
    unfold get_users_id, get_lists_id, get_tasks_id, try_catch,
      Repository.findOneBy, mbind, M_bind;
    rewrite send_eq;
    destruct (select_by_id _ (Number id) (db w)) as [[e|]|]; reflexivity.
Qed.

(** C10.  The id validator lets every id through whose [Number] conversion
    is strictly positive: the handler then runs and sends the store a query
    for that very number, and the answer is not 400.  ["1.5"] and
    ["Infinity"] are such ids, and neither denotes an integer. *)
Theorem positive_non_integer_ids_reach_the_store
    (host_parse : string -> option Z) :
  (forall (id : string) (w : world),
      num_gt0 (Number id) = true ->
      exists r,
        app host_parse (GET_users_id id) w
        = (Ok r, after (QFindOneBy User (Number id)) (db w) w)
        /\ status r <> 400)
  /\ (Number "1.5" = Fin (3 # 2)
      /\ num_gt0 (Number "1.5") = true
      /\ Number_isInteger (Number "1.5") = false)
  /\ (Number "Infinity" = PInf
      /\ num_gt0 (Number "Infinity") = true
      /\ Number_isInteger (Number "Infinity") = false).
Proof.
  split; [|split; repeat split; reflexivity].
  intros id w Hpos.
  simpl. rewrite (validateIdParam_pass id _ Hpos).
  change (get_users_id id w) with (handler host_parse (GET_id User id) w).
  rewrite get_id_eq.
  eexists; split; [reflexivity|].
  destruct (select_by_id User (Number id) (db w)) as [[e|]|]; simpl; lia.
Qed.

(** [GET /users/1.5] queries the store for 1.5 and finds nothing. *)
Lemma positive_non_integer_ids_reach_the_store_witness :
  num_gt0 (Number "1.5") = true
  /\ exists r,
      app no_host_parse (GET_users_id "1.5") example_world
      = (Ok r, after (QFindOneBy User (Fin (3 # 2))) example_store
                     example_world)
      /\ status r <> 400.
Proof.
  split; [reflexivity|].
  exact (proj1 (positive_non_integer_ids_reach_the_store no_host_parse)
               "1.5" example_world eq_refl).
Defined.

(** ** Deleting *)

Lemma delete_id_eq (host_parse : string -> option Z) (E : entity)
    (id : string) (w : world) :
  handler host_parse (DELETE_id E id) w
  = match remove E (Number id) (db w) with
    | Some (n, s') =>
        (Ok (if n =? 0 then res_status 404 (Message (not_found E))
             else res_status 204 NoBody),
         after (QDelete E (Number id)) s' w)
    | None =>
        (Ok (res_status 500
               (Message match E with
                        | User => "Error deleting user"
                        | List => "Error deleting list"
                        | Task => "Error deleting task"
                        end)),
         after (QDelete E (Number id)) (db w) w)
    end.
Proof.
  destruct E; simpl;
    unfold delete_users_id, delete_lists_id, delete_tasks_id, try_catch,
      Repository.delete, mbind, M_bind;
    rewrite send_eq;
    destruct (remove _ (Number id) (db w)) as [[n s']|]; try reflexivity;
    destruct (n =? 0); reflexivity.
Qed.

Lemma delete_row_gone (E : entity) (k : Z) (s : store) :
  rows (table_of E (delete_row E k s)) !! k = None.
Proof. destruct E; simpl; apply lookup_delete_eq. Qed.

(** What [remove] returns: nothing affected and the store as it was, or one
    row affected, which was there and is gone. *)
Lemma remove_cases (E : entity) (x : jsnum) (s s' : store) (n : Z) :
  remove E x s = Some (n, s') ->
  (n = 0 /\ s' = s
   /\ forall k, num_to_int x = Some k -> rows (table_of E s) !! k = None)
  \/ (n = 1 /\ exists k, num_to_int x = Some k
                         /\ is_Some (rows (table_of E s) !! k)
                         /\ s' = delete_row E k s).
Proof.
  unfold remove. destruct x as [| | |q]; try discriminate.
  destruct (num_to_int (Fin q)) as [k|] eqn:Hk.
  - case_bool_decide as Hrow; intros [= <- <-].
    + right. split; [reflexivity|]. exists k. auto.
    + left. repeat split. intros k' [= <-].
      apply eq_None_not_Some. exact Hrow.
  - intros [= <- <-]. left. repeat split. discriminate.
Qed.

Lemma remove_present (E : entity) (x : jsnum) (k : Z) (s : store) :
  num_gt0 x = true -> num_to_int x = Some k ->
  is_Some (rows (table_of E s) !! k) ->
  remove E x s = Some (1, delete_row E k s).
Proof.
  intros Hpos Hk Hrow. unfold remove.
  destruct x as [| | |q]; try discriminate.
  rewrite Hk. rewrite bool_decide_eq_true_2 by exact Hrow. reflexivity.
Qed.

Lemma remove_absent (E : entity) (x : jsnum) (k : Z) (s : store) :
  num_to_int x = Some k ->
  rows (table_of E s) !! k = None ->
  remove E x s = Some (0, s).
Proof.
  intros Hk Hrow. unfold remove.
  destruct x as [| | |q]; try discriminate.
  rewrite Hk. rewrite bool_decide_eq_false_2; [reflexivity|].
  rewrite Hrow. intros [? ?]; discriminate.
Qed.

(** C9.  For an id that passes validation, when the delete comes back from
    the store: the response is 204 exactly when a row of the table was
    removed, and 404, with the store unchanged, when none was affected.
    Hence deleting an existing task twice answers 204, then 404.  The
    delete does come back for every id whose Number is finite. *)
Theorem delete_answers_204_or_404 (host_parse : string -> option Z) :
  (forall (E : entity) (id : string) (w : world) (n : Z) (s' : store),
      num_gt0 (Number id) = true ->
      remove E (Number id) (db w) = Some (n, s') ->
      exists r,
        app host_parse (DELETE_id E id) w
        = (Ok r, after (QDelete E (Number id)) s' w)
        /\ (status r = 204 <->
            exists k, is_Some (rows (table_of E (db w)) !! k)
                      /\ rows (table_of E s') !! k = None)
        /\ (n = 0 -> status r = 404 /\ s' = db w)
        /\ (status r = 204 \/ status r = 404))
  /\ (forall (id : string) (k : Z) (w : world),
         num_gt0 (Number id) = true ->
         num_to_int (Number id) = Some k ->
         is_Some (rows (tasks (db w)) !! k) ->
         exists w1 w2,
           app host_parse (DELETE_tasks_id id) w
           = (Ok (res_status 204 NoBody), w1)
           /\ app host_parse (DELETE_tasks_id id) w1
              = (Ok (res_status 404 (Message "Task not found")), w2)
           /\ db w2 = db w1)
  /\ (forall (E : entity) (id : string) (w : world) (q : Q),
         Number id = Fin q ->
         exists n s', remove E (Number id) (db w) = Some (n, s')).
Proof.
  split; [|split].
  3: { intros E id w q ->. unfold remove.
       destruct (num_to_int (Fin q)); [case_bool_decide|]; eauto. }
  - intros E id w n s' Hpos Hrm.
    assert (Happ : app host_parse (DELETE_id E id) w
                   = handler host_parse (DELETE_id E id) w)
      by (destruct E; simpl; rewrite (validateIdParam_pass id _ Hpos);
          reflexivity).
    rewrite Happ, delete_id_eq, Hrm.
    eexists; split; [reflexivity|].
    destruct (remove_cases E _ _ _ _ Hrm)
      as [(-> & -> & Hnone) | (-> & k & Hk & Hrow & ->)]; simpl.
    + split; [|split; [auto | right; reflexivity]].
      split; [discriminate|].
      intros (k & [row Hrow] & Hgone). congruence.
    + split; [|split; [discriminate | left; reflexivity]].
      split; [|reflexivity].
      intros _. exists k. split; [exact Hrow | apply delete_row_gone].
  - intros id k w Hpos Hk Hrow.
    pose proof (remove_present Task _ k (db w) Hpos Hk Hrow) as H1.
    pose proof (remove_absent Task _ k (delete_row Task k (db w)) Hk
                  (delete_row_gone Task k (db w))) as H2.
    exists (after (QDelete Task (Number id)) (delete_row Task k (db w)) w).
    exists (after (QDelete Task (Number id)) (delete_row Task k (db w))
                  (after (QDelete Task (Number id))
                         (delete_row Task k (db w)) w)).
    assert (Happ : forall w',
               app host_parse (DELETE_tasks_id id) w'
               = handler host_parse (DELETE_id Task id) w')
      by (intros w'; simpl; rewrite (validateIdParam_pass id _ Hpos);
          reflexivity).
    rewrite !Happ.
    rewrite delete_id_eq, H1. change (1 =? 0) with false. cbv iota.
    split; [reflexivity|].
    rewrite delete_id_eq. cbn [db after]. rewrite H2.
    split; reflexivity.
Qed.

(** Task 1 of the example store, deleted twice. *)
Lemma delete_answers_204_or_404_witness :
  num_gt0 (Number "1") = true
  /\ num_to_int (Number "1") = Some 1
  /\ is_Some (rows (tasks example_store) !! 1)
  /\ exists w1 w2,
      app no_host_parse (DELETE_tasks_id "1") example_world
      = (Ok (res_status 204 NoBody), w1)
      /\ app no_host_parse (DELETE_tasks_id "1") w1
         = (Ok (res_status 404 (Message "Task not found")), w2)
      /\ db w2 = db w1.
Proof.
  assert (H : is_Some (rows (tasks example_store) !! 1))
    by (eexists; reflexivity).
  split; [reflexivity|]. split; [reflexivity|]. split; [exact H|].
  exact (proj1 (proj2 (delete_answers_204_or_404 no_host_parse))
               "1" 1 example_world eq_refl eq_refl H).
Defined.

(** ** Parent-filtered queries *)

(** The rows [select_where] returns are the rows of the table whose column
    holds the key asked for, each read back with its [id]. *)
Lemma elem_of_select_where (E : entity) (c : string) (x : jsnum) (s : store)
    (l : list obj) (e : obj) :
  select_where E c x s = Some l ->
  e ∈ l <->
  exists k i row,
    num_to_int x = Some i
    /\ rows (table_of E s) !! k = Some row
    /\ ref_of c row = Some i
    /\ e = hydrate k row.
Proof.
  unfold select_where. destruct x as [| | |q]; try discriminate.
  destruct (num_to_int (Fin q)) as [i|]; intros [= <-].
  - rewrite list_elem_of_fmap. split.
    + intros ([k row] & -> & Hin).
      apply list_elem_of_filter in Hin as [Href Hin].
      apply elem_of_map_to_list in Hin.
      exists k, i, row. auto.
    + intros (k & i' & row & [= <-] & Hrow & Href & ->).
      exists (k, row). split; [reflexivity|].
      apply list_elem_of_filter. split; [exact Href|].
      apply elem_of_map_to_list. exact Hrow.
  - split.
    + intros Hin. inversion Hin.
    + intros (k & i & row & Hi & _). discriminate.
Qed.

Lemma get_lists_user_id_eq (id : string) (w : world) :
  get_lists_user_id id w
  = (Ok match select_where List "userId" (Number id) (db w) with
        | Some [] => res_status 404 (Message "No lists found for this user")
        | Some l => res_json (Entities l)
        | None => res_status 500 (Message "Error fetching lists")
        end,
     after (QFindWhere List "userId" (Number id)) (db w) w).
Proof.
  unfold get_lists_user_id, try_catch, Repository.find_where, mbind, M_bind.
  rewrite send_eq.
  destruct (select_where List "userId" (Number id) (db w)) as [[|e l]|];
    reflexivity.
Qed.

Lemma get_tasks_list_id_eq (id : string) (w : world) :
  get_tasks_list_id id w
  = (Ok match select_where Task "listId" (Number id) (db w) with
        | Some [] => res_status 404 (Message "No lists found for this user")
        | Some l => res_json (Entities l)
        | None => res_status 500 (Message "Error fetching lists")
        end,
     after (QFindWhere Task "listId" (Number id)) (db w) w).
Proof.
  unfold get_tasks_list_id, try_catch, Repository.find_where, mbind, M_bind.
  rewrite send_eq.
  destruct (select_where Task "listId" (Number id) (db w)) as [[|e l]|];
    reflexivity.
Qed.

(** C6.  For an id that passes validation, when the filtered query comes
    back with the rows [l] that refer to that parent: [GET /lists/user/:id]
    and [GET /tasks/list/:id] answer 404 if [l] is empty and 200 with [l]
    otherwise.  The query does come back for every id whose Number is
    finite. *)
Theorem parent_filter_empty_is_404 (host_parse : string -> option Z)
    (id : string) (w : world) :
  num_gt0 (Number id) = true ->
  (forall l : list obj,
      select_where List "userId" (Number id) (db w) = Some l ->
      app host_parse (GET_lists_user_id id) w
      = (Ok match l with
            | [] => res_status 404 (Message "No lists found for this user")
            | _ => res_status 200 (Entities l)
            end,
         after (QFindWhere List "userId" (Number id)) (db w) w)
      /\ forall e, e ∈ l <->
           exists k i row,
             num_to_int (Number id) = Some i
             /\ rows (lists (db w)) !! k = Some row
             /\ ref_of "userId" row = Some i /\ e = hydrate k row)
  /\ (forall l : list obj,
         select_where Task "listId" (Number id) (db w) = Some l ->
         app host_parse (GET_tasks_list_id id) w
         = (Ok match l with
               | [] => res_status 404 (Message "No lists found for this user")
               | _ => res_status 200 (Entities l)
               end,
            after (QFindWhere Task "listId" (Number id)) (db w) w)
         /\ forall e, e ∈ l <->
              exists k i row,
                num_to_int (Number id) = Some i
                /\ rows (tasks (db w)) !! k = Some row
                /\ ref_of "listId" row = Some i /\ e = hydrate k row)
  /\ (forall q : Q,
         Number id = Fin q ->
         (exists l, select_where List "userId" (Number id) (db w) = Some l)
         /\ (exists l, select_where Task "listId" (Number id) (db w)
                        = Some l)).
Proof.
  intros Hpos. split; [|split]; [intros l Hl | intros l Hl |].
  3: { intros q ->. unfold select_where. split; eauto. }
  - split; [|intros e; exact (elem_of_select_where List _ _ _ l e Hl)].
    simpl. rewrite (validateIdParam_pass id _ Hpos).
    rewrite get_lists_user_id_eq, Hl. destruct l; reflexivity.
  - split; [|intros e; exact (elem_of_select_where Task _ _ _ l e Hl)].
    simpl. rewrite (validateIdParam_pass id _ Hpos).
    rewrite get_tasks_list_id_eq, Hl. destruct l; reflexivity.
Qed.

(** User 3 of the example store owns no list: [GET /lists/user/3] is 404;
    list 3 holds task 4: [GET /tasks/list/3] is 200 with that task. *)
Lemma parent_filter_empty_is_404_witness :
  num_gt0 (Number "3") = true
  /\ select_where List "userId" (Number "3") example_store = Some []
  /\ app no_host_parse (GET_lists_user_id "3") example_world
     = (Ok (res_status 404 (Message "No lists found for this user")),
        after (QFindWhere List "userId" (Number "3")) example_store
              example_world)
  /\ app no_host_parse (GET_tasks_list_id "3") example_world
     = (Ok (res_status 200
              (Entities [hydrate 4 (mk_task 3 "Clean kitchen"
                                            "Use disinfectant"
                                            1729436400000)])),
        after (QFindWhere Task "listId" (Number "3")) example_store
              example_world).
Proof.
  split; [reflexivity|]. split; [reflexivity|].
  split.
  - exact (proj1 (proj1 (parent_filter_empty_is_404 no_host_parse "3"
                           example_world eq_refl) [] eq_refl)).
  - exact (proj1 (proj1 (proj2 (parent_filter_empty_is_404 no_host_parse "3"
                                  example_world eq_refl)) _ eq_refl)).
Defined.

(** ** Objects: instances and merging *)

Lemma transform_val_kind (v v' : jsval) :
  transform_val v = Some v' ->
  match v with
  | J (JArr _) => exists l, v' = J (JArr l)
  | J (JObj _) => exists l, v' = J (JObj l)
  | _ => v' = v
  end.
Proof.
  destruct v as [[| | | |l|l]|t]; cbn [transform_val transform];
    intros H; try (injection H as <-; reflexivity).
  - apply fmap_Some in H as (j & Hj & ->).
    apply fmap_Some in Hj as (l' & _ & ->). eauto.
  - apply fmap_Some in H as (j & Hj & ->).
    destruct (match own "constructor" l with
              | Some c => truthy (J c)
              | None => false
              end); [discriminate|].
    apply fmap_Some in Hj as (l' & _ & ->). eauto.
Qed.

(** The copy of a value passes a validator exactly when the value does. *)
Lemma failed_constraints_transform (r : rule) (v v' : jsval) :
  transform_val v = Some v' ->
  failed_constraints r (Some v') = failed_constraints r (Some v).
Proof.
  intros H. apply transform_val_kind in H.
  destruct v as [[| | | |l|l]|t]; try (rewrite H; reflexivity);
    destruct H as [l' ->]; unfold failed_constraints, skipped;
    rewrite !andb_false_r; f_equal; apply filter_ext;
    intros c; destruct c; reflexivity.
Qed.

Lemma plainToInstance_copies (E : entity) (plain inst : obj) (k : string)
    (v : jsval) :
  plainToInstance E plain = Some inst ->
  not_copied k = false -> plain !! k = Some v ->
  exists v', transform_val v = Some v' /\ inst !! k = Some v'.
Proof.
  unfold plainToInstance. cbv zeta. case_bool_decide as Hall; [|discriminate].
  intros [= <-] Hk Hv.
  assert (Hkept : filter (fun kv => not_copied kv.1 = false) plain !! k
                  = Some v)
    by (apply map_lookup_filter_Some; split; [exact Hv | exact Hk]).
  destruct (map_Forall_lookup_1 _ _ _ _ Hall Hkept) as [v' Hv'].
  exists v'. split; [exact Hv'|].
  apply lookup_union_Some_l. rewrite lookup_omap, Hkept. exact Hv'.
Qed.

Lemma plainToInstance_default (E : entity) (plain inst : obj) (k : string) :
  plainToInstance E plain = Some inst ->
  plain !! k = None ->
  inst !! k = new_instance E !! k.
Proof.
  unfold plainToInstance. cbv zeta. case_bool_decide as Hall; [|discriminate].
  intros [= <-] Hv.
  rewrite lookup_union_r; [reflexivity|].
  rewrite lookup_omap, map_lookup_filter, Hv. reflexivity.
Qed.

(** A value that is no array and no object is copied as it is. *)
Lemma plainToInstance_scalar (E : entity) (plain inst : obj) (k : string)
    (v : jsval) :
  plainToInstance E plain = Some inst ->
  not_copied k = false -> plain !! k = Some v ->
  match v with J (JArr _) | J (JObj _) => False | _ => True end ->
  inst !! k = Some v.
Proof.
  intros H Hk Hv Hscalar.
  destruct (plainToInstance_copies E plain inst k v H Hk Hv) as (v' & Ht & ->).
  apply transform_val_kind in Ht.
  destruct v as [[| | | |l|l]|t]; try (rewrite Ht; reflexivity);
    destruct Hscalar.
Qed.

(** The instance passes and fails the validators as the plain object with
    the defaults of the class does. *)
Lemma validate_instance (E : entity) (plain inst : obj) :
  plainToInstance E plain = Some inst ->
  validate E inst = validate E (plain ∪ new_instance E).
Proof.
  intros H.
  assert (Hp : forall r, not_copied (property r) = false ->
             failed_constraints r (inst !! property r)
             = failed_constraints r ((plain ∪ new_instance E) !! property r)).
  { intros r Hk. rewrite lookup_union.
    destruct (plain !! property r) as [v|] eqn:Hv.
    - destruct (plainToInstance_copies E plain inst _ v H Hk Hv)
        as (v' & Ht & ->).
      rewrite (failed_constraints_transform r v v' Ht).
      destruct (new_instance E !! property r); reflexivity.
    - rewrite (plainToInstance_default E plain inst _ H Hv).
      destruct (new_instance E !! property r); reflexivity. }
  unfold validate. destruct E; simpl; rewrite !Hp by reflexivity; reflexivity.
Qed.

(** The classes of users and lists have no initialisers: their instances
    pass and fail as the plain object does. *)
Lemma validate_plainToInstance (E : entity) (e inst : obj) :
  plainToInstance E e = Some inst -> E <> Task ->
  validate E inst = validate E e.
Proof.
  intros H HE. rewrite (validate_instance E e inst H).
  destruct E; [| |congruence]; cbn [new_instance];
    rewrite (right_id ∅ (∪) e); reflexivity.
Qed.



Lemma hydrate_lookup_ne (k : Z) (row : obj) (c : string) :
  c <> "id" -> hydrate k row !! c = row !! c.
Proof. intros Hc. unfold hydrate. apply lookup_insert_ne. congruence. Qed.

Lemma hydrate_lookup_id (k : Z) (row : obj) :
  hydrate k row !! "id" = Some (jnum k).
Proof. apply lookup_insert_eq. Qed.

Lemma num_to_int_of_Z (k : Z) : num_to_int (num_of_Z k) = Some k.
Proof.
  unfold num_to_int, num_of_Z, inject_Z. simpl.
  rewrite Z.div_1_r. rewrite Z.mul_1_l, Z.eqb_refl. reflexivity.
Qed.

(** ** Validation of a user *)

Lemma validate_User (e : obj) :
  validate User e
  = match e !! "name" with
    | Some (J (JStr _)) => []
    | _ => name_must_be_a_string
    end.
Proof.
  unfold validate. simpl.
  destruct (e !! "name") as [[[]|]|]; reflexivity.
Qed.

(** ** Creating users and lists *)

Lemma post_users_eq (body : json_body) (w : world) :
  post_users body w
  = match plainToInstance User (J <$> body) with
    | None => (Ok (res_status 500 (Message "Error creating user")), w)
    | Some newUser =>
        match validateEntity User newUser with
        | Some error => (Ok error, w)
        | None =>
            match persist User newUser (db w) with
            | Some (savedUser, s') =>
                (Ok (res_status 201 (Entity savedUser)),
                 after (QSave User newUser) s' w)
            | None =>
                (Ok (res_status 500 (Message "Error creating user")),
                 after (QSave User newUser) (db w) w)
            end
        end
    end.
Proof.
  unfold post_users, try_catch, mbind, M_bind, or_throw.
  destruct (plainToInstance User (J <$> body)) as [newUser|]; [|reflexivity].
  simpl. destruct (validateEntity User newUser) as [error|]; [reflexivity|].
  unfold Repository.save. rewrite send_eq.
  destruct (persist User newUser (db w)) as [[e s']|]; reflexivity.
Qed.

Lemma insert_user (k : Z) (e : obj) (s : store) (name : string) :
  e !! "name" = Some (jstr name) ->
  rows (users s) !! k = None ->
  insert_row User k e s
  = Some {| users := {| rows := <[k := mk_user name]> (rows (users s));
                        AUTO_INCREMENT :=
                          Z.max (AUTO_INCREMENT (users s)) (k + 1) |};
            lists := lists s; tasks := tasks s |}.
Proof.
  intros Hname Hfree. unfold insert_row.
  assert (Hrow : write_row User e ∅ = mk_user name).
  { unfold write_row, mk_user. simpl. rewrite Hname. simpl.
    rewrite insert_empty. reflexivity. }
  rewrite Hrow. simpl.
  rewrite bool_decide_eq_true_2 by exact Hfree.
  unfold row_ok, mk_user. simpl. rewrite lookup_singleton_eq. reflexivity.
Qed.

(** C3, as the code has it.  [POST /users] asks of [name] that it be a
    string, empty or not.  For a body whose [name] is missing or is not a
    string no user is stored: the answer is 400 with the one constraint
    message, or 500 when [plainToInstance] throws on the body, and the
    world is left as it was.  A body with a string [name] of at most 100
    characters and no [id], on which [plainToInstance] does not throw, is
    inserted under the next key of the table, other rows untouched, and
    returned with 201; the key is one an [INT] column holds. *)
Theorem post_users_requires_string_name (host_parse : string -> option Z) :
  (forall (body : json_body) (w : world),
      (forall s, body !! "name" <> Some (JStr s)) ->
      app host_parse (POST_users body) w
      = (Ok match plainToInstance User (J <$> body) with
            | Some _ =>
                res_status 400
                  (Constraints [[("isString", "name must be a string")]])
            | None => res_status 500 (Message "Error creating user")
            end,
         w))
  /\ (forall (body : json_body) (w : world) (name : string) (newUser : obj),
         body !! "name" = Some (JStr name) ->
         (String.length name <= 100)%nat ->
         body !! "id" = None ->
         plainToInstance User (J <$> body) = Some newUser ->
         rows (users (db w)) !! AUTO_INCREMENT (users (db w)) = None ->
         0 < AUTO_INCREMENT (users (db w)) < 2 ^ 31 ->
         let k := AUTO_INCREMENT (users (db w)) in
         exists s',
           app host_parse (POST_users body) w
           = (Ok (res_status 201 (Entity (hydrate k newUser))),
              after (QSave User newUser) s' w)
           /\ hydrate k newUser !! "name" = Some (jstr name)
           /\ hydrate k newUser !! "id" = Some (jnum k)
           /\ rows (users s') !! k = Some (mk_user name)
           /\ forall k', k' <> k ->
                rows (users s') !! k' = rows (users (db w)) !! k').
Proof.
  split.
  - intros body w Hname. simpl. rewrite post_users_eq.
    destruct (plainToInstance User (J <$> body)) as [newUser|] eqn:Hinst;
      [|reflexivity].
    unfold validateEntity.
    rewrite (validate_instance User _ _ Hinst), validate_User.
    rewrite lookup_union, lookup_fmap. cbn [new_instance].
    rewrite lookup_empty.
    destruct (body !! "name") as [[| | |s| |]|] eqn:Hb; try reflexivity.
    exfalso. exact (Hname s eq_refl).
  - intros body w name newUser Hname _ Hid Hinst Hfree _ k.
    assert (Hn : newUser !! "name" = Some (jstr name)).
    { apply (plainToInstance_scalar User (J <$> body) newUser "name");
        [exact Hinst | reflexivity | | exact I].
      rewrite lookup_fmap, Hname. reflexivity. }
    assert (Hi : newUser !! "id" = None).
    { rewrite (plainToInstance_default User (J <$> body) newUser "id" Hinst);
        [reflexivity|].
      rewrite lookup_fmap, Hid. reflexivity. }
    eexists. simpl app. rewrite post_users_eq, Hinst.
    unfold validateEntity. rewrite validate_User, Hn.
    unfold persist, insert_generated. rewrite Hi.
    change (AUTO_INCREMENT (table_of User (db w))) with k.
    rewrite (insert_user k newUser (db w) name Hn Hfree). simpl.
    split; [reflexivity|].
    split; [rewrite hydrate_lookup_ne by discriminate; exact Hn|].
    split; [apply hydrate_lookup_id|].
    split; [apply lookup_insert_eq|].
    intros k' Hk'. apply lookup_insert_ne. congruence.
Qed.

(** A body without [name] is refused; ["Dave"] becomes user 4. *)
Lemma post_users_requires_string_name_witness :
  (forall s, (∅ : json_body) !! "name" <> Some (JStr s))
  /\ app no_host_parse (POST_users ∅) example_world
     = (Ok (res_status 400
              (Constraints [[("isString", "name must be a string")]])),
        example_world)
  /\ exists newUser s',
      app no_host_parse (POST_users {[ "name" := JStr "Dave" ]}) example_world
      = (Ok (res_status 201 (Entity (hydrate 4 newUser))),
         after (QSave User newUser) s' example_world)
      /\ rows (users s') !! 4 = Some (mk_user "Dave").
Proof.
  assert (H : forall s, (∅ : json_body) !! "name" <> Some (JStr s))
    by (intros s; rewrite lookup_empty; discriminate).
  split; [exact H|].
  split; [exact (proj1 (post_users_requires_string_name no_host_parse)
                       ∅ example_world H)|].
  set (b := ({[ "name" := JStr "Dave" ]} : json_body)).
  assert (Hname : b !! "name" = Some (JStr "Dave")) by reflexivity.
  assert (Hlen : (String.length "Dave" <= 100)%nat) by (simpl; lia).
  assert (Hid : b !! "id" = None) by reflexivity.
  assert (Hinst : plainToInstance User (J <$> b) = Some (mk_user "Dave"))
    by reflexivity.
  assert (Hfree : rows (users (db example_world))
                    !! AUTO_INCREMENT (users (db example_world)) = None)
    by reflexivity.
  assert (Hint : 0 < AUTO_INCREMENT (users (db example_world)) < 2 ^ 31)
    by (simpl; lia).
  destruct (proj2 (post_users_requires_string_name no_host_parse)
              b example_world "Dave" (mk_user "Dave")
              Hname Hlen Hid Hinst Hfree Hint) as (s' & Heq & _ & _ & Hrow & _).
  exists (mk_user "Dave"), s'. split; [exact Heq | exact Hrow].
Defined.

(** C3 as the specification states it fails: the empty name is a string,
    so [POST /users] with [{name: ""}] is answered 201, not 400, and the
    user is written to the store. *)
Lemma post_users_accepts_empty_name :
  exists r w',
    app no_host_parse (POST_users {[ "name" := JStr "" ]}) example_world
    = (Ok r, w')
    /\ status r = 201
    /\ status r <> 400
    /\ body r = Entity {[ "id" := jnum 4; "name" := jstr "" ]}
    /\ rows (users (db w')) !! 4 = Some (mk_user "")
    /\ db w' <> db example_world.
Proof.
  eexists. eexists. split; [reflexivity|].
  split; [reflexivity|]. split; [discriminate|].
  split; [reflexivity|]. split; [reflexivity|].
  intros Heq.
  assert (H : rows (users example_store) !! 4 = Some (mk_user "")).
  { change example_store with (db example_world). rewrite <- Heq.
    reflexivity. }
  discriminate H.
Qed.

(** C4 on the code.  [POST /users] with [{id: 1, name: "Mallory"}] against
    a store where user 1 is Alice: [save] finds the row and updates it.
    The answer is 201 with [id] 1, user 1 is now Mallory, and no row was
    added.  With an [id] that is free, 42, the new row takes that [id]. *)
Theorem post_users_honours_client_id :
  (exists e w',
      app no_host_parse
          (POST_users {[ "id" := JNum (num_of_Z 1); "name" := JStr "Mallory" ]})
          example_world
      = (Ok (res_status 201 (Entity e)), w')
      /\ e !! "id" = Some (jnum 1)
      /\ rows (users example_store) !! 1 = Some (mk_user "Alice")
      /\ rows (users (db w')) !! 1 = Some (mk_user "Mallory")
      /\ dom (rows (users (db w'))) = dom (rows (users example_store)))
  /\ (exists e w',
         app no_host_parse
             (POST_users {[ "id" := JNum (num_of_Z 42); "name" := JStr "Eve" ]})
             example_world
         = (Ok (res_status 201 (Entity e)), w')
         /\ e !! "id" = Some (jnum 42)
         /\ rows (users (db w')) !! 42 = Some (mk_user "Eve")
         /\ rows (users (db w')) !! AUTO_INCREMENT (users example_store)
            = None).
Proof.
  split.
  - eexists. eexists. split; [reflexivity|].
    repeat split; reflexivity.
  - eexists. eexists. split; [reflexivity|].
    repeat split; reflexivity.
Qed.

(** ** Writing rows *)

Lemma data_columns_NoDup (E : entity) : NoDup (data_columns E).
Proof. destruct E; apply (bool_decide_unpack _); vm_compute; exact I. Qed.

Lemma write_row_lookup (E : entity) (e old : obj) (c : string) :
  c ∈ data_columns E ->
  write_row E e old !! c
  = Some (default (default (column_default c) (old !! c)) (e !! c)).
Proof.
  intros Hc. unfold write_row.
  apply elem_of_list_to_map_1.
  - rewrite <- list_fmap_compose.
    replace (_ <$> data_columns E) with (data_columns E)
      by (symmetry; apply list_fmap_id).
    apply data_columns_NoDup.
  - apply list_elem_of_fmap. exists c. auto.
Qed.

Lemma insert_row_ok (E : entity) (k : Z) (e : obj) (s : store) :
  row_ok E (write_row E e ∅) s = true ->
  rows (table_of E s) !! k = None ->
  insert_row E k e s
  = Some (set_table E
            {| rows := <[k := write_row E e ∅]> (rows (table_of E s));
               AUTO_INCREMENT := Z.max (AUTO_INCREMENT (table_of E s)) (k + 1) |}
            s).
Proof.
  intros Hok Hfree. unfold insert_row. rewrite Hok.
  rewrite bool_decide_eq_true_2 by exact Hfree. reflexivity.
Qed.

Lemma table_of_set_table (E : entity) (t : table) (s : store) :
  table_of E (set_table E t s) = t.
Proof. destruct E; reflexivity. Qed.

(** The entity [save] returns is the one it was given, but for the [id]. *)
Lemma persist_keeps_fields (E : entity) (e e' : obj) (s s' : store)
    (c : string) :
  persist E e s = Some (e', s') -> c <> "id" -> e' !! c = e !! c.
Proof.
  unfold persist. intros H Hc.
  assert (Hauto : insert_generated E e s = Some (e', s') ->
                  e' !! c = e !! c).
  { unfold insert_generated. intros Hk.
    destruct (insert_row E _ e s); [|discriminate].
    injection Hk as <- _. apply hydrate_lookup_ne. exact Hc. }
  destruct (e !! "id") as [[[| |n| | |]|]|] eqn:Hid; try discriminate; eauto.
  destruct (num_to_int n) as [k|]; [|discriminate].
  destruct (rows (table_of E s) !! k) as [old|].
  - destruct (update_row E k e old s); [|discriminate].
    injection H as <- _. reflexivity.
  - destruct (k =? 0); [eauto|].
    destruct (insert_row E k e s); [|discriminate].
    injection H as <- _. reflexivity.
Qed.

(** ** Creating tasks *)

Lemma plainToInstance_throws (E : entity) (plain : obj) :
  plainToInstance E plain = None ->
  exists k v, plain !! k = Some v /\ transform_val v = None.
Proof.
  unfold plainToInstance. cbv zeta. case_bool_decide as Hall; [discriminate|].
  intros _. apply map_not_Forall in Hall; [|apply _].
  destruct Hall as (k & v & Hkept & Hnot).
  apply map_lookup_filter_Some in Hkept as [Hv _].
  exists k, v. split; [exact Hv|]. apply eq_None_not_Some. exact Hnot.
Qed.

Lemma post_tasks_eq (host_parse : string -> option Z) (body : json_body)
    (w : world) :
  post_tasks host_parse body w
  = match convert_dueDate host_parse (J <$> body)
          ≫= plainToInstance Task with
    | None => (Ok (res_status 500 (Message "Error creating task")), w)
    | Some newTask =>
        match validateEntity Task newTask with
        | Some error => (Ok error, w)
        | None =>
            match persist Task newTask (db w) with
            | Some (savedTask, s') =>
                (Ok (res_status 201 (Entity savedTask)),
                 after (QSave Task newTask) s' w)
            | None =>
                (Ok (res_status 500 (Message "Error creating task")),
                 after (QSave Task newTask) (db w) w)
            end
        end
    end.
Proof.
  unfold post_tasks, try_catch, or_throw.
  destruct (convert_dueDate host_parse (J <$> body)) as [body'|];
    [|reflexivity].
  change (Some body' ≫= plainToInstance Task)
    with (plainToInstance Task body').
  unfold mbind, M_bind. cbn [mret M_ret].
  destruct (plainToInstance Task body') as [newTask|]; [|reflexivity].
  simpl. destruct (validateEntity Task newTask) as [error|]; [reflexivity|].
  unfold Repository.save. rewrite send_eq.
  destruct (persist Task newTask (db w)) as [[e s']|]; reflexivity.
Qed.

Lemma convert_dueDate_absent (host_parse : string -> option Z) (body : obj) :
  body !! "dueDate" = None -> convert_dueDate host_parse body = Some body.
Proof. intros H. unfold convert_dueDate. rewrite H. reflexivity. Qed.

(** A task instance with an integral [listId], a string [text] and the
    defaults of the class passes validation. *)
Lemma validate_Task_defaults (e : obj) (n : jsnum) (k : Z) (text : string) :
  e !! "listId" = Some (J (JNum n)) -> num_to_int n = Some k ->
  e !! "text" = Some (jstr text) ->
  e !! "description" = Some (jstr "") ->
  e !! "dueDate" = Some (VDate (Some 0)) ->
  e !! "completed" = Some (jbool false) ->
  validate Task e = [].
Proof.
  intros H1 Hk H2 H3 H4 H5. unfold validate. simpl.
  rewrite H1, H2, H3, H4, H5. unfold failed_constraints. simpl.
  unfold Number_isInteger. rewrite Hk. reflexivity.
Qed.

Lemma row_ok_Task (e : obj) (n : jsnum) (k : Z) (v : jsval) (s : store) :
  e !! "listId" = Some (J (JNum n)) -> num_to_int n = Some k ->
  e !! "text" = Some v -> is_null (Some v) = false ->
  is_Some (rows (lists s) !! k) ->
  row_ok Task (write_row Task e ∅) s = true.
Proof.
  intros H1 Hk H2 Hv Hlist. unfold row_ok, ref_of. simpl.
  rewrite !write_row_lookup
    by (apply (bool_decide_unpack _); vm_compute; exact I).
  rewrite H1, H2. simpl. rewrite Hk.
  rewrite bool_decide_eq_true_2 by exact Hlist.
  simpl in Hv. destruct v as [[]|]; try discriminate; reflexivity.
Qed.

Lemma new_Task_fields :
  new_instance Task !! "id" = None
  /\ new_instance Task !! "listId" = None
  /\ new_instance Task !! "text" = None
  /\ new_instance Task !! "description" = Some (jstr "")
  /\ new_instance Task !! "dueDate" = Some (VDate (Some 0))
  /\ new_instance Task !! "completed" = Some (jbool false).
Proof. repeat split; reflexivity. Qed.

(** What a task built from [body] holds, before any copying, under the
    properties the decorators and the store look at. *)
Lemma newTask_lookup (body : obj) :
  let newTask := body ∪ new_instance Task in
  newTask !! "id" = body !! "id"
  /\ newTask !! "listId" = body !! "listId"
  /\ newTask !! "text" = body !! "text"
  /\ newTask !! "description"
     = Some (default (jstr "") (body !! "description"))
  /\ newTask !! "dueDate"
     = Some (default (VDate (Some 0)) (body !! "dueDate"))
  /\ newTask !! "completed"
     = Some (default (jbool false) (body !! "completed")).
Proof.
  destruct new_Task_fields as (F0 & F1 & F2 & F3 & F4 & F5).
  cbv zeta. rewrite !lookup_union.
  rewrite F0, F1, F2, F3, F4, F5.
  repeat split; match goal with |- context [body !! ?c] =>
                  destruct (body !! c); reflexivity end.
Qed.

(** C1, as the code has it.  [POST /tasks] requires an integral [listId]:
    a body with [text] alone is answered 400, the world untouched.  A body
    with a string [text] of at most 255 characters and the [listId] of an
    existing list, without [id], [description], [dueDate] and [completed],
    and on which [plainToInstance] does not throw, is inserted and answered
    201, the next key being one an [INT] column holds; the created task,
    and its row, have the empty [description], [completed] false and the
    epoch as [dueDate]. *)
Theorem post_tasks_needs_listId_then_defaults
    (host_parse : string -> option Z) :
  (forall (text : string) (w : world),
      app host_parse (POST_tasks {[ "text" := JStr text ]}) w
      = (Ok (res_status 400
               (Constraints [[("isInt", "listId must be an integer number")]])),
         w))
  /\ (forall (body : json_body) (w : world) (text : string) (n : jsnum)
             (k : Z) (newTask : obj),
         body !! "text" = Some (JStr text) ->
         (String.length text <= 255)%nat ->
         body !! "listId" = Some (JNum n) ->
         num_to_int n = Some k ->
         is_Some (rows (lists (db w)) !! k) ->
         body !! "id" = None ->
         body !! "description" = None ->
         body !! "dueDate" = None ->
         body !! "completed" = None ->
         plainToInstance Task (J <$> body) = Some newTask ->
         rows (tasks (db w)) !! AUTO_INCREMENT (tasks (db w)) = None ->
         0 < AUTO_INCREMENT (tasks (db w)) < 2 ^ 31 ->
         let key := AUTO_INCREMENT (tasks (db w)) in
         exists s' row,
           app host_parse (POST_tasks body) w
           = (Ok (res_status 201 (Entity (hydrate key newTask))),
              after (QSave Task newTask) s' w)
           /\ hydrate key newTask !! "description" = Some (jstr "")
           /\ hydrate key newTask !! "completed" = Some (jbool false)
           /\ hydrate key newTask !! "dueDate" = Some (VDate (Some 0))
           /\ rows (tasks s') !! key = Some row
           /\ row !! "description" = Some (jstr "")
           /\ row !! "completed" = Some (jbool false)
           /\ row !! "dueDate" = Some (VDate (Some 0))).
Proof.
  split.
  - intros text w. simpl app. rewrite post_tasks_eq.
    rewrite map_fmap_singleton.
    rewrite convert_dueDate_absent by reflexivity. simpl mbind.
    destruct (plainToInstance Task {[ "text" := J (JStr text) ]})
      as [newTask|] eqn:Hinst.
    2: { apply plainToInstance_throws in Hinst as (c & v & Hv & Hnone).
         apply lookup_singleton_Some in Hv as [_ <-]. discriminate Hnone. }
    destruct (newTask_lookup {[ "text" := J (JStr text) ]})
      as (_ & L1 & L2 & L3 & L4 & L5).
    unfold validateEntity. rewrite (validate_instance Task _ _ Hinst).
    cbv zeta in L1, L2, L3, L4, L5.
    set (t := {[ "text" := J (JStr text) ]} ∪ new_instance Task) in *.
    unfold validate. simpl.
    rewrite L1, L2, L3, L4, L5. reflexivity.
  - intros body w text n k newTask Htext _ Hlist Hk Hrow Hid Hdesc Hdue Hcomp
           Hinst Hfree _ key.
    destruct new_Task_fields as (F0 & _ & _ & F3 & F4 & F5).
    assert (L0 : newTask !! "id" = None).
    { rewrite (plainToInstance_default Task _ _ "id" Hinst); [exact F0|].
      rewrite lookup_fmap, Hid. reflexivity. }
    assert (L1 : newTask !! "listId" = Some (J (JNum n))).
    { apply (plainToInstance_scalar Task (J <$> body) newTask "listId");
        [exact Hinst | reflexivity | | exact I].
      rewrite lookup_fmap, Hlist. reflexivity. }
    assert (L2 : newTask !! "text" = Some (jstr text)).
    { apply (plainToInstance_scalar Task (J <$> body) newTask "text");
        [exact Hinst | reflexivity | | exact I].
      rewrite lookup_fmap, Htext. reflexivity. }
    assert (L3 : newTask !! "description" = Some (jstr "")).
    { rewrite (plainToInstance_default Task _ _ "description" Hinst);
        [exact F3|].
      rewrite lookup_fmap, Hdesc. reflexivity. }
    assert (L4 : newTask !! "dueDate" = Some (VDate (Some 0))).
    { rewrite (plainToInstance_default Task _ _ "dueDate" Hinst); [exact F4|].
      rewrite lookup_fmap, Hdue. reflexivity. }
    assert (L5 : newTask !! "completed" = Some (jbool false)).
    { rewrite (plainToInstance_default Task _ _ "completed" Hinst);
        [exact F5|].
      rewrite lookup_fmap, Hcomp. reflexivity. }
    assert (Hok : row_ok Task (write_row Task newTask ∅) (db w) = true)
      by (apply (row_ok_Task newTask n k (jstr text)); auto).
    exists (set_table Task
              {| rows := <[key := write_row Task newTask ∅]>
                           (rows (tasks (db w)));
                 AUTO_INCREMENT :=
                   Z.max (AUTO_INCREMENT (tasks (db w))) (key + 1) |}
              (db w)).
    exists (write_row Task newTask ∅).
    split.
    + simpl app. rewrite post_tasks_eq.
      rewrite convert_dueDate_absent
        by (rewrite lookup_fmap, Hdue; reflexivity).
      simpl mbind. rewrite Hinst. unfold validateEntity.
      rewrite (validate_Task_defaults newTask n k text) by assumption.
      unfold persist, insert_generated. rewrite L0.
      change (AUTO_INCREMENT (table_of Task (db w))) with key.
      rewrite (insert_row_ok Task key newTask (db w) Hok Hfree).
      reflexivity.
    + rewrite !hydrate_lookup_ne by discriminate.
      rewrite !write_row_lookup
        by (apply (bool_decide_unpack _); vm_compute; exact I).
      rewrite L3, L4, L5. simpl.
      repeat split; try assumption. apply lookup_insert_eq.
Qed.

(** ["Buy milk"] on list 1 of the example store becomes task 5. *)
Lemma post_tasks_needs_listId_then_defaults_witness :
  is_Some (rows (lists (db example_world)) !! 1)
  /\ exists newTask s' row,
      app no_host_parse (POST_tasks buy_milk) example_world
      = (Ok (res_status 201 (Entity (hydrate 5 newTask))),
         after (QSave Task newTask) s' example_world)
      /\ hydrate 5 newTask !! "description" = Some (jstr "")
      /\ hydrate 5 newTask !! "completed" = Some (jbool false)
      /\ hydrate 5 newTask !! "dueDate" = Some (VDate (Some 0))
      /\ rows (tasks s') !! 5 = Some row
      /\ row !! "description" = Some (jstr "")
      /\ row !! "completed" = Some (jbool false)
      /\ row !! "dueDate" = Some (VDate (Some 0)).
Proof.
  assert (Hlist : is_Some (rows (lists (db example_world)) !! 1))
    by (eexists; reflexivity).
  assert (H1 : buy_milk !! "text" = Some (JStr "Buy milk")) by reflexivity.
  assert (Hlen : (String.length "Buy milk" <= 255)%nat) by (simpl; lia).
  assert (H2 : buy_milk !! "listId" = Some (JNum (num_of_Z 1)))
    by reflexivity.
  assert (H3 : num_to_int (num_of_Z 1) = Some 1) by reflexivity.
  assert (H4 : buy_milk !! "id" = None) by reflexivity.
  assert (H5 : buy_milk !! "description" = None) by reflexivity.
  assert (H6 : buy_milk !! "dueDate" = None) by reflexivity.
  assert (H7 : buy_milk !! "completed" = None) by reflexivity.
  assert (Hinst : plainToInstance Task (J <$> buy_milk)
                  = Some (mk_task 1 "Buy milk" "" 0)) by reflexivity.
  assert (H8 : rows (tasks (db example_world))
                 !! AUTO_INCREMENT (tasks (db example_world)) = None)
    by reflexivity.
  assert (H9 : 0 < AUTO_INCREMENT (tasks (db example_world)) < 2 ^ 31)
    by (simpl; lia).
  split; [exact Hlist|].
  exists (mk_task 1 "Buy milk" "" 0).
  exact (proj2 (post_tasks_needs_listId_then_defaults no_host_parse)
               buy_milk example_world "Buy milk" (num_of_Z 1) 1
               (mk_task 1 "Buy milk" "" 0)
               H1 Hlen H2 H3 Hlist H4 H5 H6 H7 Hinst H8 H9).
Defined.

(** C1 as the specification states it fails: [POST /tasks] with the body
    [{text: "Buy milk"}] is answered 400, not 201, and nothing is created. *)
Lemma post_tasks_text_only_is_400 :
  exists r w',
    app no_host_parse (POST_tasks {[ "text" := JStr "Buy milk" ]})
        example_world
    = (Ok r, w')
    /\ status r = 400
    /\ status r <> 201
    /\ body r = Constraints [[("isInt", "listId must be an integer number")]]
    /\ w' = example_world.
Proof.
  eexists. eexists. split; [reflexivity|].
  split; [reflexivity|]. split; [discriminate|].
  split; reflexivity.
Qed.

(** ** The due date of a created task *)

Lemma new_Date_is_Date (host_parse : string -> option Z) (v d : jsval) :
  new_Date host_parse v = Some d -> exists t, d = VDate t.
Proof.
  unfold new_Date. intros H.
  destruct v as [[| | | |l|l]|t];
    try (injection H as <-; eauto; fail);
    apply bind_Some in H as (s & _ & [= <-]); eauto.
Qed.

Lemma validate_Task_invalid_date (e : obj) :
  e !! "dueDate" = Some (VDate None) ->
  dueDate_must_be_a_Date ∈ validate Task e.
Proof.
  intros H. unfold validate. apply list_elem_of_omap.
  exists {| property := "dueDate"; checks := [IsDate]; IsOptional := true |}.
  split.
  - simpl. do 3 apply list_elem_of_further. apply list_elem_of_here.
  - simpl. rewrite H. reflexivity.
Qed.

Lemma validateEntity_status (E : entity) (e : obj) (r : response) :
  validateEntity E e = Some r -> status r = 400.
Proof.
  unfold validateEntity. destruct (validate E e); [discriminate|].
  intros [= <-]. reflexivity.
Qed.

Lemma validateEntity_None (E : entity) (e : obj) :
  validateEntity E e = None -> validate E e = [].
Proof.
  unfold validateEntity. destruct (validate E e); [reflexivity|discriminate].
Qed.

(** A created task: the response is 201 only past validation and a
    successful save. *)
Lemma post_tasks_201 (host_parse : string -> option Z) (req_body : json_body)
    (w w' : world) (r : response) :
  app host_parse (POST_tasks req_body) w = (Ok r, w') ->
  status r = 201 ->
  exists body' newTask e,
    convert_dueDate host_parse (J <$> req_body) = Some body'
    /\ plainToInstance Task body' = Some newTask
    /\ validate Task newTask = []
    /\ body r = Entity e
    /\ forall c, c <> "id" -> e !! c = newTask !! c.
Proof.
  simpl app. rewrite post_tasks_eq.
  destruct (convert_dueDate host_parse (J <$> req_body)) as [body'|].
  2: { intros [= <- _]. discriminate. }
  simpl mbind.
  destruct (plainToInstance Task body') as [newTask|] eqn:Hinst.
  2: { intros [= <- _]. discriminate. }
  destruct (validateEntity Task newTask) as [error|] eqn:Hval.
  { intros [= <- _] Hst. rewrite (validateEntity_status _ _ _ Hval) in Hst.
    discriminate. }
  destruct (persist Task newTask (db w)) as [[e s']|] eqn:Hsave.
  2: { intros [= <- _]. discriminate. }
  intros [= <- _] _. exists body', newTask, e.
  split; [reflexivity|]. split; [exact Hinst|].
  split; [exact (validateEntity_None _ _ Hval)|].
  split; [reflexivity|].
  intros c Hc. exact (persist_keeps_fields Task _ _ _ _ c Hsave Hc).
Qed.

(** C2, as the code has it.  A [dueDate] of the body that is truthy is
    replaced by [new Date(dueDate)] before the entity is built, and the
    created task carries that date; with no [dueDate] in the body the
    created task carries the epoch; when the conversion gives an Invalid
    Date no task is created and the world is untouched: the answer is 400
    with the [isDate] message, or 500 when [plainToInstance] throws on the
    body.  A [dueDate] that is falsy ([null], [0], [false], the empty
    string) is not converted. *)
Theorem post_tasks_converts_dueDate (host_parse : string -> option Z) :
  (forall (req_body : json_body) (w : world) (v : json) (d : jsval),
      req_body !! "dueDate" = Some v ->
      truthy (J v) = true ->
      new_Date host_parse (J v) = Some d ->
      convert_dueDate host_parse (J <$> req_body)
      = Some (<["dueDate" := d]> (J <$> req_body))
      /\ forall r w',
           app host_parse (POST_tasks req_body) w = (Ok r, w') ->
           status r = 201 ->
           exists e t, body r = Entity e /\ d = VDate (Some t)
                       /\ e !! "dueDate" = Some (VDate (Some t)))
  /\ (forall (req_body : json_body) (w w' : world) (r : response),
         req_body !! "dueDate" = None ->
         app host_parse (POST_tasks req_body) w = (Ok r, w') ->
         status r = 201 ->
         exists e, body r = Entity e
                   /\ e !! "dueDate" = Some (VDate (Some 0)))
  /\ (forall (req_body : json_body) (w : world) (v : json),
         req_body !! "dueDate" = Some v ->
         truthy (J v) = true ->
         new_Date host_parse (J v) = Some (VDate None) ->
         exists r,
           app host_parse (POST_tasks req_body) w = (Ok r, w)
           /\ match plainToInstance Task
                      (<["dueDate" := VDate None]> (J <$> req_body)) with
              | Some _ =>
                  exists cs,
                    r = res_status 400 (Constraints cs)
                    /\ [("isDate", "dueDate must be a Date instance")] ∈ cs
              | None => r = res_status 500 (Message "Error creating task")
              end)
  /\ (forall (req_body : json_body) (v : json),
         req_body !! "dueDate" = Some v ->
         truthy (J v) = false ->
         convert_dueDate host_parse (J <$> req_body) = Some (J <$> req_body)).
Proof.
  assert (Hconv : forall (req_body : json_body) v d,
             req_body !! "dueDate" = Some v -> truthy (J v) = true ->
             new_Date host_parse (J v) = Some d ->
             convert_dueDate host_parse (J <$> req_body)
             = Some (<["dueDate" := d]> (J <$> req_body))).
  { intros req_body v d Hv Ht Hd. unfold convert_dueDate.
    rewrite lookup_fmap, Hv. change (J <$> Some v) with (Some (J v)).
    cbv iota beta. rewrite Ht, Hd. reflexivity. }
  split; [|split; [|split]].
  4: { intros req_body v Hv Ht. unfold convert_dueDate.
       rewrite lookup_fmap, Hv. change (J <$> Some v) with (Some (J v)).
       cbv iota beta. rewrite Ht. reflexivity. }
  - intros req_body w v d Hv Ht Hd.
    split; [exact (Hconv req_body v d Hv Ht Hd)|].
    intros r w' Happ Hst.
    destruct (post_tasks_201 _ _ _ _ _ Happ Hst)
      as (body' & newTask & e & Hb & Hinst & Hvalid & Hbody & Hfields).
    rewrite (Hconv req_body v d Hv Ht Hd) in Hb. injection Hb as <-.
    destruct (new_Date_is_Date _ _ _ Hd) as [t ->].
    assert (Ldue : newTask !! "dueDate" = Some (VDate t)).
    { apply (plainToInstance_scalar Task _ newTask "dueDate" _ Hinst);
        [reflexivity | apply lookup_insert_eq | exact I]. }
    destruct t as [t|].
    + exists e, t. split; [exact Hbody|]. split; [reflexivity|].
      rewrite Hfields by discriminate. exact Ldue.
    + exfalso. pose proof (validate_Task_invalid_date _ Ldue) as Hin.
      rewrite Hvalid in Hin. inversion Hin.
  - intros req_body w w' r Habsent Happ Hst.
    destruct (post_tasks_201 _ _ _ _ _ Happ Hst)
      as (body' & newTask & e & Hb & Hinst & _ & Hbody & Hfields).
    rewrite convert_dueDate_absent in Hb
      by (rewrite lookup_fmap, Habsent; reflexivity).
    injection Hb as <-.
    exists e. split; [exact Hbody|].
    rewrite Hfields by discriminate.
    rewrite (plainToInstance_default Task _ _ "dueDate" Hinst);
      [reflexivity|].
    rewrite lookup_fmap, Habsent. reflexivity.
  - intros req_body w v Hv Ht Hd.
    simpl app. rewrite post_tasks_eq.
    rewrite (Hconv req_body v _ Hv Ht Hd). simpl mbind.
    destruct (plainToInstance Task
                (<["dueDate" := VDate None]> (J <$> req_body)))
      as [newTask|] eqn:Hinst.
    2: { eexists. split; reflexivity. }
    assert (Ldue : newTask !! "dueDate" = Some (VDate None)).
    { apply (plainToInstance_scalar Task _ newTask "dueDate" _ Hinst);
        [reflexivity | apply lookup_insert_eq | exact I]. }
    pose proof (validate_Task_invalid_date _ Ldue) as Hin.
    unfold validateEntity.
    destruct (validate Task newTask) as [|err errs] eqn:Hval;
      [inversion Hin|].
    eexists. split; [reflexivity|].
    exists (constraints <$> (err :: errs)). split; [reflexivity|].
    apply list_elem_of_fmap. exists dueDate_must_be_a_Date.
    split; [reflexivity | exact Hin].
Qed.

(** ["Buy milk"] with the date-time of the API documentation is created with
    that time value; without [dueDate] it is created with the epoch; with
    ["not a date"] it is refused. *)
Lemma post_tasks_converts_dueDate_witness :
  (new_Date no_host_parse (J (JStr "2024-10-15T14:48:00.000Z"))
   = Some (VDate (Some 1729003680000))
   /\ exists e t,
       body (answer (app no_host_parse
                         (POST_tasks (due (JStr "2024-10-15T14:48:00.000Z")))
                         example_world))
       = Entity e
       /\ VDate (Some 1729003680000) = VDate (Some t)
       /\ e !! "dueDate" = Some (VDate (Some t)))
  /\ (exists e,
         body (answer (app no_host_parse (POST_tasks buy_milk) example_world))
         = Entity e
         /\ e !! "dueDate" = Some (VDate (Some 0)))
  /\ (new_Date no_host_parse (J (JStr "not a date")) = Some (VDate None)
      /\ exists r,
          app no_host_parse (POST_tasks (due (JStr "not a date")))
              example_world
          = (Ok r, example_world)
          /\ match plainToInstance Task
                     (<["dueDate" := VDate None]>
                        (J <$> due (JStr "not a date"))) with
             | Some _ =>
                 exists cs,
                   r = res_status 400 (Constraints cs)
                   /\ [("isDate", "dueDate must be a Date instance")] ∈ cs
             | None => r = res_status 500 (Message "Error creating task")
             end).
Proof.
  pose proof (post_tasks_converts_dueDate no_host_parse)
    as (Ha & Hb & Hc & _).
  split; [|split].
  - split; [reflexivity|].
    refine (proj2 (Ha (due (JStr "2024-10-15T14:48:00.000Z")) example_world
                      (JStr "2024-10-15T14:48:00.000Z")
                      (VDate (Some 1729003680000)) _ _ _)
                  _ (app no_host_parse
                         (POST_tasks (due (JStr "2024-10-15T14:48:00.000Z")))
                         example_world).2 _ _); reflexivity.
  - refine (Hb buy_milk example_world
               (app no_host_parse (POST_tasks buy_milk) example_world).2
               _ _ _ _); reflexivity.
  - split; [reflexivity|].
    refine (Hc (due (JStr "not a date")) example_world (JStr "not a date")
               _ _ _); reflexivity.
Defined.

(** C2 as the specification states it fails: with the unparseable
    [dueDate] ["not a date"], and [listId] and [text] in order, [POST /tasks]
    does not create a task with the epoch as due date: the answer is 400 and
    the world is untouched. *)
Lemma post_tasks_unparseable_dueDate_is_400 :
  new_Date no_host_parse (J (JStr "not a date")) = Some (VDate None)
  /\ exists r w',
      app no_host_parse (POST_tasks (due (JStr "not a date"))) example_world
      = (Ok r, w')
      /\ status r = 400
      /\ status r <> 201
      /\ body r
         = Constraints [[("isDate", "dueDate must be a Date instance")]]
      /\ w' = example_world.
Proof.
  split; [reflexivity|].
  eexists. eexists. split; [reflexivity|].
  split; [reflexivity|]. split; [discriminate|].
  split; reflexivity.
Qed.

(** ** Updating *)

Lemma put_id_eq (host_parse : string -> option Z) (E : entity) (id : string)
    (req_body : json_body) (w : world) :
  handler host_parse (PUT_id E id req_body) w
  = let w1 := after (QFindOneBy E (Number id)) (db w) w in
    match select_by_id E (Number id) (db w) with
    | None => (Ok (res_status 500 (Message (put_error E))), w1)
    | Some None => (Ok (res_status 404 (Message (not_found E))), w1)
    | Some (Some old) =>
        let updated := Repository.merge E old (J <$> req_body) in
        match revalidation E updated with
        | None => (Ok (res_status 500 (Message (put_error E))), w1)
        | Some (Some error) => (Ok error, w1)
        | Some None =>
            match persist E updated (db w) with
            | Some (result, s') =>
                (Ok (res_json (Entity result)),
                 after (QSave E updated) s' w1)
            | None =>
                (Ok (res_status 500 (Message (put_error E))),
                 after (QSave E updated) (db w) w1)
            end
        end
    end.
Proof.
  destruct E; simpl handler; cbv zeta;
    unfold put_users_id, put_lists_id, put_tasks_id, try_catch,
      Repository.findOneBy, Repository.save, mbind at 1 2, M_bind,
      revalidation, or_throw;
    rewrite send_eq;
    destruct (select_by_id _ (Number id) (db w)) as [[old|]|];
    try reflexivity; cbn [option_bind mbind revalidated];
    try (unfold mbind at 1, M_bind;
         destruct (plainToInstance _ _) as [instance|]; [|reflexivity];
         cbn [option_bind mbind mret M_ret];
         destruct (validateEntity _ instance) as [error|]; [reflexivity|]);
    unfold mbind, M_bind;
    rewrite send_eq; cbn [db after];
    destruct (persist _ _ (db w)) as [[e s']|]; reflexivity.
Qed.

Lemma put_app_eq (host_parse : string -> option Z) (E : entity) (id : string)
    (req_body : json_body) :
  num_gt0 (Number id) = true ->
  app host_parse (PUT_id E id req_body)
  = handler host_parse (PUT_id E id req_body).
Proof.
  intros Hpos. destruct E; simpl; apply validateIdParam_pass; exact Hpos.
Qed.




Lemma columns_data (E : entity) (c : string) :
  c ∈ data_columns E -> c ∈ columns E /\ c <> "id".
Proof.
  intros Hc. split.
  - destruct E; simpl in *; apply list_elem_of_further; exact Hc.
  - intros ->. apply (bool_decide_pack _) in Hc.
    destruct E; vm_compute in Hc; exact Hc.
Qed.






(** ** Merging an update *)

(** C8 on the code.  [PUT /users/1] with the body [{id: 2, name: "Zed"}]
    on the example store is answered 200 with the record [{id: 2, name:
    "Zed"}]: the record of the path, user 1, keeps the name Alice that the
    body was to overwrite, and user 2, who was Bob, is Zed. *)
Theorem put_users_body_id_retargets_the_update :
  exists e w',
    app no_host_parse
        (PUT_users_id "1" {[ "id" := JNum (num_of_Z 2); "name" := JStr "Zed" ]})
        example_world
    = (Ok (res_json (Entity e)), w')
    /\ e !! "id" = Some (jnum 2)
    /\ e !! "name" = Some (jstr "Zed")
    /\ rows (users example_store) !! 1 = Some (mk_user "Alice")
    /\ rows (users example_store) !! 2 = Some (mk_user "Bob")
    /\ rows (users (db w')) !! 1 = Some (mk_user "Alice")
    /\ rows (users (db w')) !! 2 = Some (mk_user "Zed").
Proof.
  eexists. eexists. split; [reflexivity|].
  repeat split; reflexivity.
Qed.



(** ** Every handler, one request at a time *)

Lemma get_users_eq (w : world) :
  get_users w
  = (Ok (res_json (Entities (select_all User (db w)))),
     after (QFind User) (db w) w).
Proof. reflexivity. Qed.

Lemma post_lists_eq (body : json_body) (w : world) :
  post_lists body w
  = match plainToInstance List (J <$> body) with
    | None => (Ok (res_status 500 (Message "Error creating list")), w)
    | Some newList =>
        match validateEntity List newList with
        | Some error => (Ok error, w)
        | None =>
            match persist List newList (db w) with
            | Some (savedList, s') =>
                (Ok (res_status 201 (Entity savedList)),
                 after (QSave List newList) s' w)
            | None =>
                (Ok (res_status 500 (Message "Error creating list")),
                 after (QSave List newList) (db w) w)
            end
        end
    end.
Proof.
  unfold post_lists, try_catch, mbind, M_bind, or_throw.
  destruct (plainToInstance List (J <$> body)) as [newList|]; [|reflexivity].
  simpl. destruct (validateEntity List newList) as [error|]; [reflexivity|].
  unfold Repository.save. rewrite send_eq.
  destruct (persist List newList (db w)) as [[e s']|]; reflexivity.
Qed.

Lemma post_to_eq (host_parse : string -> option Z) (E : entity)
    (body : json_body) (w : world) :
  app host_parse (POST_to E body) w
  = match converted host_parse E (J <$> body) ≫= plainToInstance E with
    | None => (Ok (res_status 500 (Message (post_error E))), w)
    | Some e =>
        match validateEntity E e with
        | Some error => (Ok error, w)
        | None =>
            match persist E e (db w) with
            | Some (saved, s') =>
                (Ok (res_status 201 (Entity saved)), after (QSave E e) s' w)
            | None =>
                (Ok (res_status 500 (Message (post_error E))),
                 after (QSave E e) (db w) w)
            end
        end
    end.
Proof.
  destruct E; simpl app; simpl converted.
  - apply post_users_eq.
  - apply post_lists_eq.
  - apply post_tasks_eq.
Qed.

Lemma queries_after (q : query) (s : store) (w : world) :
  queries (after q s w) = (queries w ++ [q])%list.
Proof. reflexivity. Qed.

Lemma effect_400 (r : request) (w : world) (m : payload) :
  effect r w (Ok (res_status 400 m), w).
Proof.
  exists (res_status 400 m), w, []. rewrite app_nil_r.
  repeat split; [simpl; lia|]. left. split; [reflexivity|]. left. reflexivity.
Qed.

(** An answer that left the store alone after one query. *)
Lemma effect_read (r : request) (w : world) (q : query) (resp : response) :
  status resp = 400 \/ status resp = 404 \/ status resp = 500
  \/ (status resp = 200 /\ method r = GET) ->
  effect r w (Ok resp, after q (db w) w).
Proof.
  intros H. exists resp, (after q (db w) w), [q].
  repeat split; [simpl; lia|]. left. split; [reflexivity | exact H].
Qed.

Lemma validateIdParam_effect (r : request) (id : string) (next : M response)
    (w : world) :
  (num_gt0 (Number id) = true -> effect r w (next w)) ->
  effect r w (validateIdParam id next w).
Proof.
  intros H. destruct (num_gt0 (Number id)) eqn:Hpos.
  - rewrite (validateIdParam_pass id next Hpos). auto.
  - rewrite (validateIdParam_reject id next w Hpos). apply effect_400.
Qed.

Lemma get_id_effect (host_parse : string -> option Z) (E : entity)
    (id : string) (w : world) :
  effect (GET_id E id) w (handler host_parse (GET_id E id) w).
Proof.
  rewrite get_id_eq. apply effect_read.
  destruct (select_by_id E (Number id) (db w)) as [[e|]|]; simpl.
  - right; right; right. destruct E; auto.
  - auto.
  - auto.
Qed.

Lemma post_to_effect (host_parse : string -> option Z) (E : entity)
    (body : json_body) (w : world) :
  effect (POST_to E body) w (app host_parse (POST_to E body) w).
Proof.
  rewrite post_to_eq.
  destruct (converted host_parse E (J <$> body) ≫= plainToInstance E)
    as [inst|].
  2: { exists (res_status 500 (Message (post_error E))), w, [].
       rewrite app_nil_r. repeat split; [simpl; lia|]. left. auto. }
  destruct (validateEntity E inst) as [error|] eqn:Hval.
  { exists error, w, []. rewrite app_nil_r. repeat split; [simpl; lia|].
    left. split; [reflexivity|]. left.
    exact (validateEntity_status _ _ _ Hval). }
  destruct (persist E inst (db w)) as [[e s']|] eqn:Hsave.
  - eexists; eexists; exists [QSave E inst].
    split; [reflexivity|]. split; [reflexivity|]. split; [simpl; lia|].
    right; left. exists E, inst, e.
    split; [exact Hsave|].
    split; [intros _; exact (validateEntity_None _ _ Hval)|].
    left. split; [destruct E; reflexivity | reflexivity].
  - apply effect_read. auto.
Qed.

Lemma put_id_effect (host_parse : string -> option Z) (E : entity)
    (id : string) (body : json_body) (w : world) :
  effect (PUT_id E id body) w (handler host_parse (PUT_id E id body) w).
Proof.
  rewrite put_id_eq. cbv zeta.
  destruct (select_by_id E (Number id) (db w)) as [[old|]|].
  2,3: apply effect_read; auto.
  set (merged := Repository.merge E old (J <$> body)).
  destruct (revalidation E merged) as [[error|]|] eqn:Hval.
  1: { apply effect_read. left. unfold revalidation in Hval.
       destruct (revalidated E); [|discriminate].
       apply bind_Some in Hval as (instance & _ & [= Hval]).
       exact (validateEntity_status _ _ _ Hval). }
  2: { apply effect_read. auto. }
  assert (Hvalid : E <> Task -> validate E merged = []).
  { intros HE. unfold revalidation in Hval.
    destruct E; [| |congruence]; cbn [revalidated] in Hval;
      apply bind_Some in Hval as (instance & Hinst & [= Hval]);
      rewrite <- (validate_plainToInstance _ merged instance Hinst HE);
      exact (validateEntity_None _ _ Hval). }
  destruct (persist E merged (db w)) as [[e s']|] eqn:Hsave.
  - eexists; eexists; exists [QFindOneBy E (Number id); QSave E merged].
    split; [reflexivity|].
    split; [simpl; rewrite <- app_assoc; reflexivity|].
    split; [simpl; lia|].
    right; left. exists E, merged, e.
    split; [exact Hsave|]. split; [exact Hvalid|].
    right. split; [destruct E; reflexivity | reflexivity].
  - eexists; eexists; exists [QFindOneBy E (Number id); QSave E merged].
    split; [reflexivity|].
    split; [simpl; rewrite <- app_assoc; reflexivity|].
    split; [simpl; lia|].
    left. split; [reflexivity|]. simpl. auto.
Qed.

Lemma delete_id_effect (host_parse : string -> option Z) (E : entity)
    (id : string) (w : world) :
  effect (DELETE_id E id) w (handler host_parse (DELETE_id E id) w).
Proof.
  rewrite delete_id_eq.
  destruct (remove E (Number id) (db w)) as [[n s']|] eqn:Hrm.
  2: apply effect_read; auto.
  destruct (remove_cases E _ _ _ _ Hrm)
    as [(-> & -> & _) | (-> & k & Hk & Hrow & ->)].
  - apply effect_read. simpl. auto.
  - eexists; eexists; exists [QDelete E (Number id)].
    split; [reflexivity|]. split; [reflexivity|]. split; [simpl; lia|].
    right; right. exists E, (Number id).
    split; [exact Hrm|]. split; [destruct E; reflexivity | reflexivity].
Qed.

Lemma find_where_effect (r : request) (E : entity) (c : string) (x : jsnum)
    (w : world) :
  method r = GET ->
  effect r w
    (Ok match select_where E c x (db w) with
        | Some [] => res_status 404 (Message "No lists found for this user")
        | Some l => res_json (Entities l)
        | None => res_status 500 (Message "Error fetching lists")
        end,
     after (QFindWhere E c x) (db w) w).
Proof.
  intros Hget. apply effect_read.
  destruct (select_where E c x (db w)) as [[|e l]|]; simpl; auto.
Qed.

(** Every request has one of the effects. *)
Lemma app_effect (host_parse : string -> option Z) (r : request) (w : world) :
  effect r w (app host_parse r w).
Proof.
  destruct r; simpl app;
    try (apply validateIdParam_effect; intros _).
  - rewrite get_users_eq. apply effect_read. simpl. auto.
  - apply (get_id_effect host_parse User).
  - apply (post_to_effect host_parse User).
  - apply (put_id_effect host_parse User).
  - apply (delete_id_effect host_parse User).
  - rewrite get_lists_user_id_eq. apply find_where_effect. reflexivity.
  - apply (get_id_effect host_parse List).
  - apply (post_to_effect host_parse List).
  - apply (put_id_effect host_parse List).
  - apply (delete_id_effect host_parse List).
  - rewrite get_tasks_list_id_eq. apply find_where_effect. reflexivity.
  - apply (get_id_effect host_parse Task).
  - apply (post_to_effect host_parse Task).
  - apply (put_id_effect host_parse Task).
  - apply (delete_id_effect host_parse Task).
Qed.

(** X1.  No handler lets an exception escape: every request, whatever its
    id and body and whatever the store, is answered, with one of the six
    status codes, after at most two queries to the store. *)
Theorem every_request_is_answered (host_parse : string -> option Z)
    (r : request) (w : world) :
  exists resp w' qs,
    app host_parse r w = (Ok resp, w')
    /\ status resp ∈ status_codes
    /\ queries w' = (queries w ++ qs)%list
    /\ (length qs <= 2)%nat.
Proof.
  destruct (app_effect host_parse r w)
    as (resp & w' & qs & Heq & Hq & Hlen & Heff).
  exists resp, w', qs. repeat split; try assumption.
  unfold status_codes.
  destruct Heff as [(_ & [H | [H | [H | [H _]]]])
                   | [(E & e & e' & _ & _ & [[_ H] | [_ H]])
                     | (E & x & _ & _ & H)]];
    rewrite H; apply (bool_decide_unpack _); vm_compute; exact I.
Qed.

(** X2.  Reads and failures leave the rows alone: after a [GET], and after
    any request answered 400, 404 or 500, every table holds the rows it
    held. *)
Theorem reads_and_failures_leave_the_store (host_parse : string -> option Z)
    (r : request) (w w' : world) (resp : response) :
  app host_parse r w = (Ok resp, w') ->
  method r = GET \/ status resp = 400 \/ status resp = 404
  \/ status resp = 500 ->
  forall E, rows (table_of E (db w')) = rows (table_of E (db w)).
Proof.
  intros Happ H E0.
  destruct (app_effect host_parse r w)
    as (resp0 & w0 & qs & Heq & _ & _ & Heff).
  rewrite Happ in Heq. injection Heq as <- <-.
  destruct Heff as [[Hdb _]
                   | [(E & e & e' & _ & _ & [[Hm Hs] | [Hm Hs]])
                     | (E & x & _ & Hm & Hs)]];
    [rewrite Hdb; reflexivity | exfalso ..];
    destruct H as [H | [H | [H | H]]]; congruence || lia.
Qed.

(** A task on a list that does not exist: the store refuses it, the answer
    is 500, and the rows are as they were. *)
Lemma reads_and_failures_leave_the_store_witness :
  exists resp w',
    app no_host_parse
        (POST_tasks {[ "listId" := JNum (num_of_Z 9); "text" := JStr "x" ]})
        example_world
    = (Ok resp, w')
    /\ status resp = 500
    /\ forall E, rows (table_of E (db w'))
                 = rows (table_of E (db example_world)).
Proof.
  set (r := POST_tasks {[ "listId" := JNum (num_of_Z 9); "text" := JStr "x" ]}).
  set (out := app no_host_parse r example_world).
  assert (Hout : app no_host_parse r example_world = (Ok (answer out), out.2))
    by reflexivity.
  assert (Hst : status (answer out) = 500) by reflexivity.
  exists (answer out), out.2.
  split; [exact Hout|]. split; [exact Hst|].
  exact (reads_and_failures_leave_the_store no_host_parse r example_world
           out.2 (answer out) Hout (or_intror (or_intror (or_intror Hst)))).
Defined.

(** ** What the validators accept *)

Lemma passes_IsString (v : option jsval) :
  passes IsString v = true <-> is_string v.
Proof.
  unfold is_string. split.
  - destruct v as [[[]|]|]; try discriminate. eauto.
  - intros [s ->]. reflexivity.
Qed.

Lemma passes_IsInt (v : option jsval) :
  passes IsInt v = true <-> is_int v.
Proof.
  unfold is_int. split.
  - destruct v as [[[| |n| | |]|]|]; try discriminate.
    simpl. unfold Number_isInteger.
    destruct (num_to_int n) as [k|] eqn:Hk; [eauto | discriminate].
  - intros (n & k & -> & Hk). simpl. unfold Number_isInteger.
    rewrite Hk. reflexivity.
Qed.

Lemma passes_IsBoolean (v : option jsval) :
  passes IsBoolean v = true <-> is_boolean v.
Proof.
  unfold is_boolean. split.
  - destruct v as [[[]|]|]; try discriminate. eauto.
  - intros [b ->]. reflexivity.
Qed.

Lemma passes_IsDate (v : option jsval) :
  passes IsDate v = true <-> is_date v.
Proof.
  unfold is_date. split.
  - destruct v as [[|[t|]]|]; try discriminate. eauto.
  - intros [t ->]. reflexivity.
Qed.

Lemma failed_required (c : check) (p : string) (v : option jsval) :
  failed_constraints {| property := p; checks := [c]; IsOptional := false |} v
  = [] <-> passes c v = true.
Proof.
  unfold failed_constraints, skipped. simpl.
  destruct (passes c v); simpl; split; congruence.
Qed.

Lemma failed_optional (c : check) (p : string) (v : option jsval) :
  failed_constraints {| property := p; checks := [c]; IsOptional := true |} v
  = [] <-> nullish v \/ passes c v = true.
Proof.
  unfold failed_constraints, skipped, nullish. simpl.
  destruct v as [[[]|]|]; simpl;
    try (split; [intros _; left; auto | reflexivity]);
    destruct (passes c _); simpl;
    (split; [intros H; (right; reflexivity) || discriminate H
            | intros [[H|H]|H]; reflexivity || discriminate H]).
Qed.

Lemma validate_nil (E : entity) (e : obj) :
  validate E e = [] <->
  forall r, r ∈ rules E -> failed_constraints r (e !! property r) = [].
Proof.
  unfold validate. induction (rules E) as [|r l IH]; simpl.
  - split; [intros _ r Hr; inversion Hr | reflexivity].
  - destruct (failed_constraints r (e !! property r)) as [|c cs] eqn:Hr.
    + rewrite IH. split.
      * intros H r' Hr'. apply elem_of_cons in Hr' as [-> | Hr'];
          [exact Hr | auto].
      * intros H r' Hr'. apply H. apply list_elem_of_further. exact Hr'.
    + split; [discriminate|].
      intros H. specialize (H r (list_elem_of_here _ _)). congruence.
Qed.

Lemma validate_User_iff (e : obj) :
  validate User e = [] <-> is_string (e !! "name").
Proof.
  rewrite validate_nil, <- passes_IsString. simpl. split.
  - intros H. apply (failed_required IsString "name"). apply H.
    apply list_elem_of_here.
  - intros H r Hr. apply elem_of_cons in Hr as [-> | Hr];
      [|inversion Hr].
    apply failed_required. exact H.
Qed.

Lemma validate_List_iff (e : obj) :
  validate List e = [] <->
  is_int (e !! "userId") /\ is_string (e !! "name").
Proof.
  rewrite validate_nil, <- passes_IsString, <- passes_IsInt. simpl. split.
  - intros H. split.
    + apply (failed_required IsInt "userId"). apply H.
      apply list_elem_of_here.
    + apply (failed_required IsString "name"). apply H.
      apply list_elem_of_further, list_elem_of_here.
  - intros [H1 H2] r Hr.
    repeat (apply elem_of_cons in Hr as [-> | Hr]);
      [apply failed_required; assumption .. | inversion Hr].
Qed.

Lemma validate_Task_iff (e : obj) :
  validate Task e = [] <->
  is_int (e !! "listId")
  /\ is_string (e !! "text")
  /\ (nullish (e !! "description") \/ is_string (e !! "description"))
  /\ (nullish (e !! "dueDate") \/ is_date (e !! "dueDate"))
  /\ (nullish (e !! "completed") \/ is_boolean (e !! "completed")).
Proof.
  rewrite validate_nil, <- !passes_IsString, <- passes_IsInt,
    <- passes_IsDate, <- passes_IsBoolean.
  simpl. split.
  - intros H. repeat split.
    + apply (failed_required IsInt "listId"). apply H.
      apply list_elem_of_here.
    + apply (failed_required IsString "text"). apply H.
      apply list_elem_of_further, list_elem_of_here.
    + apply (failed_optional IsString "description"). apply H.
      do 2 apply list_elem_of_further. apply list_elem_of_here.
    + apply (failed_optional IsDate "dueDate"). apply H.
      do 3 apply list_elem_of_further. apply list_elem_of_here.
    + apply (failed_optional IsBoolean "completed"). apply H.
      do 4 apply list_elem_of_further. apply list_elem_of_here.
  - intros (H1 & H2 & H3 & H4 & H5) r Hr.
    repeat (apply elem_of_cons in Hr as [-> | Hr]);
      [apply failed_required; assumption
      | apply failed_required; assumption
      | apply failed_optional; assumption ..
      | inversion Hr].
Qed.

(** X3.  What the decorators of [database.ts] accept.  A user passes
    validation exactly when its [name] is a string; a list, when its
    [userId] is an integral number and its [name] a string; a task, when its
    [listId] is an integral number, its [text] a string, and each of
    [description], [dueDate] and [completed] is [null], [undefined], or
    respectively a string, a valid [Date] and a boolean. *)
Theorem validators_accept_exactly (e : obj) :
  (validate User e = [] <-> is_string (e !! "name"))
  /\ (validate List e = [] <->
      is_int (e !! "userId") /\ is_string (e !! "name"))
  /\ (validate Task e = [] <->
      is_int (e !! "listId")
      /\ is_string (e !! "text")
      /\ (nullish (e !! "description") \/ is_string (e !! "description"))
      /\ (nullish (e !! "dueDate") \/ is_date (e !! "dueDate"))
      /\ (nullish (e !! "completed") \/ is_boolean (e !! "completed"))).
Proof.
  split; [apply validate_User_iff|].
  split; [apply validate_List_iff | apply validate_Task_iff].
Qed.

(** ** The answer of [validateEntity] *)

Lemma validate_error_inv (E : entity) (e : obj) (err : ValidationError) :
  err ∈ validate E e ->
  exists r,
    r ∈ rules E
    /\ err_property err = property r
    /\ constraints err = failed_constraints r (e !! property r)
    /\ constraints err <> [].
Proof.
  unfold validate. intros H. apply list_elem_of_omap in H as (r & Hr & H).
  exists r. split; [exact Hr|].
  destruct (failed_constraints r (e !! property r)) as [|c cs] eqn:Hf;
    [discriminate|].
  injection H as <-. simpl. repeat split. discriminate.
Qed.

Lemma failed_constraint_inv (r : rule) (v : option jsval) (n m : string) :
  (n, m) ∈ failed_constraints r v ->
  exists c, c ∈ checks r
            /\ n = constraint_name c
            /\ m = default_message c (property r)
            /\ passes c v = false.
Proof.
  unfold failed_constraints. destruct (skipped r v).
  - intros H. inversion H.
  - intros H. apply list_elem_of_In, in_map_iff in H as (c & [= <- <-] & H).
    apply filter_In in H as [Hc Hp]. exists c.
    split; [apply list_elem_of_In; exact Hc|].
    repeat split. apply negb_true_iff. exact Hp.
Qed.

Lemma validate_in_rule_order (E : entity) (e : obj) :
  (err_property <$> validate E e) `sublist_of` (property <$> rules E).
Proof.
  unfold validate. induction (rules E) as [|r l IH]; simpl.
  - constructor.
  - destruct (failed_constraints r (e !! property r)) as [|c cs]; simpl.
    + apply sublist_cons. exact IH.
    + apply sublist_skip. exact IH.
Qed.

(** X4.  [validateEntity] lets an entity through exactly when [validate]
    finds no error.  Otherwise it answers 400 with the constraints of the
    errors: there is at least one error, errors come in the order in which
    the class declares its properties, at most one for a property, none is
    empty, and every message in them is the default message of a decorator
    of that property which the value fails. *)
Theorem validateEntity_answer (E : entity) (e : obj) :
  (validateEntity E e = None <-> validate E e = [])
  /\ (forall resp,
         validateEntity E e = Some resp ->
         status resp = 400
         /\ body resp = Constraints (constraints <$> validate E e)
         /\ validate E e <> []
         /\ Forall (fun err => constraints err <> []) (validate E e)
         /\ (err_property <$> validate E e)
              `sublist_of` (property <$> rules E)
         /\ forall err n m,
              err ∈ validate E e -> (n, m) ∈ constraints err ->
              exists r c,
                r ∈ rules E /\ c ∈ checks r
                /\ err_property err = property r
                /\ n = constraint_name c
                /\ m = default_message c (property r)
                /\ passes c (e !! property r) = false).
Proof.
  split.
  - unfold validateEntity. destruct (validate E e); split; congruence.
  - intros resp H.
    split; [exact (validateEntity_status _ _ _ H)|].
    split; [|split; [|split; [|split]]].
    + unfold validateEntity in H. destruct (validate E e); [discriminate|].
      injection H as <-. reflexivity.
    + unfold validateEntity in H. destruct (validate E e); [|discriminate].
      discriminate H.
    + apply Forall_forall. intros err Herr.
      destruct (validate_error_inv E e err Herr) as (r & _ & _ & _ & Hne).
      exact Hne.
    + apply validate_in_rule_order.
    + intros err n m Herr Hnm.
      destruct (validate_error_inv E e err Herr) as (r & Hr & Hp & Hc & _).
      rewrite Hc in Hnm.
      destruct (failed_constraint_inv r _ n m Hnm) as (c & Hcr & -> & -> & Hf).
      exists r, c. repeat split; assumption.
Qed.

(** The empty task: the two required properties are reported, [listId]
    first. *)
Lemma validateEntity_answer_witness :
  validateEntity Task ∅
  = Some (res_status 400
            (Constraints [[("isInt", "listId must be an integer number")];
                          [("isString", "text must be a string")]]))
  /\ (err_property <$> validate Task ∅)
       `sublist_of` (property <$> rules Task).
Proof.
  assert (H : validateEntity Task ∅
              = Some (res_status 400
                        (Constraints
                           [[("isInt", "listId must be an integer number")];
                            [("isString", "text must be a string")]])))
    by reflexivity.
  split; [exact H|].
  exact (proj1 (proj2 (proj2 (proj2 (proj2
           (proj2 (validateEntity_answer Task ∅) _ H)))))).
Defined.

(** ** Consistency of the store *)

Lemma row_ok_spec (E : entity) (row : obj) (s : store) :
  row_ok E row s = true <->
  (forall c, c ∈ not_null E -> is_null (row !! c) = false)
  /\ parent_exists E row s.
Proof.
  unfold row_ok, parent_exists. rewrite andb_true_iff, forallb_forall.
  split; intros [H1 H2]; split.
  - intros c Hc. apply list_elem_of_In in Hc. apply negb_true_iff. auto.
  - destruct (references E) as [[c P]|]; [|exact I].
    destruct (ref_of c row) as [p|]; [|discriminate].
    exists p. split; [reflexivity|].
    apply bool_decide_eq_true in H2. exact H2.
  - intros c Hc. apply negb_true_iff. apply H1. apply list_elem_of_In.
    exact Hc.
  - destruct (references E) as [[c P]|]; [|reflexivity].
    destruct H2 as (p & -> & Hp). apply bool_decide_eq_true. exact Hp.
Qed.

(** Replacing the table of [E] by one that has at least its keys, and whose
    rows meet the constraints, keeps the constraints of the store. *)
Lemma set_table_constrained (E : entity) (t' : table) (s : store) :
  constrained s ->
  (forall k, is_Some (rows (table_of E s) !! k) -> is_Some (rows t' !! k)) ->
  (forall k row, rows t' !! k = Some row -> row_ok E row s = true) ->
  constrained (set_table E t' s).
Proof.
  intros Hs Hdom Hrows.
  assert (Hgrow : forall P k,
             is_Some (rows (table_of P s) !! k) ->
             is_Some (rows (table_of P (set_table E t' s)) !! k)).
  { intros P k. destruct P, E; simpl; auto. }
  assert (Hmono : forall P row,
             row_ok P row s = true ->
             row_ok P row (set_table E t' s) = true).
  { intros P row. rewrite !row_ok_spec. intros [H1 H2].
    split; [exact H1|]. unfold parent_exists in *.
    destruct (references P) as [[c Q]|]; [|exact I].
    destruct H2 as (p & Hp & Hex). exists p. split; auto. }
  intros P. pose proof (Hs P) as Hr.
  unfold rows_ok. apply map_Forall_lookup. intros k row Hrow.
  apply Hmono. apply map_Forall_lookup in Hr.
  destruct P, E; simpl in Hrow;
    first [exact (Hrows k row Hrow) | exact (Hr k row Hrow)].
Qed.

Lemma insert_row_constrained (E : entity) (k : Z) (e : obj) (s s' : store) :
  constrained s -> insert_row E k e s = Some s' -> constrained s'.
Proof.
  intros Hs. unfold insert_row.
  destruct (row_ok E (write_row E e ∅) s) eqn:Hok; [|discriminate].
  simpl. case_bool_decide; [|discriminate]. intros [= <-].
  pose proof (Hs E) as Hrows.
  apply set_table_constrained; [exact Hs | |].
  - simpl. intros k' Hk'. apply lookup_insert_is_Some.
    destruct (decide (k = k')); auto.
  - simpl. intros k' row Hrow.
    apply lookup_insert_Some in Hrow as [[_ <-] | [_ Hrow]]; [exact Hok|].
    apply map_Forall_lookup in Hrows. exact (Hrows k' row Hrow).
Qed.

Lemma update_row_constrained (E : entity) (k : Z) (e old : obj)
    (s s' : store) :
  constrained s -> update_row E k e old s = Some s' -> constrained s'.
Proof.
  intros Hs. unfold update_row.
  destruct (row_ok E (write_row E e old) s) eqn:Hok; [|discriminate].
  intros [= <-].
  pose proof (Hs E) as Hrows.
  apply set_table_constrained; [exact Hs | |].
  - simpl. intros k' Hk'. apply lookup_insert_is_Some.
    destruct (decide (k = k')); auto.
  - simpl. intros k' row Hrow.
    apply lookup_insert_Some in Hrow as [[_ <-] | [_ Hrow]]; [exact Hok|].
    apply map_Forall_lookup in Hrows. exact (Hrows k' row Hrow).
Qed.

Lemma persist_constrained (E : entity) (e e' : obj) (s s' : store) :
  constrained s -> persist E e s = Some (e', s') -> constrained s'.
Proof.
  intros Hs. unfold persist.
  assert (Hauto : insert_generated E e s = Some (e', s') -> constrained s').
  { unfold insert_generated. intros H.
    apply bind_Some in H as (s0 & Hins & [= _ <-]).
    exact (insert_row_constrained E _ e s s0 Hs Hins). }
  destruct (e !! "id") as [[[| |n| | |]|]|]; try discriminate; auto.
  destruct (num_to_int n) as [k|]; [|discriminate].
  destruct (rows (table_of E s) !! k) as [old|] eqn:Hold;
    [|destruct (k =? 0); [exact Hauto|]]; intros H;
    apply bind_Some in H as (s0 & Hw & [= _ <-]).
  - exact (update_row_constrained E k e old s s0 Hs Hw).
  - exact (insert_row_constrained E k e s s0 Hs Hw).
Qed.

Lemma cascade_lookup (c : string) (gone : gset Z) (t : table) (k : Z)
    (row : obj) :
  rows (cascade c gone t) !! k = Some row <->
  rows t !! k = Some row /\ refers_to c gone row = false.
Proof. unfold cascade. simpl. apply map_lookup_filter_Some. Qed.

Lemma refers_to_false (c : string) (gone : gset Z) (row : obj) (p : Z) :
  ref_of c row = Some p -> refers_to c gone row = false -> p ∉ gone.
Proof.
  unfold refers_to. intros ->. apply bool_decide_eq_false.
Qed.

Lemma not_dependant (c : string) (gone : gset Z) (t : table) (l : Z)
    (lrow : obj) :
  rows t !! l = Some lrow -> l ∉ dependants c gone t ->
  refers_to c gone lrow = false.
Proof.
  unfold dependants. intros Hl Hnot.
  apply not_elem_of_dom in Hnot.
  apply map_lookup_filter_None in Hnot as [Hnone | Hnot]; [congruence|].
  specialize (Hnot lrow Hl). simpl in Hnot.
  destruct (refers_to c gone lrow); congruence.
Qed.

Lemma delete_row_constrained (E : entity) (k : Z) (s : store) :
  constrained s -> constrained (delete_row E k s).
Proof.
  intros Hs.
  pose proof (Hs User) as Hru. pose proof (Hs List) as Hrl.
  pose proof (Hs Task) as Hrt.
  unfold rows_ok in Hru, Hrl, Hrt.
  apply map_Forall_lookup in Hru. apply map_Forall_lookup in Hrl.
  apply map_Forall_lookup in Hrt.
  intros P.
  unfold rows_ok. apply map_Forall_lookup. intros i row Hrow.
  apply row_ok_spec.
  destruct E, P; simpl in Hrow.
  - (* user deleted, a user row *)
    apply lookup_delete_Some in Hrow as [_ Hrow].
    specialize (Hru i row Hrow). apply row_ok_spec in Hru. exact Hru.
  - (* user deleted, a list row *)
    apply cascade_lookup in Hrow as [Hrow Hfar].
    specialize (Hrl i row Hrow). apply row_ok_spec in Hrl as [H1 H2].
    split; [exact H1|]. destruct H2 as (p & Hp & Hex).
    exists p. split; [exact Hp|]. simpl.
    pose proof (refers_to_false _ _ _ _ Hp Hfar) as Hne.
    rewrite lookup_delete_ne by set_solver. exact Hex.
  - (* user deleted, a task row *)
    apply cascade_lookup in Hrow as [Hrow Hfar].
    specialize (Hrt i row Hrow). apply row_ok_spec in Hrt as [H1 H2].
    split; [exact H1|]. destruct H2 as (l & Hl & [lrow Hlrow]).
    exists l. split; [exact Hl|]. simpl.
    pose proof (refers_to_false _ _ _ _ Hl Hfar) as Hnot.
    exists lrow. apply map_lookup_filter_Some. split; [exact Hlrow|].
    simpl. exact (not_dependant _ _ _ _ _ Hlrow Hnot).
  - (* list deleted, a user row *)
    specialize (Hru i row Hrow). apply row_ok_spec in Hru. exact Hru.
  - (* list deleted, a list row *)
    apply lookup_delete_Some in Hrow as [_ Hrow].
    specialize (Hrl i row Hrow). apply row_ok_spec in Hrl. exact Hrl.
  - (* list deleted, a task row *)
    apply cascade_lookup in Hrow as [Hrow Hfar].
    specialize (Hrt i row Hrow). apply row_ok_spec in Hrt as [H1 H2].
    split; [exact H1|]. destruct H2 as (l & Hl & Hex).
    exists l. split; [exact Hl|]. simpl.
    pose proof (refers_to_false _ _ _ _ Hl Hfar) as Hne.
    rewrite lookup_delete_ne by set_solver. exact Hex.
  - specialize (Hru i row Hrow). apply row_ok_spec in Hru. exact Hru.
  - specialize (Hrl i row Hrow). apply row_ok_spec in Hrl. exact Hrl.
  - apply lookup_delete_Some in Hrow as [_ Hrow].
    specialize (Hrt i row Hrow). apply row_ok_spec in Hrt. exact Hrt.
Qed.

Lemma remove_constrained (E : entity) (x : jsnum) (n : Z) (s s' : store) :
  constrained s -> remove E x s = Some (n, s') -> constrained s'.
Proof.
  intros Hs Hrm.
  destruct (remove_cases E _ _ _ _ Hrm)
    as [(_ & -> & _) | (_ & k & _ & _ & ->)];
    [exact Hs | apply delete_row_constrained; exact Hs].
Qed.

Lemma app_constrained (host_parse : string -> option Z) (r : request)
    (w : world) :
  constrained (db w) -> constrained (db (app host_parse r w).2).
Proof.
  intros Hs.
  destruct (app_effect host_parse r w)
    as (resp & w' & qs & -> & _ & _ & Heff). simpl.
  destruct Heff as [[-> _]
                   | [(E & e & e' & Hsave & _)
                     | (E & x & Hrm & _)]].
  - exact Hs.
  - exact (persist_constrained E e e' _ _ Hs Hsave).
  - exact (remove_constrained E x 1 _ _ Hs Hrm).
Qed.

Lemma empty_store_constrained : constrained empty_store.
Proof. intros E. destruct E; apply map_Forall_empty. Qed.

(** X5.  No request breaks the constraints of the tables: if, before a
    request, no [NOT NULL] column is null, every list names an existing
    user and every task an existing list, then so it is after the request.
    Hence it is so after any sequence of requests served from the empty
    store. *)
Theorem requests_keep_the_store_consistent
    (host_parse : string -> option Z) :
  (forall (r : request) (w : world),
      constrained (db w) -> constrained (db (app host_parse r w).2))
  /\ (forall rs : list request,
         constrained (db (serve host_parse rs empty_world))).
Proof.
  split; [exact (app_constrained host_parse)|].
  intros rs. unfold serve.
  assert (H : forall w, constrained (db w) ->
                        constrained (db (foldl (fun w r =>
                                                  (app host_parse r w).2)
                                               w rs))).
  { induction rs as [|r rs IH]; intros w Hw; simpl; [exact Hw|].
    apply IH. apply app_constrained. exact Hw. }
  apply H. exact empty_store_constrained.
Qed.

Lemma example_store_consistent : consistent example_store.
Proof.
  intros E. split.
  - destruct E; (split; [reflexivity|]);
      apply (bool_decide_unpack _); vm_compute; exact I.
  - destruct E; apply (bool_decide_unpack _); vm_compute; exact I.
Qed.

(** After ["Dave"] is created in the example store, and after user 1 is
    deleted with its lists and tasks, the constraints hold. *)
Lemma requests_keep_the_store_consistent_witness :
  constrained (db example_world)
  /\ constrained
       (db (app no_host_parse (POST_users {[ "name" := JStr "Dave" ]})
                example_world).2)
  /\ constrained
       (db (app no_host_parse (DELETE_users_id "1") example_world).2).
Proof.
  assert (H : constrained (db example_world)).
  { intros E. destruct E; apply (bool_decide_unpack _); vm_compute; exact I. }
  split; [exact H|].
  split; exact (proj1 (requests_keep_the_store_consistent no_host_parse)
                      _ example_world H).
Defined.

(** ** Validity of the stored users and lists *)

Lemma ref_of_hydrate_id (k : Z) (e : obj) : ref_of "id" (hydrate k e) = Some k.
Proof.
  unfold ref_of. rewrite hydrate_lookup_id. unfold jnum.
  apply num_to_int_of_Z.
Qed.

(** What [save] leaves behind: the table of the entity with one row
    written, the other tables as they were. *)
Lemma persist_rows (E : entity) (e e' : obj) (s s' : store) :
  persist E e s = Some (e', s') ->
  exists k old,
    ref_of "id" e' = Some k
    /\ rows (table_of E s')
       = <[k := write_row E e old]> (rows (table_of E s))
    /\ forall P, P <> E -> table_of P s' = table_of P s.
Proof.
  assert (Hother : forall (t : table) P,
             P <> E -> table_of P (set_table E t s) = table_of P s).
  { intros t P HP. destruct P, E; try reflexivity; congruence. }
  assert (Hins : forall k s0,
             insert_row E k e s = Some s0 ->
             rows (table_of E s0)
             = <[k := write_row E e ∅]> (rows (table_of E s))
             /\ forall P, P <> E -> table_of P s0 = table_of P s).
  { intros k s0. unfold insert_row.
    destruct (_ && _); [|discriminate]. intros [= <-].
    rewrite table_of_set_table. split; [reflexivity | apply Hother]. }
  assert (Hgen : insert_generated E e s = Some (e', s') ->
            exists k old,
              ref_of "id" e' = Some k
              /\ rows (table_of E s')
                 = <[k := write_row E e old]> (rows (table_of E s))
              /\ forall P, P <> E -> table_of P s' = table_of P s).
  { unfold insert_generated. intros H.
    apply bind_Some in H as (s0 & Hi & [= <- <-]).
    destruct (Hins _ _ Hi) as [H1 H2].
    eexists; eexists. split; [apply ref_of_hydrate_id|]. split; eauto. }
  unfold persist.
  destruct (e !! "id") as [[[| |n| | |]|]|] eqn:Hid; try discriminate; auto.
  destruct (num_to_int n) as [k|] eqn:Hk; [|discriminate].
  destruct (rows (table_of E s) !! k) as [old|];
    [|destruct (k =? 0); [exact Hgen|]]; intros H;
    apply bind_Some in H as (s0 & Hw & [= <- <-]).
  - exists k, old. split; [unfold ref_of; rewrite Hid; exact Hk|].
    unfold update_row in Hw.
    destruct (row_ok _ _ _); [|discriminate]. injection Hw as <-.
    rewrite table_of_set_table. split; [reflexivity | apply Hother].
  - destruct (Hins _ _ Hw) as [H1 H2].
    exists k, ∅. split; [unfold ref_of; rewrite Hid; exact Hk|]. auto.
Qed.

Lemma written_value (E : entity) (e old : obj) (k : Z) (c : string)
    (v : jsval) :
  c ∈ data_columns E -> e !! c = Some v ->
  hydrate k (write_row E e old) !! c = Some v.
Proof.
  intros Hc Hv. destruct (columns_data E c Hc) as [_ Hne].
  rewrite hydrate_lookup_ne by exact Hne.
  rewrite write_row_lookup by exact Hc. rewrite Hv. reflexivity.
Qed.

Lemma validate_write_row (E : entity) (e old : obj) (k : Z) :
  E <> Task -> validate E e = [] ->
  validate E (hydrate k (write_row E e old)) = [].
Proof.
  intros HE. destruct E; [| |congruence].
  - rewrite !validate_User_iff. intros [s Hs]. exists s.
    apply written_value; [|exact Hs].
    apply (bool_decide_unpack _); vm_compute; exact I.
  - rewrite !validate_List_iff. intros [(n & i & Hn & Hi) [s Hs]]. split.
    + exists n, i. split; [|exact Hi]. apply written_value; [|exact Hn].
      apply (bool_decide_unpack _); vm_compute; exact I.
    + exists s. apply written_value; [|exact Hs].
      apply (bool_decide_unpack _); vm_compute; exact I.
Qed.

Lemma persist_valid_rows (E P : entity) (e e' : obj) (s s' : store) :
  persist E e s = Some (e', s') ->
  (E <> Task -> validate E e = []) ->
  P <> Task -> valid_rows P s -> valid_rows P s'.
Proof.
  intros Hsave Hvalid HP Hrows.
  destruct (persist_rows E e e' s s' Hsave) as (k & old & _ & Hrows' & Hoth).
  unfold valid_rows in *.
  assert (Hsame : E = P ->
            map_Forall (fun k row => validate P (hydrate k row) = [])
                       (rows (table_of P s'))).
  { intros <-. rewrite Hrows'. apply map_Forall_insert_2; [|exact Hrows].
    apply validate_write_row; auto. }
  destruct P, E; try congruence; try (apply Hsame; reflexivity);
    rewrite Hoth by discriminate; exact Hrows.
Qed.

Lemma delete_row_sub (E P : entity) (k i : Z) (s : store) (row : obj) :
  rows (table_of P (delete_row E k s)) !! i = Some row ->
  rows (table_of P s) !! i = Some row.
Proof.
  destruct E, P; simpl; intros H;
    first [ exact H
          | apply lookup_delete_Some in H as [_ H]; exact H
          | apply cascade_lookup in H as [H _]; exact H ].
Qed.

Lemma remove_valid_rows (E P : entity) (x : jsnum) (n : Z) (s s' : store) :
  remove E x s = Some (n, s') -> valid_rows P s -> valid_rows P s'.
Proof.
  intros Hrm Hrows.
  destruct (remove_cases E _ _ _ _ Hrm)
    as [(_ & -> & _) | (_ & k & _ & _ & ->)]; [exact Hrows|].
  unfold valid_rows in *. apply map_Forall_lookup. intros i row Hrow.
  apply map_Forall_lookup in Hrows.
  exact (Hrows i row (delete_row_sub E P k i s row Hrow)).
Qed.

Lemma app_valid_rows (host_parse : string -> option Z) (P : entity)
    (r : request) (w : world) :
  P <> Task -> valid_rows P (db w) ->
  valid_rows P (db (app host_parse r w).2).
Proof.
  intros HP Hrows.
  destruct (app_effect host_parse r w)
    as (resp & w' & qs & -> & _ & _ & Heff). simpl.
  destruct Heff as [[-> _]
                   | [(E & e & e' & Hsave & Hvalid & _)
                     | (E & x & Hrm & _)]].
  - exact Hrows.
  - exact (persist_valid_rows E P e e' _ _ Hsave Hvalid HP Hrows).
  - exact (remove_valid_rows E P x 1 _ _ Hrm Hrows).
Qed.

(** X6.  Every write to a user or a list is validated: if all stored users
    and lists pass their validators before a request, they do after it,
    whatever the request. *)
Theorem stored_users_and_lists_stay_valid (host_parse : string -> option Z)
    (r : request) (w : world) :
  valid_rows User (db w) -> valid_rows List (db w) ->
  valid_rows User (db (app host_parse r w).2)
  /\ valid_rows List (db (app host_parse r w).2).
Proof.
  intros Hu Hl. split; apply app_valid_rows; auto; discriminate.
Qed.

(** The example store is valid, and stays so when user 2 is renamed. *)
Lemma stored_users_and_lists_stay_valid_witness :
  valid_rows User (db example_world)
  /\ valid_rows List (db example_world)
  /\ valid_rows User
       (db (app no_host_parse (PUT_users_id "2" {[ "name" := JStr "Rob" ]})
                example_world).2)
  /\ valid_rows List
       (db (app no_host_parse (PUT_users_id "2" {[ "name" := JStr "Rob" ]})
                example_world).2).
Proof.
  assert (Hu : valid_rows User (db example_world))
    by (apply (bool_decide_unpack _); vm_compute; exact I).
  assert (Hl : valid_rows List (db example_world))
    by (apply (bool_decide_unpack _); vm_compute; exact I).
  split; [exact Hu|]. split; [exact Hl|].
  exact (stored_users_and_lists_stay_valid no_host_parse _ example_world
           Hu Hl).
Defined.

(** ** Creating in a consistent store *)

Lemma converted_lookup (host_parse : string -> option Z) (E : entity)
    (b b' : obj) (c : string) :
  converted host_parse E b = Some b' -> c <> "dueDate" -> b' !! c = b !! c.
Proof.
  intros H Hc. destruct E; simpl in H; try (injection H as <-; reflexivity).
  unfold convert_dueDate in H.
  destruct (b !! "dueDate") as [v|]; [|injection H as <-; reflexivity].
  destruct (truthy v); [|injection H as <-; reflexivity].
  apply bind_Some in H as (d & _ & [= <-]).
  apply lookup_insert_ne. congruence.
Qed.

Lemma new_instance_id (E : entity) : new_instance E !! "id" = None.
Proof. destruct E; reflexivity. Qed.

Lemma not_null_data (E : entity) (c : string) :
  c ∈ not_null E -> c ∈ data_columns E.
Proof.
  destruct E; simpl; intros H;
    repeat (apply elem_of_cons in H as [-> | H];
            [apply (bool_decide_unpack _); vm_compute; exact I|]);
    inversion H.
Qed.

Lemma validate_not_null (E : entity) (e : obj) (c : string) :
  validate E e = [] -> c ∈ not_null E ->
  exists v, e !! c = Some v /\ is_null (Some v) = false.
Proof.
  intros Hv Hc. destruct E; simpl in Hc.
  - apply validate_User_iff in Hv as [s Hs].
    apply list_elem_of_singleton in Hc as ->. eauto.
  - apply validate_List_iff in Hv as [(n & i & Hn & _) [s Hs]].
    apply elem_of_cons in Hc as [-> | Hc]; [eauto|].
    apply list_elem_of_singleton in Hc as ->. eauto.
  - apply validate_Task_iff in Hv as ((n & i & Hn & _) & [s Hs] & _).
    apply elem_of_cons in Hc as [-> | Hc]; [eauto|].
    apply list_elem_of_singleton in Hc as ->. eauto.
Qed.

Lemma references_data (E P : entity) (c : string) :
  references E = Some (c, P) -> c ∈ data_columns E.
Proof.
  destruct E; simpl; intros [= <- <-];
    apply (bool_decide_unpack _); vm_compute; exact I.
Qed.

Lemma ref_of_write_row (E : entity) (e old : obj) (c : string) (p : Z) :
  c ∈ data_columns E -> ref_of c e = Some p ->
  ref_of c (write_row E e old) = Some p.
Proof.
  unfold ref_of. intros Hc H. rewrite write_row_lookup by exact Hc.
  destruct (e !! c) as [v|]; [exact H | discriminate].
Qed.

(** The row written for a valid entity meets the [NOT NULL] constraints. *)
Lemma written_not_null (E : entity) (e : obj) (c : string) :
  validate E e = [] -> c ∈ not_null E ->
  is_null (write_row E e ∅ !! c) = false.
Proof.
  intros Hv Hc. destruct (validate_not_null E e c Hv Hc) as (v & Hev & Hn).
  rewrite write_row_lookup by (apply not_null_data; exact Hc).
  rewrite Hev. exact Hn.
Qed.

Lemma free_counter (t : table) :
  keys_ok t -> 0 < AUTO_INCREMENT t /\ rows t !! AUTO_INCREMENT t = None.
Proof.
  intros [Hai Hkeys]. split; [exact Hai|].
  destruct (rows t !! AUTO_INCREMENT t) as [row|] eqn:H; [|reflexivity].
  apply map_Forall_lookup in Hkeys. specialize (Hkeys _ _ H).
  simpl in Hkeys. lia.
Qed.

(** The instance built from a body without [id] has none. *)
Lemma instance_without_id (host_parse : string -> option Z) (E : entity)
    (req_body : json_body) (body' inst : obj) :
  converted host_parse E (J <$> req_body) = Some body' ->
  plainToInstance E body' = Some inst ->
  req_body !! "id" = None ->
  inst !! "id" = None.
Proof.
  intros Hconv Hinst Hnoid.
  rewrite (plainToInstance_default E body' inst "id" Hinst).
  - apply new_instance_id.
  - rewrite (converted_lookup _ _ _ _ "id" Hconv) by discriminate.
    rewrite lookup_fmap, Hnoid. reflexivity.
Qed.

Lemma ref_of_written (E : entity) (e : obj) (c : string) (p : Z) :
  c ∈ data_columns E -> ref_of c (write_row E e ∅) = Some p ->
  ref_of c e = Some p.
Proof.
  unfold ref_of. intros Hc. rewrite write_row_lookup by exact Hc.
  destruct (e !! c) as [v|]; [auto|].
  rewrite lookup_empty. simpl. unfold column_default.
  destruct (String.eqb c "completed"); discriminate.
Qed.

(** X7.  In a consistent store, when a create request that carries no
    [id] is answered 201, the entity passed validation and, for a list or
    a task, its parent exists; the entity is answered with the counter of
    its table as [id], which is positive and was the key of no row; a row
    is stored under that key, every other row of the table is as before,
    the counter has moved on by one and the other tables are untouched. *)
Theorem created_entity_gets_a_fresh_id (host_parse : string -> option Z)
    (E : entity) (req_body : json_body) (w w' : world) (resp : response) :
  consistent (db w) ->
  req_body !! "id" = None ->
  app host_parse (POST_to E req_body) w = (Ok resp, w') ->
  status resp = 201 ->
  let k := AUTO_INCREMENT (table_of E (db w)) in
  exists body' inst saved,
    converted host_parse E (J <$> req_body) = Some body'
    /\ plainToInstance E body' = Some inst
    /\ validate E inst = []
    /\ parent_exists E inst (db w)
    /\ body resp = Entity saved
    /\ saved !! "id" = Some (jnum k)
    /\ 0 < k
    /\ rows (table_of E (db w)) !! k = None
    /\ is_Some (rows (table_of E (db w')) !! k)
    /\ (forall i, i <> k ->
          rows (table_of E (db w')) !! i = rows (table_of E (db w)) !! i)
    /\ AUTO_INCREMENT (table_of E (db w')) = k + 1
    /\ forall P, P <> E -> table_of P (db w') = table_of P (db w).
Proof.
  intros Hs Hnoid Happ Hst k.
  destruct (Hs E) as [Hkeys _].
  destruct (free_counter _ Hkeys) as [Hk Hfree]. fold k in Hk, Hfree.
  rewrite post_to_eq in Happ.
  destruct (converted host_parse E (J <$> req_body)) as [body'|] eqn:Hconv;
    [|injection Happ as <- _; discriminate Hst].
  simpl mbind in Happ.
  destruct (plainToInstance E body') as [e|] eqn:Hinst;
    [|injection Happ as <- _; discriminate Hst].
  destruct (validateEntity E e) as [error|] eqn:Hval.
  { injection Happ as <- _.
    rewrite (validateEntity_status _ _ _ Hval) in Hst. discriminate Hst. }
  apply validateEntity_None in Hval.
  pose proof (instance_without_id _ _ _ _ _ Hconv Hinst Hnoid) as Hid.
  unfold persist, insert_generated in Happ. rewrite Hid in Happ.
  fold k in Happ. unfold insert_row in Happ.
  destruct (row_ok E (write_row E e ∅) (db w)) eqn:Hok;
    [|injection Happ as <- _; discriminate Hst].
  rewrite Hfree in Happ. simpl in Happ. injection Happ as <- <-.
  cbn [db after]. rewrite table_of_set_table. cbn [rows AUTO_INCREMENT].
  exists body', e, (hydrate k e).
  split; [reflexivity|]. split; [exact Hinst|]. split; [exact Hval|]. split.
  { apply row_ok_spec in Hok as [_ Hpar]. unfold parent_exists in *.
    destruct (references E) as [[c P]|] eqn:Href; [|exact I].
    destruct Hpar as (p & Hp & Hex). exists p. split; [|exact Hex].
    exact (ref_of_written E e c p (references_data E P c Href) Hp). }
  split; [reflexivity|]. split; [apply hydrate_lookup_id|].
  split; [exact Hk|]. split; [exact Hfree|].
  split; [rewrite lookup_insert_eq; eauto|].
  split; [intros i Hi; apply lookup_insert_ne; congruence|].
  split; [unfold k; lia|].
  intros P HP. destruct P, E; try reflexivity; congruence.
Qed.

(** A list for user 1 of the example store becomes list 4. *)
Lemma created_entity_gets_a_fresh_id_witness :
  exists resp w',
    app no_host_parse
        (POST_lists {[ "userId" := JNum (num_of_Z 1); "name" := JStr "Garden" ]})
        example_world
    = (Ok resp, w')
    /\ status resp = 201
    /\ rows (lists example_store) !! 4 = None
    /\ is_Some (rows (lists (db w')) !! 4)
    /\ AUTO_INCREMENT (lists (db w')) = 5.
Proof.
  set (b := ({[ "userId" := JNum (num_of_Z 1); "name" := JStr "Garden" ]}
             : json_body)).
  destruct (app no_host_parse (POST_lists b) example_world) as [o w'] eqn:Happ.
  assert (Hres : exists resp, o = Ok resp /\ status resp = 201).
  { assert (H : (app no_host_parse (POST_lists b) example_world).1 = o)
      by (rewrite Happ; reflexivity).
    rewrite <- H. eexists. split; reflexivity. }
  destruct Hres as (resp & -> & Hst).
  assert (Hnoid : b !! "id" = None) by reflexivity.
  destruct (created_entity_gets_a_fresh_id no_host_parse List b example_world
              w' resp example_store_consistent Hnoid Happ Hst)
    as (_ & _ & _ & _ & _ & _ & _ & _ & _ & _ & Hfree & Hrow & _ & Hai & _).
  exists resp, w'. split; [reflexivity|]. split; [exact Hst|].
  split; [exact Hfree|]. split; [exact Hrow | exact Hai].
Defined.

(** X8.  A create request whose entity passes validation and carries no
    [id], but names a parent that does not exist, is sent to the store,
    which refuses it: the answer is 500 with the generic message, the one
    query sent is the [save], and every table holds the rows it held. *)
Theorem create_with_missing_parent_is_500 (host_parse : string -> option Z)
    (E P : entity) (c : string) (p : Z) (req_body : json_body) (w : world)
    (body' inst : obj) :
  converted host_parse E (J <$> req_body) = Some body' ->
  plainToInstance E body' = Some inst ->
  validate E inst = [] ->
  req_body !! "id" = None ->
  references E = Some (c, P) ->
  ref_of c inst = Some p ->
  rows (table_of P (db w)) !! p = None ->
  exists w',
    app host_parse (POST_to E req_body) w
    = (Ok (res_status 500 (Message (post_error E))), w')
    /\ queries w' = (queries w ++ [QSave E inst])%list
    /\ forall T, rows (table_of T (db w')) = rows (table_of T (db w)).
Proof.
  intros Hconv Hinst Hvalid Hnoid Href Hp Hnone.
  pose proof (instance_without_id _ _ _ _ _ Hconv Hinst Hnoid) as Hid.
  assert (Hbad : row_ok E (write_row E inst ∅) (db w) = false).
  { destruct (row_ok E (write_row E inst ∅) (db w)) eqn:Hok; [|reflexivity].
    apply row_ok_spec in Hok as [_ Hpar]. unfold parent_exists in Hpar.
    rewrite Href in Hpar. destruct Hpar as (p' & Hp' & [row Hrow]).
    rewrite (ref_of_write_row E inst ∅ c p (references_data E P c Href) Hp)
      in Hp'.
    injection Hp' as <-. congruence. }
  exists (after (QSave E inst) (db w) w).
  split; [|split; [reflexivity | reflexivity]].
  rewrite post_to_eq, Hconv. simpl mbind. rewrite Hinst.
  unfold validateEntity. rewrite Hvalid.
  unfold persist, insert_generated. rewrite Hid.
  unfold insert_row. rewrite Hbad. reflexivity.
Qed.

(** A task for list 9, which the example store does not have. *)
Lemma create_with_missing_parent_is_500_witness :
  exists w',
    app no_host_parse
        (POST_tasks {[ "listId" := JNum (num_of_Z 9); "text" := JStr "x" ]})
        example_world
    = (Ok (res_status 500 (Message "Error creating task")), w')
    /\ queries w' = [QSave Task (mk_task 9 "x" "" 0)]
    /\ forall T, rows (table_of T (db w'))
                 = rows (table_of T example_store).
Proof.
  set (b := ({[ "listId" := JNum (num_of_Z 9); "text" := JStr "x" ]}
             : json_body)).
  assert (H1 : converted no_host_parse Task (J <$> b) = Some (J <$> b))
    by reflexivity.
  assert (H0 : plainToInstance Task (J <$> b) = Some (mk_task 9 "x" "" 0))
    by reflexivity.
  assert (H2 : validate Task (mk_task 9 "x" "" 0) = []) by reflexivity.
  assert (H3 : b !! "id" = None) by reflexivity.
  assert (H4 : references Task = Some ("listId", List)) by reflexivity.
  assert (H5 : ref_of "listId" (mk_task 9 "x" "" 0) = Some 9)
    by reflexivity.
  assert (H6 : rows (table_of List (db example_world)) !! 9 = None)
    by reflexivity.
  exact (create_with_missing_parent_is_500 no_host_parse Task List "listId" 9
           b example_world (J <$> b) (mk_task 9 "x" "" 0)
           H1 H0 H2 H3 H4 H5 H6).
Defined.

(** ** Looking a row up by its id *)

Lemma get_app_eq (host_parse : string -> option Z) (E : entity) (id : string) :
  num_gt0 (Number id) = true ->
  app host_parse (GET_id E id) = handler host_parse (GET_id E id).
Proof.
  intros Hpos. destruct E; simpl; apply validateIdParam_pass; exact Hpos.
Qed.

Lemma delete_app_eq (host_parse : string -> option Z) (E : entity)
    (id : string) :
  num_gt0 (Number id) = true ->
  app host_parse (DELETE_id E id) = handler host_parse (DELETE_id E id).
Proof.
  intros Hpos. destruct E; simpl; apply validateIdParam_pass; exact Hpos.
Qed.

Lemma num_to_int_Fin (x : jsnum) (k : Z) :
  num_to_int x = Some k -> exists q, x = Fin q.
Proof. destruct x; try discriminate; eauto. Qed.

Lemma select_by_id_found (E : entity) (x : jsnum) (k : Z) (row : obj)
    (s : store) :
  num_to_int x = Some k -> rows (table_of E s) !! k = Some row ->
  select_by_id E x s = Some (Some (hydrate k row)).
Proof.
  intros Hk Hrow. destruct (num_to_int_Fin x k Hk) as [q ->].
  unfold select_by_id. rewrite Hk. simpl. rewrite Hrow. reflexivity.
Qed.

Lemma select_by_id_None (E : entity) (q : Q) (s : store) :
  (forall k, num_to_int (Fin q) = Some k -> rows (table_of E s) !! k = None) ->
  select_by_id E (Fin q) s = Some None.
Proof.
  intros H. unfold select_by_id.
  destruct (num_to_int (Fin q)) as [k|] eqn:Hk; [|reflexivity].
  simpl. rewrite (H k eq_refl). reflexivity.
Qed.

Lemma remove_absent_id (E : entity) (q : Q) (s : store) :
  (forall k, num_to_int (Fin q) = Some k -> rows (table_of E s) !! k = None) ->
  remove E (Fin q) s = Some (0, s).
Proof.
  intros H. destruct (num_to_int (Fin q)) as [k|] eqn:Hk.
  - apply (remove_absent E (Fin q) k s Hk). apply H. reflexivity.
  - unfold remove. rewrite Hk. reflexivity.
Qed.

(** X9.  For an id that passes the check of the route, [GET] answers 200
    with the stored row under its key when the id is the key of a row.
    When the id is a finite number that is the key of no row (an absent
    key, or no integer at all), [GET], [PUT] and [DELETE] all answer 404
    with the entity's message after one query, whatever the body, and the
    store is unchanged. *)
Theorem by_id_routes_find_the_row_or_answer_404
    (host_parse : string -> option Z) (E : entity) (id : string) (w : world) :
  num_gt0 (Number id) = true ->
  (forall k row,
      num_to_int (Number id) = Some k ->
      rows (table_of E (db w)) !! k = Some row ->
      app host_parse (GET_id E id) w
      = (Ok (res_json (Entity (hydrate k row))),
         after (QFindOneBy E (Number id)) (db w) w))
  /\ (forall q,
         Number id = Fin q ->
         (forall k, num_to_int (Number id) = Some k ->
                    rows (table_of E (db w)) !! k = None) ->
         app host_parse (GET_id E id) w
         = (Ok (res_status 404 (Message (not_found E))),
            after (QFindOneBy E (Number id)) (db w) w)
         /\ (forall req_body,
                app host_parse (PUT_id E id req_body) w
                = (Ok (res_status 404 (Message (not_found E))),
                   after (QFindOneBy E (Number id)) (db w) w))
         /\ app host_parse (DELETE_id E id) w
            = (Ok (res_status 404 (Message (not_found E))),
               after (QDelete E (Number id)) (db w) w)).
Proof.
  intros Hgt. split.
  - intros k row Hk Hrow.
    rewrite (get_app_eq host_parse E id Hgt), get_id_eq.
    rewrite (select_by_id_found E (Number id) k row (db w) Hk Hrow).
    reflexivity.
  - intros q Hq Hnone. rewrite Hq in Hnone.
    split; [|split].
    + rewrite (get_app_eq host_parse E id Hgt), get_id_eq, Hq.
      rewrite (select_by_id_None E q (db w) Hnone). reflexivity.
    + intros req_body.
      rewrite (put_app_eq host_parse E id req_body Hgt), put_id_eq, Hq.
      rewrite (select_by_id_None E q (db w) Hnone). reflexivity.
    + rewrite (delete_app_eq host_parse E id Hgt), delete_id_eq, Hq.
      rewrite (remove_absent_id E q (db w) Hnone). reflexivity.
Qed.

(** User 2 of the example store is found; there is no user 7 and no
    user 1.5. *)
Lemma by_id_routes_find_the_row_or_answer_404_witness :
  (exists row,
      app no_host_parse (GET_users_id "2") example_world
      = (Ok (res_json (Entity (hydrate 2 row))),
         after (QFindOneBy User (Number "2")) example_store example_world))
  /\ app no_host_parse (DELETE_users_id "7") example_world
     = (Ok (res_status 404 (Message "User not found")),
        after (QDelete User (Number "7")) example_store example_world)
  /\ app no_host_parse (GET_users_id "1.5") example_world
     = (Ok (res_status 404 (Message "User not found")),
        after (QFindOneBy User (Number "1.5")) example_store example_world).
Proof.
  split; [|split].
  - assert (Hgt : num_gt0 (Number "2") = true) by reflexivity.
    assert (Hk : num_to_int (Number "2") = Some 2) by reflexivity.
    assert (Hrow : rows (table_of User (db example_world)) !! 2
                   = Some (mk_user "Bob")) by reflexivity.
    exists (mk_user "Bob").
    exact (proj1 (by_id_routes_find_the_row_or_answer_404 no_host_parse User
                    "2" example_world Hgt) 2 (mk_user "Bob") Hk Hrow).
  - assert (Hgt : num_gt0 (Number "7") = true) by reflexivity.
    assert (Hq : Number "7" = Fin 7) by reflexivity.
    assert (Hnone : forall k, num_to_int (Number "7") = Some k ->
                      rows (table_of User (db example_world)) !! k = None).
    { intros k Hk. vm_compute in Hk. injection Hk as <-. reflexivity. }
    exact (proj2 (proj2 (proj2 (by_id_routes_find_the_row_or_answer_404
             no_host_parse User "7" example_world Hgt) (7 # 1) Hq Hnone))).
  - assert (Hgt : num_gt0 (Number "1.5") = true) by reflexivity.
    assert (Hq : Number "1.5" = Fin (3 # 2)) by reflexivity.
    assert (Hnone : forall k, num_to_int (Number "1.5") = Some k ->
                      rows (table_of User (db example_world)) !! k = None).
    { intros k Hk. vm_compute in Hk. discriminate Hk. }
    exact (proj1 (proj2 (by_id_routes_find_the_row_or_answer_404
             no_host_parse User "1.5" example_world Hgt) (3 # 2) Hq Hnone)).
Defined.

(** ** Reading back what was saved *)



(** Saving an entity without [id] gives it the counter of the table. *)
Lemma persist_generated (E : entity) (e saved : obj) (s s' : store) :
  e !! "id" = None -> persist E e s = Some (saved, s') ->
  saved !! "id" = Some (jnum (AUTO_INCREMENT (table_of E s))).
Proof.
  intros Hid. unfold persist, insert_generated. rewrite Hid. intros H.
  apply bind_Some in H as (s0 & _ & [= <- _]). apply hydrate_lookup_id.
Qed.



(** ** Deleting with dependants *)

Lemma refers_to_singleton (c : string) (k : Z) (row : obj) :
  refers_to c {[k]} row = false <-> ref_of c row <> Some k.
Proof.
  unfold refers_to. destruct (ref_of c row) as [p|].
  - rewrite bool_decide_eq_false, elem_of_singleton. split; congruence.
  - split; [discriminate | reflexivity].
Qed.

Lemma elem_of_dependants (c : string) (gone : gset Z) (t : table) (l : Z) :
  l ∈ dependants c gone t <->
  exists lrow, rows t !! l = Some lrow /\ refers_to c gone lrow = true.
Proof.
  unfold dependants. rewrite elem_of_dom. unfold is_Some.
  split; intros [lrow H]; exists lrow.
  - apply map_lookup_filter_Some in H. exact H.
  - apply map_lookup_filter_Some. exact H.
Qed.

(** A task stays when the list it names, if any, is not a list of the
    deleted user. *)
Lemma refers_to_dependants (k : Z) (t : table) (row : obj) :
  refers_to "listId" (dependants "userId" {[k]} t) row = false <->
  forall l lrow,
    ref_of "listId" row = Some l -> rows t !! l = Some lrow ->
    ref_of "userId" lrow <> Some k.
Proof.
  unfold refers_to at 1. destruct (ref_of "listId" row) as [l|].
  - rewrite bool_decide_eq_false, elem_of_dependants. split.
    + intros Hnot l' lrow [= <-] Hl. apply refers_to_singleton.
      destruct (refers_to "userId" {[k]} lrow) eqn:Hr; [|reflexivity].
      exfalso. apply Hnot. eauto.
    + intros H (lrow & Hl & Hr).
      specialize (H l lrow eq_refl Hl). apply refers_to_singleton in H.
      congruence.
  - split; [discriminate | reflexivity].
Qed.

Lemma lookup_delete_other (m : gmap Z obj) (k i : Z) (row : obj) :
  delete k m !! i = Some row <-> i <> k /\ m !! i = Some row.
Proof.
  rewrite lookup_delete_Some.
  split; (intros [Hne Hrow]; split; [congruence | exact Hrow]).
Qed.

Lemma delete_app_204 (host_parse : string -> option Z) (E : entity)
    (id : string) (k : Z) (w : world) :
  num_gt0 (Number id) = true -> num_to_int (Number id) = Some k ->
  is_Some (rows (table_of E (db w)) !! k) ->
  app host_parse (DELETE_id E id) w
  = (Ok (res_status 204 NoBody),
     after (QDelete E (Number id)) (delete_row E k (db w)) w).
Proof.
  intros Hgt Hk Hrow.
  rewrite (delete_app_eq host_parse E id Hgt), delete_id_eq.
  rewrite (remove_present E (Number id) k (db w) Hgt Hk Hrow). reflexivity.
Qed.

(** X11.  What a successful delete takes with it.  Deleting user [k]
    removes that user, the lists whose [userId] is [k] and the tasks whose
    [listId] names one of those lists; deleting list [k] removes that list
    and the tasks whose [listId] is [k], and leaves the users; deleting
    task [k] removes that task only.  Every other row stays as it was, and
    no counter moves, so the key is not given out again. *)
Theorem delete_takes_the_dependants_along (host_parse : string -> option Z)
    (id : string) (k : Z) (w : world) :
  num_gt0 (Number id) = true ->
  num_to_int (Number id) = Some k ->
  (is_Some (rows (users (db w)) !! k) ->
   exists w',
     app host_parse (DELETE_users_id id) w = (Ok (res_status 204 NoBody), w')
     /\ (forall i row,
            rows (users (db w')) !! i = Some row
            <-> i <> k /\ rows (users (db w)) !! i = Some row)
     /\ (forall i row,
            rows (lists (db w')) !! i = Some row
            <-> rows (lists (db w)) !! i = Some row
                /\ ref_of "userId" row <> Some k)
     /\ (forall i row,
            rows (tasks (db w')) !! i = Some row
            <-> rows (tasks (db w)) !! i = Some row
                /\ forall l lrow,
                    ref_of "listId" row = Some l ->
                    rows (lists (db w)) !! l = Some lrow ->
                    ref_of "userId" lrow <> Some k)
     /\ forall P, AUTO_INCREMENT (table_of P (db w'))
                  = AUTO_INCREMENT (table_of P (db w)))
  /\ (is_Some (rows (lists (db w)) !! k) ->
      exists w',
        app host_parse (DELETE_lists_id id) w
        = (Ok (res_status 204 NoBody), w')
        /\ users (db w') = users (db w)
        /\ (forall i row,
               rows (lists (db w')) !! i = Some row
               <-> i <> k /\ rows (lists (db w)) !! i = Some row)
        /\ (forall i row,
               rows (tasks (db w')) !! i = Some row
               <-> rows (tasks (db w)) !! i = Some row
                   /\ ref_of "listId" row <> Some k)
        /\ forall P, AUTO_INCREMENT (table_of P (db w'))
                     = AUTO_INCREMENT (table_of P (db w)))
  /\ (is_Some (rows (tasks (db w)) !! k) ->
      exists w',
        app host_parse (DELETE_tasks_id id) w
        = (Ok (res_status 204 NoBody), w')
        /\ users (db w') = users (db w)
        /\ lists (db w') = lists (db w)
        /\ (forall i row,
               rows (tasks (db w')) !! i = Some row
               <-> i <> k /\ rows (tasks (db w)) !! i = Some row)
        /\ forall P, AUTO_INCREMENT (table_of P (db w'))
                     = AUTO_INCREMENT (table_of P (db w))).
Proof.
  intros Hgt Hk. split; [|split]; intros Hrow.
  - eexists. split; [exact (delete_app_204 host_parse User id k w Hgt Hk Hrow)|].
    cbn [db after delete_row users lists tasks rows table_of].
    split; [intros i row; apply lookup_delete_other|].
    split.
    { intros i row. rewrite cascade_lookup, refers_to_singleton.
      reflexivity. }
    split.
    { intros i row. rewrite cascade_lookup, refers_to_dependants.
      reflexivity. }
    intros P. destruct P; reflexivity.
  - eexists. split; [exact (delete_app_204 host_parse List id k w Hgt Hk Hrow)|].
    cbn [db after delete_row users lists tasks rows table_of].
    split; [reflexivity|].
    split; [intros i row; apply lookup_delete_other|].
    split.
    { intros i row. rewrite cascade_lookup, refers_to_singleton.
      reflexivity. }
    intros P. destruct P; reflexivity.
  - eexists. split; [exact (delete_app_204 host_parse Task id k w Hgt Hk Hrow)|].
    cbn [db after delete_row users lists tasks rows table_of].
    split; [reflexivity|]. split; [reflexivity|].
    split; [intros i row; apply lookup_delete_other|].
    intros P. destruct P; reflexivity.
Qed.

(** Deleting user 1 of the example store, who owns lists 1 and 2 with
    tasks 1, 2 and 3: list 3 and task 4, of user 2, are all that is left
    of the lists and the tasks. *)
Lemma delete_takes_the_dependants_along_witness :
  exists w',
    app no_host_parse (DELETE_users_id "1") example_world
    = (Ok (res_status 204 NoBody), w')
    /\ rows (users (db w')) !! 1 = None
    /\ rows (lists (db w')) !! 2 = None
    /\ rows (lists (db w')) !! 3 = Some (mk_list 2 "Chores")
    /\ rows (tasks (db w')) !! 3 = None.
Proof.
  assert (Hgt : num_gt0 (Number "1") = true) by reflexivity.
  assert (Hk : num_to_int (Number "1") = Some 1) by reflexivity.
  assert (Hrow : is_Some (rows (users (db example_world)) !! 1))
    by (eexists; reflexivity).
  assert (L2 : rows (lists (db example_world)) !! 2 = Some (mk_list 1 "Work"))
    by reflexivity.
  assert (L3 : rows (lists (db example_world)) !! 3
               = Some (mk_list 2 "Chores")) by reflexivity.
  assert (T3 : rows (tasks (db example_world)) !! 3
               = Some (mk_task 2 "Complete report" "" 1729683900000))
    by reflexivity.
  assert (R2 : ref_of "userId" (mk_list 1 "Work") = Some 1) by reflexivity.
  assert (R3 : ref_of "userId" (mk_list 2 "Chores") = Some 2) by reflexivity.
  assert (R3' : ref_of "listId"
                  (mk_task 2 "Complete report" "" 1729683900000) = Some 2)
    by reflexivity.
  destruct (proj1 (delete_takes_the_dependants_along no_host_parse "1" 1
                     example_world Hgt Hk) Hrow)
    as (w' & Happ & Hu & Hl & Ht & _).
  exists w'. split; [exact Happ|].
  split.
  { destruct (rows (users (db w')) !! 1) as [row|] eqn:H; [|reflexivity].
    apply Hu in H as [H _]. congruence. }
  split.
  { destruct (rows (lists (db w')) !! 2) as [row|] eqn:H; [|reflexivity].
    apply Hl in H as [H1 H2]. rewrite L2 in H1. injection H1 as <-.
    congruence. }
  split.
  { apply Hl. split; [exact L3|]. rewrite R3. discriminate. }
  destruct (rows (tasks (db w')) !! 3) as [row|] eqn:H; [|reflexivity].
  apply Ht in H as [H1 H2]. rewrite T3 in H1. injection H1 as <-.
  destruct (H2 2 (mk_list 1 "Work") R3' L2 R2).
Defined.

(** ** After a delete *)

Lemma select_where_nil (E : entity) (c : string) (q : Q) (k : Z) (s : store) :
  num_to_int (Fin q) = Some k ->
  (forall i row, rows (table_of E s) !! i = Some row -> ref_of c row <> Some k) ->
  select_where E c (Fin q) s = Some [].
Proof.
  intros Hk Hnone.
  destruct (select_where E c (Fin q) s) as [l|] eqn:Hl;
    [|unfold select_where in Hl; discriminate Hl].
  destruct l as [|e l]; [reflexivity|]. exfalso.
  assert (He : e ∈ e :: l) by apply list_elem_of_here.
  apply (elem_of_select_where E c (Fin q) s (e :: l) e Hl) in He
    as (i & k' & row & Hk' & Hrow & Href & _).
  rewrite Hk in Hk'. injection Hk' as <-.
  exact (Hnone i row Hrow Href).
Qed.

Lemma delete_app_inv (host_parse : string -> option Z) (E : entity)
    (id : string) (w w' : world) (resp : response) :
  app host_parse (DELETE_id E id) w = (Ok resp, w') ->
  status resp = 204 ->
  num_gt0 (Number id) = true
  /\ exists k, num_to_int (Number id) = Some k
               /\ is_Some (rows (table_of E (db w)) !! k)
               /\ db w' = delete_row E k (db w).
Proof.
  intros Happ Hst.
  destruct (num_gt0 (Number id)) eqn:Hgt.
  2: { assert (H : app host_parse (DELETE_id E id) w
                   = (Ok (res_status 400 (Message "Invalid ID parameter")), w))
         by (destruct E; simpl; apply validateIdParam_reject; exact Hgt).
       rewrite H in Happ. injection Happ as <- _. discriminate Hst. }
  split; [reflexivity|].
  rewrite (delete_app_eq host_parse E id Hgt), delete_id_eq in Happ.
  destruct (remove E (Number id) (db w)) as [[n s']|] eqn:Hrm;
    [|injection Happ as <- _; discriminate Hst].
  destruct (remove_cases E _ _ _ _ Hrm)
    as [(-> & -> & _) | (-> & k & Hk & Hrow & ->)];
    injection Happ as <- <-; [discriminate Hst|].
  exists k. auto.
Qed.

(** X12.  Once a delete is answered 204, the record is gone for the other
    routes: a [GET] of the same id answers 404 and, after a user went,
    [GET /lists/user/:id] for that id answers 404 as well, as does
    [GET /tasks/list/:id] after a list went. *)
Theorem deleted_record_is_gone (host_parse : string -> option Z)
    (E : entity) (id : string) (w w' : world) (resp : response) :
  app host_parse (DELETE_id E id) w = (Ok resp, w') ->
  status resp = 204 ->
  app host_parse (GET_id E id) w'
  = (Ok (res_status 404 (Message (not_found E))),
     after (QFindOneBy E (Number id)) (db w') w')
  /\ (E = User ->
      app host_parse (GET_lists_user_id id) w'
      = (Ok (res_status 404 (Message "No lists found for this user")),
         after (QFindWhere List "userId" (Number id)) (db w') w'))
  /\ (E = List ->
      app host_parse (GET_tasks_list_id id) w'
      = (Ok (res_status 404 (Message "No lists found for this user")),
         after (QFindWhere Task "listId" (Number id)) (db w') w')).
Proof.
  intros Happ Hst.
  destruct (delete_app_inv host_parse E id w w' resp Happ Hst)
    as (Hgt & k & Hk & _ & Hdb).
  destruct (num_to_int_Fin _ _ Hk) as [q Hq].
  split; [|split].
  - rewrite (get_app_eq host_parse E id Hgt), get_id_eq, Hq.
    rewrite (select_by_id_None E q (db w')); [reflexivity|].
    intros k' Hk'. rewrite Hq, Hk' in Hk. injection Hk as ->.
    rewrite Hdb. apply delete_row_gone.
  - intros ->. simpl app. rewrite (validateIdParam_pass id _ Hgt).
    rewrite get_lists_user_id_eq, Hq.
    rewrite (select_where_nil List "userId" q k (db w'));
      [reflexivity | rewrite <- Hq; exact Hk |].
    intros i row Hrow. rewrite Hdb in Hrow. simpl in Hrow.
    apply cascade_lookup in Hrow as [_ Hrow].
    apply refers_to_singleton. exact Hrow.
  - intros ->. simpl app. rewrite (validateIdParam_pass id _ Hgt).
    rewrite get_tasks_list_id_eq, Hq.
    rewrite (select_where_nil Task "listId" q k (db w'));
      [reflexivity | rewrite <- Hq; exact Hk |].
    intros i row Hrow. rewrite Hdb in Hrow. simpl in Hrow.
    apply cascade_lookup in Hrow as [_ Hrow].
    apply refers_to_singleton. exact Hrow.
Qed.

(** After [DELETE /users/1] on the example store, [GET /users/1] and
    [GET /lists/user/1] answer 404. *)
Lemma deleted_record_is_gone_witness :
  exists w',
    app no_host_parse (DELETE_users_id "1") example_world
    = (Ok (res_status 204 NoBody), w')
    /\ app no_host_parse (GET_users_id "1") w'
       = (Ok (res_status 404 (Message "User not found")),
          after (QFindOneBy User (Number "1")) (db w') w')
    /\ app no_host_parse (GET_lists_user_id "1") w'
       = (Ok (res_status 404 (Message "No lists found for this user")),
          after (QFindWhere List "userId" (Number "1")) (db w') w').
Proof.
  assert (Hgt : num_gt0 (Number "1") = true) by reflexivity.
  assert (Hk : num_to_int (Number "1") = Some 1) by reflexivity.
  assert (Hrow : is_Some (rows (table_of User (db example_world)) !! 1))
    by (eexists; reflexivity).
  pose proof (delete_app_204 no_host_parse User "1" 1 example_world
                Hgt Hk Hrow) as Happ.
  set (w' := after (QDelete User (Number "1"))
                   (delete_row User 1 (db example_world)) example_world)
    in *.
  assert (Hst : status (res_status 204 NoBody) = 204) by reflexivity.
  destruct (deleted_record_is_gone no_host_parse User "1" example_world w'
              (res_status 204 NoBody) Happ Hst) as (Hget & Hlists & _).
  exists w'. split; [exact Happ|]. split; [exact Hget | exact (Hlists eq_refl)].
Defined.

(** ** A due date that is not converted *)

Lemma validate_Task_not_a_date (e : obj) (j : json) :
  e !! "dueDate" = Some (J j) -> j <> JNull ->
  dueDate_must_be_a_Date ∈ validate Task e.
Proof.
  intros H Hj. unfold validate. apply list_elem_of_omap.
  exists {| property := "dueDate"; checks := [IsDate]; IsOptional := true |}.
  split.
  - simpl. do 3 apply list_elem_of_further. apply list_elem_of_here.
  - simpl. rewrite H. destruct j; try reflexivity. congruence.
Qed.

Lemma new_Date_throws (host_parse : string -> option Z) (v : jsval) :
  new_Date host_parse v = None -> truthy v = true.
Proof. destruct v as [[| | | | |]|]; simpl; try discriminate; reflexivity. Qed.

(** X13.  The [dueDate] of a [POST /tasks] body, where it is not turned
    into a date.  A falsy value other than [null] ([false], [0], the empty
    string) skips the conversion and fails [IsDate]: no task is created and
    the world is untouched, the answer being 400 with the [isDate] message,
    or 500 when [plainToInstance] throws on the body.  [null] skips both
    the conversion and, being optional, the check: a task that is created
    carries [null], not the epoch.  A value on which [new Date] throws (an
    object with a [toString] entry of its own) is answered 500, the world
    untouched. *)
Theorem post_tasks_unconverted_dueDate (host_parse : string -> option Z)
    (req_body : json_body) (v : json) (w : world) :
  req_body !! "dueDate" = Some v ->
  (truthy (J v) = false -> v <> JNull ->
   exists r,
     app host_parse (POST_tasks req_body) w = (Ok r, w)
     /\ match plainToInstance Task (J <$> req_body) with
        | Some _ =>
            exists cs,
              r = res_status 400 (Constraints cs)
              /\ [("isDate", "dueDate must be a Date instance")] ∈ cs
        | None => r = res_status 500 (Message "Error creating task")
        end)
  /\ (v = JNull ->
      forall r w',
        app host_parse (POST_tasks req_body) w = (Ok r, w') ->
        status r = 201 ->
        exists e, body r = Entity e /\ e !! "dueDate" = Some (J JNull))
  /\ (new_Date host_parse (J v) = None ->
      app host_parse (POST_tasks req_body) w
      = (Ok (res_status 500 (Message "Error creating task")), w)).
Proof.
  intros Hv.
  assert (Hskip : truthy (J v) = false ->
                  convert_dueDate host_parse (J <$> req_body)
                  = Some (J <$> req_body)).
  { intros Ht. unfold convert_dueDate. rewrite lookup_fmap, Hv.
    change (J <$> Some v) with (Some (J v)). cbv iota beta.
    rewrite Ht. reflexivity. }
  assert (Ldue : forall newTask,
             truthy (J v) = false ->
             plainToInstance Task (J <$> req_body) = Some newTask ->
             newTask !! "dueDate" = Some (J v)).
  { intros newTask Ht Hinst.
    apply (plainToInstance_scalar Task _ newTask "dueDate" _ Hinst);
      [reflexivity | rewrite lookup_fmap, Hv; reflexivity |].
    destruct v; try exact I; discriminate Ht. }
  split; [|split].
  - intros Ht Hnull.
    simpl app. rewrite post_tasks_eq, (Hskip Ht). simpl mbind.
    destruct (plainToInstance Task (J <$> req_body)) as [newTask|] eqn:Hinst;
      [|eexists; split; reflexivity].
    pose proof (validate_Task_not_a_date _ v (Ldue newTask Ht eq_refl) Hnull)
      as Hin.
    unfold validateEntity.
    destruct (validate Task newTask) as [|err errs] eqn:Hval;
      [inversion Hin|].
    eexists. split; [reflexivity|].
    exists (constraints <$> (err :: errs)). split; [reflexivity|].
    apply list_elem_of_fmap. exists dueDate_must_be_a_Date.
    split; [reflexivity | exact Hin].
  - intros -> r w' Happ Hst.
    destruct (post_tasks_201 _ _ _ _ _ Happ Hst)
      as (body' & newTask & e & Hb & Hinst & _ & Hbody & Hfields).
    rewrite (Hskip eq_refl) in Hb. injection Hb as <-.
    exists e. split; [exact Hbody|].
    rewrite Hfields by discriminate. exact (Ldue newTask eq_refl Hinst).
  - intros Hthrow. simpl app. rewrite post_tasks_eq.
    unfold convert_dueDate. rewrite lookup_fmap, Hv.
    change (J <$> Some v) with (Some (J v)). cbv iota beta.
    rewrite (new_Date_throws host_parse (J v) Hthrow), Hthrow. reflexivity.
Qed.

(** ["Buy milk"] due [0] is refused with 400; due [{toString: 1}] is
    answered 500. *)
Lemma post_tasks_unconverted_dueDate_witness :
  (exists cs,
      app no_host_parse (POST_tasks (due (JNum (num_of_Z 0)))) example_world
      = (Ok (res_status 400 (Constraints cs)), example_world)
      /\ [("isDate", "dueDate must be a Date instance")] ∈ cs)
  /\ app no_host_parse
         (POST_tasks (due (JObj [("toString", JNum (num_of_Z 1))])))
         example_world
     = (Ok (res_status 500 (Message "Error creating task")), example_world).
Proof.
  split.
  - assert (Hv : due (JNum (num_of_Z 0)) !! "dueDate"
                 = Some (JNum (num_of_Z 0))) by reflexivity.
    assert (Ht : truthy (J (JNum (num_of_Z 0))) = false) by reflexivity.
    assert (Hn : JNum (num_of_Z 0) <> JNull) by discriminate.
    assert (Hinst : is_Some (plainToInstance Task
                               (J <$> due (JNum (num_of_Z 0)))))
      by (eexists; reflexivity).
    destruct (proj1 (post_tasks_unconverted_dueDate no_host_parse _ _
                       example_world Hv) Ht Hn) as (r & Happ & Hr).
    destruct Hinst as [newTask Hinst]. rewrite Hinst in Hr.
    destruct Hr as (cs & -> & Hcs).
    exists cs. split; [exact Happ | exact Hcs].
  - assert (Hv : due (JObj [("toString", JNum (num_of_Z 1))]) !! "dueDate"
                 = Some (JObj [("toString", JNum (num_of_Z 1))]))
      by reflexivity.
    assert (Hd : new_Date no_host_parse
                   (J (JObj [("toString", JNum (num_of_Z 1))])) = None)
      by reflexivity.
    exact (proj2 (proj2 (post_tasks_unconverted_dueDate no_host_parse _ _
                           example_world Hv)) Hd).
Defined.

(** ** Listing the users *)

(** X14.  [GET /users] never answers 404: it is answered 200 with one
    entity for each row of the table, each carrying its key as [id], after
    one query; on an empty table the answer is 200 with the empty array. *)
Theorem get_users_lists_every_row (host_parse : string -> option Z)
    (w : world) :
  exists l,
    app host_parse GET_users w
    = (Ok (res_status 200 (Entities l)), after (QFind User) (db w) w)
    /\ length l = size (rows (users (db w)))
    /\ (forall e, e ∈ l <->
          exists k row, rows (users (db w)) !! k = Some row
                        /\ e = hydrate k row)
    /\ (rows (users (db w)) = ∅ -> l = []).
Proof.
  exists (select_all User (db w)).
  split; [simpl app; apply get_users_eq|].
  unfold select_all. simpl table_of.
  split; [rewrite length_fmap; apply length_map_to_list|].
  split.
  - intros e. rewrite list_elem_of_fmap. split.
    + intros ([k row] & -> & Hin). apply elem_of_map_to_list in Hin.
      exists k, row. auto.
    + intros (k & row & Hrow & ->). exists (k, row).
      split; [reflexivity|]. apply elem_of_map_to_list. exact Hrow.
  - intros ->. rewrite map_to_list_empty. reflexivity.
Qed.

(** ** An update whose body carries an id *)




(** ** Ids written in decimal *)

Lemma digit_cases (d : Z) :
  is_digit d ->
  d = 0 \/ d = 1 \/ d = 2 \/ d = 3 \/ d = 4 \/ d = 5 \/ d = 6 \/ d = 7
  \/ d = 8 \/ d = 9.
Proof. unfold is_digit. lia. Qed.

Ltac by_digit H :=
  apply digit_cases in H;
  repeat (destruct H as [H | H]); subst.

Lemma digit_val_char (d : Z) :
  is_digit d -> digit_val 10 (digit_char d) = Some d.
Proof. intros H. by_digit H; reflexivity. Qed.

Lemma is_ws_digit (d : Z) : is_digit d -> is_ws (digit_char d) = false.
Proof. intros H. by_digit H; reflexivity. Qed.

Lemma read_digits_decimal (ds : list Z) (acc cnt : Z) :
  Forall is_digit ds ->
  read_digits 10 (digit_char <$> ds) acc cnt
  = (foldl (fun acc d => acc * 10 + d) acc ds, cnt + Z.of_nat (length ds), []).
Proof.
  intros H. revert acc cnt. induction H as [|d ds Hd _ IH]; intros acc cnt.
  - simpl. rewrite Z.add_0_r. reflexivity.
  - cbn [fmap list_fmap read_digits]. rewrite (digit_val_char d Hd).
    rewrite IH. cbn [foldl]. f_equal. f_equal. cbn [length]. lia.
Qed.

Lemma drop_ws_id (l : list ascii) :
  Forall (fun c => is_ws c = false) l -> drop_ws l = l.
Proof. intros [|c r Hc _]; [reflexivity|]. simpl. rewrite Hc. reflexivity. Qed.

Lemma trim_ws_id (l : list ascii) :
  Forall (fun c => is_ws c = false) l -> trim_ws l = l.
Proof.
  intros H. unfold trim_ws. rewrite (drop_ws_id l H).
  rewrite drop_ws_id by (apply Forall_rev; exact H).
  apply rev_involutive.
Qed.

Lemma digits_no_ws (ds : list Z) :
  Forall is_digit ds -> Forall (fun c => is_ws c = false) (digit_char <$> ds).
Proof.
  intros H. apply Forall_fmap. eapply Forall_impl; [exact H|].
  intros d Hd. apply is_ws_digit. exact Hd.
Qed.

Lemma floor_log2_1 (p : positive) : floor_log2 p 1 = Z.log2 (Zpos p).
Proof.
  unfold floor_log2. change (Z.log2 1) with 0. rewrite Z.sub_0_r.
  pose proof (Z.log2_nonneg (Zpos p)) as H0.
  pose proof (Z.log2_spec (Zpos p) (Pos2Z.is_pos p)) as [H1 _].
  destruct (Z.leb_spec 0 (Z.log2 (Zpos p))) as [_|]; [|lia].
  destruct (Z.ltb_spec (Zpos p) (1 * 2 ^ Z.log2 (Zpos p))) as [|_]; [lia|].
  reflexivity.
Qed.

Lemma round_half_even_1 (n : Z) : round_half_even n 1 = n.
Proof.
  unfold round_half_even. rewrite Z.mod_1_r, Z.div_1_r. reflexivity.
Qed.

Lemma Qred_integer (n : Z) : Qred (inject_Z n) = inject_Z n.
Proof.
  unfold Qred, inject_Z.
  pose proof (Z.ggcd_gcd n 1) as Hg.
  pose proof (Z.ggcd_correct_divisors n 1) as Hd.
  destruct (Z.ggcd n 1) as [g [aa bb]]. simpl in Hg, Hd.
  rewrite Z.gcd_1_r in Hg. subst g. destruct Hd as [Ha Hb].
  assert (Haa : aa = n) by lia. assert (Hbb : bb = 1) by lia.
  clear Ha Hb. subst aa bb. reflexivity.
Qed.

(** An integer below [2^53] is a binary64 value: rounding keeps it. *)
Lemma b64_integer (n : Z) :
  0 <= n < 2 ^ 53 -> b64 (inject_Z n) = num_of_Z n.
Proof.
  intros [H0 H53]. unfold b64, num_of_Z, inject_Z. cbn [Qnum Qden].
  destruct n as [|p|p]; [reflexivity| |lia].
  unfold b64_pos. rewrite floor_log2_1.
  assert (HL : 0 <= Z.log2 (Zpos p) <= 52).
  { split; [apply Z.log2_nonneg|].
    assert (Z.log2 (Zpos p) < 53) by (apply Z.log2_lt_pow2; lia). lia. }
  rewrite Z.max_l by lia.
  destruct (Z.leb_spec 0 (Z.log2 (Zpos p) - 52)) as [He|He].
  - assert (Z.log2 (Zpos p) - 52 = 0) as -> by lia.
    change (2 ^ 0) with 1. rewrite !Z.mul_1_r.
    rewrite round_half_even_1.
    destruct (Z.leb_spec (2 ^ 1024) (Zpos p)) as [Hbig|_]; [|reflexivity].
    assert (2 ^ 53 < 2 ^ 1024) by (apply Z.pow_lt_mono_r; lia). lia.
  - rewrite round_half_even_1. f_equal.
    set (c := 2 ^ (- (Z.log2 (Zpos p) - 52))).
    assert (Hc : 0 < c) by (apply Z.pow_pos_nonneg; lia).
    transitivity (Qred (inject_Z (Zpos p))); [|apply Qred_integer].
    apply Qred_complete. unfold inject_Z. unfold Qeq. cbn [Qnum Qden].
    rewrite Z2Pos.id by exact Hc. lia.
Qed.

Lemma list_ascii_decimal (ds : list Z) :
  list_ascii_of_string (decimal ds) = digit_char <$> ds.
Proof. apply list_ascii_of_string_of_list_ascii. Qed.

Lemma not_Infinity (d : Z) (s : string) :
  is_digit d -> String.eqb (String (digit_char d) s) "Infinity" = false.
Proof. intros H. by_digit H; reflexivity. Qed.

Lemma not_Infinity_digits (ds : list Z) :
  ds <> [] -> Forall is_digit ds ->
  String.eqb (string_of_list_ascii (digit_char <$> ds)) "Infinity" = false.
Proof.
  intros Hne Hds. destruct Hds as [|d l Hd _]; [congruence|].
  cbn [fmap list_fmap string_of_list_ascii]. apply not_Infinity. exact Hd.
Qed.

Lemma read_unsigned_decimal_digits (ds : list Z) :
  ds <> [] -> Forall is_digit ds -> value ds < 2 ^ 53 ->
  read_unsigned_decimal (digit_char <$> ds) = num_of_Z (value ds).
Proof.
  intros Hne Hds Hv. unfold read_unsigned_decimal.
  rewrite (not_Infinity_digits ds Hne Hds).
  rewrite (read_digits_decimal ds 0 0 Hds). cbv beta iota zeta.
  destruct (Z.eqb_spec (0 + Z.of_nat (length ds)) 0) as [H|_];
    [destruct ds; [congruence | simpl in H; lia]|].
  apply b64_integer. split; [|exact Hv].
  unfold value. clear Hne Hv.
  assert (Hge : forall l acc, Forall is_digit l -> 0 <= acc ->
                  0 <= foldl (fun acc d => acc * 10 + d) acc l).
  { intros l acc Hl. revert acc.
    induction Hl as [|x l Hx _ IH]; intros acc Hacc; [exact Hacc|].
    simpl. apply IH. unfold is_digit in Hx. lia. }
  apply Hge; [exact Hds | lia].
Qed.

Lemma StringToNumber_digits (ds : list Z) :
  ds <> [] -> Forall is_digit ds ->
  StringToNumber (digit_char <$> ds) = read_unsigned_decimal (digit_char <$> ds).
Proof.
  intros Hne Hds. unfold StringToNumber.
  rewrite (trim_ws_id _ (digits_no_ws ds Hds)).
  destruct Hds as [|d ds Hd Hds]; [congruence|].
  cbn [fmap list_fmap].
  by_digit Hd; try reflexivity.
  destruct Hds as [|p ds Hp Hds]; [reflexivity|].
  by_digit Hp; reflexivity.
Qed.

Lemma Number_decimal (ds : list Z) :
  ds <> [] -> Forall is_digit ds -> value ds < 2 ^ 53 ->
  Number (decimal ds) = num_of_Z (value ds).
Proof.
  intros Hne Hds Hv. unfold Number. rewrite list_ascii_decimal.
  rewrite (StringToNumber_digits ds Hne Hds).
  exact (read_unsigned_decimal_digits ds Hne Hds Hv).
Qed.

Lemma Number_minus_decimal (ds : list Z) :
  ds <> [] -> Forall is_digit ds -> value ds < 2 ^ 53 ->
  Number (String "-" (decimal ds)) = num_neg (num_of_Z (value ds)).
Proof.
  intros Hne Hds Hv. unfold Number.
  cbn [list_ascii_of_string]. rewrite list_ascii_decimal.
  unfold StringToNumber.
  rewrite trim_ws_id
    by (constructor; [reflexivity | exact (digits_no_ws ds Hds)]).
  change (code "-" =? 45) with true. cbv iota.
  rewrite (read_unsigned_decimal_digits ds Hne Hds Hv). reflexivity.
Qed.

Lemma value_nonneg (ds : list Z) : Forall is_digit ds -> 0 <= value ds.
Proof.
  assert (Hge : forall l acc, Forall is_digit l -> 0 <= acc ->
                  0 <= foldl (fun acc d => acc * 10 + d) acc l).
  { intros l acc Hl. revert acc.
    induction Hl as [|x l Hx _ IH]; intros acc Hacc; [exact Hacc|].
    simpl. apply IH. unfold is_digit in Hx. lia. }
  intros Hds. apply Hge; [exact Hds | lia].
Qed.

(** X16.  The id check on ids written in decimal.  A non-empty string of
    decimal digits (leading zeros allowed) that spells an integer below
    [2^53] converts to exactly that integer; [validateIdParam] lets it
    through when the integer is positive and answers 400 when it is zero.
    The same digits after a minus sign are always answered 400. *)
Theorem decimal_ids_pass_the_id_check (ds : list Z) (next : M response)
    (w : world) :
  ds <> [] -> Forall is_digit ds -> value ds < 2 ^ 53 ->
  Number (decimal ds) = num_of_Z (value ds)
  /\ num_to_int (Number (decimal ds)) = Some (value ds)
  /\ (0 < value ds -> validateIdParam (decimal ds) next w = next w)
  /\ (value ds = 0 ->
      validateIdParam (decimal ds) next w
      = (Ok (res_status 400 (Message "Invalid ID parameter")), w))
  /\ validateIdParam (String "-" (decimal ds)) next w
     = (Ok (res_status 400 (Message "Invalid ID parameter")), w).
Proof.
  intros Hne Hds Hv.
  pose proof (Number_decimal ds Hne Hds Hv) as HN.
  pose proof (value_nonneg ds Hds) as H0.
  split; [exact HN|].
  split; [rewrite HN; apply num_to_int_of_Z|].
  split; [|split].
  - intros Hpos. rewrite validateIdParam_pass; [reflexivity|].
    rewrite HN. simpl. apply Z.ltb_lt. exact Hpos.
  - intros Hz. apply validateIdParam_reject.
    rewrite HN, Hz. reflexivity.
  - apply validateIdParam_reject.
    rewrite (Number_minus_decimal ds Hne Hds Hv).
    unfold num_neg, num_of_Z.
    change (- inject_Z (value ds))%Q with (inject_Z (- value ds)).
    rewrite Qred_integer. simpl. apply Z.ltb_ge. lia.
Qed.

(** ["042"] is the id 42; ["000"] and ["-42"] are refused. *)
Lemma decimal_ids_pass_the_id_check_witness :
  decimal [0; 4; 2] = "042"
  /\ Number "042" = num_of_Z 42
  /\ (forall next w, validateIdParam "042" next w = next w)
  /\ (forall next w,
         validateIdParam "-042" next w
         = (Ok (res_status 400 (Message "Invalid ID parameter")), w)).
Proof.
  assert (Hne : [0; 4; 2] <> []) by discriminate.
  assert (Hds : Forall is_digit [0; 4; 2])
    by (repeat constructor; unfold is_digit; lia).
  assert (Hv : value [0; 4; 2] < 2 ^ 53) by reflexivity.
  assert (Hpos : 0 < value [0; 4; 2]) by reflexivity.
  split; [reflexivity|].
  split;
    [exact (proj1 (decimal_ids_pass_the_id_check [0; 4; 2] (mret (res_json NoBody))
                     example_world Hne Hds Hv))|].
  split; intros next w.
  - exact (proj1 (proj2 (proj2 (decimal_ids_pass_the_id_check [0; 4; 2] next w
                                  Hne Hds Hv))) Hpos).
  - exact (proj2 (proj2 (proj2 (proj2 (decimal_ids_pass_the_id_check [0; 4; 2]
                                         next w Hne Hds Hv))))).
Defined.

(** ** The counters of the tables *)

Lemma set_table_counter (E P : entity) (t : table) (s : store) :
  AUTO_INCREMENT (table_of E s) <= AUTO_INCREMENT t ->
  AUTO_INCREMENT (table_of P s) <= AUTO_INCREMENT (table_of P (set_table E t s)).
Proof. destruct E, P; simpl; lia. Qed.

Lemma persist_counter (E P : entity) (e e' : obj) (s s' : store) :
  persist E e s = Some (e', s') ->
  AUTO_INCREMENT (table_of P s) <= AUTO_INCREMENT (table_of P s').
Proof.
  assert (Hins : forall k s0,
             insert_row E k e s = Some s0 ->
             AUTO_INCREMENT (table_of P s)
             <= AUTO_INCREMENT (table_of P s0)).
  { intros k s0. unfold insert_row.
    destruct (_ && _); [|discriminate]. intros [= <-].
    apply set_table_counter. simpl. lia. }
  assert (Hgen : insert_generated E e s = Some (e', s') ->
            AUTO_INCREMENT (table_of P s)
            <= AUTO_INCREMENT (table_of P s')).
  { unfold insert_generated. intros H.
    apply bind_Some in H as (s0 & Hi & [= <- <-]). eauto. }
  unfold persist.
  destruct (e !! "id") as [[[| |n| | |]|]|]; try discriminate; auto.
  destruct (num_to_int n) as [k|]; [|discriminate].
  destruct (rows (table_of E s) !! k) as [old|];
    [|destruct (k =? 0); [exact Hgen|]]; intros H;
    apply bind_Some in H as (s0 & Hw & [= <- <-]); [|eauto].
  unfold update_row in Hw.
  destruct (row_ok _ _ _); [|discriminate]. injection Hw as <-.
  apply set_table_counter. simpl. lia.
Qed.

Lemma remove_counter (E P : entity) (x : jsnum) (n : Z) (s s' : store) :
  remove E x s = Some (n, s') ->
  AUTO_INCREMENT (table_of P s') = AUTO_INCREMENT (table_of P s).
Proof.
  intros H.
  destruct (remove_cases E x s s' n H)
    as [(_ & -> & _) | (_ & k & _ & _ & ->)]; [reflexivity|].
  destruct E, P; reflexivity.
Qed.

Lemma app_counter (host_parse : string -> option Z) (r : request) (w : world)
    (P : entity) :
  AUTO_INCREMENT (table_of P (db w))
  <= AUTO_INCREMENT (table_of P (db (app host_parse r w).2)).
Proof.
  destruct (app_effect host_parse r w)
    as (resp & w' & qs & -> & _ & _ & Heff). simpl.
  destruct Heff as [[-> _]
                   | [(E & e & e' & Hsave & _)
                     | (E & x & Hrm & _)]].
  - lia.
  - exact (persist_counter E P e e' _ _ Hsave).
  - rewrite (remove_counter E P x 1 _ _ Hrm). lia.
Qed.

Lemma serve_counter (host_parse : string -> option Z) (rs : list request)
    (w : world) (P : entity) :
  AUTO_INCREMENT (table_of P (db w))
  <= AUTO_INCREMENT (table_of P (db (serve host_parse rs w))).
Proof.
  unfold serve. revert w. induction rs as [|r rs IH]; intros w; simpl; [lia|].
  pose proof (app_counter host_parse r w P). specialize (IH (app host_parse r w).2).
  lia.
Qed.

(** The id a create without [id] is answered with is the counter of the
    table, which then moves on by one. *)
Lemma created_id (host_parse : string -> option Z) (E : entity)
    (req_body : json_body) (w w' : world) (resp : response) :
  req_body !! "id" = None ->
  app host_parse (POST_to E req_body) w = (Ok resp, w') ->
  status resp = 201 ->
  exists e,
    body resp = Entity e
    /\ e !! "id" = Some (jnum (AUTO_INCREMENT (table_of E (db w))))
    /\ AUTO_INCREMENT (table_of E (db w'))
       = AUTO_INCREMENT (table_of E (db w)) + 1.
Proof.
  intros Hnoid Happ Hst. rewrite post_to_eq in Happ.
  destruct (converted host_parse E (J <$> req_body)) as [body'|] eqn:Hconv;
    [|injection Happ as <- _; discriminate Hst].
  simpl mbind in Happ.
  destruct (plainToInstance E body') as [e|] eqn:Hinst;
    [|injection Happ as <- _; discriminate Hst].
  destruct (validateEntity E e) as [error|] eqn:Hval.
  { injection Happ as <- _.
    rewrite (validateEntity_status _ _ _ Hval) in Hst. discriminate Hst. }
  pose proof (instance_without_id _ _ _ _ _ Hconv Hinst Hnoid) as Hid.
  unfold persist, insert_generated in Happ. rewrite Hid in Happ.
  unfold insert_row in Happ.
  destruct (_ && _); [|injection Happ as <- _; discriminate Hst].
  simpl in Happ. injection Happ as <- <-.
  exists (hydrate (AUTO_INCREMENT (table_of E (db w))) e).
  split; [reflexivity|]. split; [apply hydrate_lookup_id|].
  cbn [db after]. rewrite table_of_set_table. cbn [AUTO_INCREMENT]. lia.
Qed.

(** X17.  No request moves a counter back, so a create never answers with
    an id it gave out before: of two creates without [id] on the same
    table that are answered 201, with any requests served in between (the
    deletion of the first record included), the later one is answered with
    the larger id. *)
Theorem created_ids_are_never_reused (host_parse : string -> option Z)
    (E : entity) (body1 body2 : json_body) (between : list request)
    (w w1 w2 : world) (r1 r2 : response) :
  body1 !! "id" = None ->
  body2 !! "id" = None ->
  app host_parse (POST_to E body1) w = (Ok r1, w1) ->
  status r1 = 201 ->
  app host_parse (POST_to E body2) (serve host_parse between w1)
  = (Ok r2, w2) ->
  status r2 = 201 ->
  exists e1 e2 k1 k2,
    body r1 = Entity e1 /\ e1 !! "id" = Some (jnum k1)
    /\ body r2 = Entity e2 /\ e2 !! "id" = Some (jnum k2)
    /\ k1 < k2.
Proof.
  intros Hid1 Hid2 Happ1 Hst1 Happ2 Hst2.
  destruct (created_id host_parse E body1 w w1 r1 Hid1 Happ1 Hst1)
    as (e1 & Hb1 & He1 & Hai1).
  destruct (created_id host_parse E body2 _ w2 r2 Hid2 Happ2 Hst2)
    as (e2 & Hb2 & He2 & _).
  pose proof (serve_counter host_parse between w1 E) as Hmono.
  exists e1, e2. eexists; eexists.
  split; [exact Hb1|]. split; [exact He1|].
  split; [exact Hb2|]. split; [exact He2|]. lia.
Qed.

(** In the empty store: Ann is user 1; after she is deleted, Ben is
    user 2. *)
Lemma created_ids_are_never_reused_witness :
  exists e1 e2 k1 k2,
    body (answer (app no_host_parse (POST_users {[ "name" := JStr "Ann" ]})
                      empty_world))
    = Entity e1
    /\ e1 !! "id" = Some (jnum k1)
    /\ body (answer
               (app no_host_parse (POST_users {[ "name" := JStr "Ben" ]})
                    (serve no_host_parse [DELETE_users_id "1"]
                       (app no_host_parse
                            (POST_users {[ "name" := JStr "Ann" ]})
                            empty_world).2)))
       = Entity e2
    /\ e2 !! "id" = Some (jnum k2)
    /\ k1 < k2.
Proof.
  set (a := ({[ "name" := JStr "Ann" ]} : json_body)).
  set (b := ({[ "name" := JStr "Ben" ]} : json_body)).
  assert (Ha : a !! "id" = None) by reflexivity.
  assert (Hb : b !! "id" = None) by reflexivity.
  assert (H1 : app no_host_parse (POST_to User a) empty_world
               = (Ok (answer (app no_host_parse (POST_users a) empty_world)),
                  (app no_host_parse (POST_users a) empty_world).2))
    by reflexivity.
  assert (S1 : status (answer (app no_host_parse (POST_users a) empty_world))
               = 201) by reflexivity.
  set (w1 := (app no_host_parse (POST_users a) empty_world).2) in *.
  assert (H2 : app no_host_parse (POST_to User b)
                   (serve no_host_parse [DELETE_users_id "1"] w1)
               = (Ok (answer (app no_host_parse (POST_users b)
                                  (serve no_host_parse [DELETE_users_id "1"]
                                         w1))),
                  (app no_host_parse (POST_users b)
                       (serve no_host_parse [DELETE_users_id "1"] w1)).2))
    by reflexivity.
  assert (S2 : status (answer (app no_host_parse (POST_users b)
                                   (serve no_host_parse [DELETE_users_id "1"]
                                          w1)))
               = 201) by reflexivity.
  exact (created_ids_are_never_reused no_host_parse User a b
           [DELETE_users_id "1"] empty_world w1 _ _ _ Ha Hb H1 S1 H2 S2).
Defined.

(** ** Properties of the body that are no columns *)

Lemma not_column_not_data (E : entity) (c : string) :
  c ∉ columns E -> c ∉ data_columns E.
Proof. intros Hc Hd. apply Hc. exact (proj1 (columns_data E c Hd)). Qed.

Lemma converted_lookup_other (host_parse : string -> option Z) (E : entity)
    (b b' : obj) (c : string) :
  converted host_parse E b = Some b' -> c ∉ columns E -> b' !! c = b !! c.
Proof.
  intros H Hc. destruct E; try (simpl in H; injection H as <-; reflexivity).
  apply (converted_lookup host_parse Task b b' c H).
  intros ->. apply Hc. apply (bool_decide_unpack _). vm_compute. exact I.
Qed.

Lemma write_row_lookup_other (E : entity) (e old : obj) (c : string) :
  c ∉ data_columns E -> write_row E e old !! c = None.
Proof.
  intros Hc. unfold write_row. apply not_elem_of_list_to_map_1.
  intros Hin. apply list_elem_of_fmap in Hin as ([c' v'] & Heq & Hin).
  apply list_elem_of_fmap in Hin as (c'' & [= -> ->] & Hin).
  simpl in Heq. subst c. exact (Hc Hin).
Qed.

(** X18.  A property of a create body that is no column of the entity,
    and that [plainToInstance] copies (its name is not [__proto__],
    [constructor] or that of a method of every object), is not stored: when
    a request without [id] is answered 201, the entity in the response
    carries the copy of the value, which is the value itself unless it is
    an array or an object, while the row that was stored for that entity
    does not hold the property. *)
Theorem unknown_properties_are_answered_not_stored
    (host_parse : string -> option Z) (E : entity) (req_body : json_body)
    (c : string) (v : json) (w w' : world) (resp : response) :
  req_body !! c = Some v ->
  c ∉ columns E ->
  not_copied c = false ->
  req_body !! "id" = None ->
  app host_parse (POST_to E req_body) w = (Ok resp, w') ->
  status resp = 201 ->
  exists e v' k row,
    body resp = Entity e
    /\ transform v = Some v'
    /\ e !! c = Some (J v')
    /\ match v with JArr _ | JObj _ => True | _ => v' = v end
    /\ e !! "id" = Some (jnum k)
    /\ rows (table_of E (db w')) !! k = Some row
    /\ row !! c = None.
Proof.
  intros Hv Hc Hcopied Hnoid Happ Hst. rewrite post_to_eq in Happ.
  destruct (converted host_parse E (J <$> req_body)) as [body'|] eqn:Hconv;
    [|injection Happ as <- _; discriminate Hst].
  simpl mbind in Happ.
  destruct (plainToInstance E body') as [e|] eqn:Hinst;
    [|injection Happ as <- _; discriminate Hst].
  destruct (validateEntity E e) as [error|] eqn:Hval.
  { injection Happ as <- _.
    rewrite (validateEntity_status _ _ _ Hval) in Hst. discriminate Hst. }
  destruct (persist E e (db w)) as [[saved s']|] eqn:Hsave;
    [|injection Happ as <- _; discriminate Hst].
  injection Happ as <- <-. cbn [db after body res_status].
  pose proof (instance_without_id _ _ _ _ _ Hconv Hinst Hnoid) as Hid.
  pose proof (persist_generated E e saved (db w) s' Hid Hsave) as Hsid.
  destruct (persist_rows E e saved (db w) s' Hsave)
    as (k & old & Hk & Hrows & _).
  assert (Hkey : k = AUTO_INCREMENT (table_of E (db w))).
  { unfold ref_of in Hk. rewrite Hsid in Hk. unfold jnum in Hk.
    rewrite num_to_int_of_Z in Hk. congruence. }
  assert (Hb : body' !! c = Some (J v)).
  { rewrite (converted_lookup_other host_parse E _ _ c Hconv Hc).
    rewrite lookup_fmap, Hv. reflexivity. }
  destruct (plainToInstance_copies E body' e c (J v) Hinst Hcopied Hb)
    as (jv' & Ht & He).
  simpl in Ht. apply fmap_Some in Ht as (v' & Ht & ->).
  exists saved, v', k, (write_row E e old).
  split; [reflexivity|]. split; [exact Ht|]. split.
  { assert (Hne : c <> "id")
      by (intros ->; apply Hc; destruct E; apply list_elem_of_here).
    rewrite (persist_keeps_fields E e saved _ _ c Hsave Hne). exact He. }
  split.
  { destruct v; try exact I; simpl in Ht; congruence. }
  split; [rewrite Hkey; exact Hsid|].
  split; [rewrite Hrows; apply lookup_insert_eq|].
  apply write_row_lookup_other, not_column_not_data. exact Hc.
Qed.

(** A user created with [{name: "Ann", admin: true}] in the empty store is
    answered with [admin: true]. *)
Lemma unknown_properties_are_answered_not_stored_witness :
  exists e v' k row,
    body (answer (app no_host_parse
                      (POST_users {[ "name" := JStr "Ann";
                                     "admin" := JBool true ]})
                      empty_world))
    = Entity e
    /\ transform (JBool true) = Some v'
    /\ e !! "admin" = Some (J v')
    /\ v' = JBool true
    /\ e !! "id" = Some (jnum k)
    /\ rows (users (db (app no_host_parse
                            (POST_users {[ "name" := JStr "Ann";
                                           "admin" := JBool true ]})
                            empty_world).2)) !! k = Some row
    /\ row !! "admin" = None.
Proof.
  set (b := ({[ "name" := JStr "Ann"; "admin" := JBool true ]} : json_body)).
  assert (Hv : b !! "admin" = Some (JBool true)) by reflexivity.
  assert (Hc : "admin" ∉ columns User).
  { apply (bool_decide_unpack _). vm_compute. exact I. }
  assert (Hp : not_copied "admin" = false) by reflexivity.
  assert (Hnoid : b !! "id" = None) by reflexivity.
  assert (Happ : app no_host_parse (POST_to User b) empty_world
                 = (Ok (answer (app no_host_parse (POST_users b) empty_world)),
                    (app no_host_parse (POST_users b) empty_world).2))
    by reflexivity.
  assert (Hst : status (answer (app no_host_parse (POST_users b) empty_world))
                = 201) by reflexivity.
  exact (unknown_properties_are_answered_not_stored no_host_parse User b
           "admin" (JBool true) empty_world _ _ Hv Hc Hp Hnoid Happ Hst).
Defined.

(** ** Updating twice *)












